(** * bootstrap.py: a shallow embedding and its verified properties

    The script [bootstrap.py] prepares a development environment: it asks
    the user for confirmation, locates the git checkout, creates a virtual
    environment and installs a fixed list of tools into it.

    The embedding follows the source function by function.  The outside
    world (platform, child processes, the [git] answer, the layout that
    [venv.create] produces) is a record of oracles; the mutable part (the
    file system, the pending standard input, the two [lru_cache] tables and
    the trace of interactions) is threaded through a small state-and-exit
    monad.  [sys.exit] and uncaught exceptions are outcomes of that monad.

    Strings are sequences of code points below 256; [Path] objects are
    lists of components below the anchor.

    What the embedding takes for granted: [venv.create] succeeds and is the
    only step that changes which paths exist (child processes do not
    create or remove the paths the script tests); the user's interrupt
    arrives while [input] waits; a successful [git rev-parse] prints a
    path, which is handed over as a [Path]; the [print] calls cannot
    fail.  The exit status is the one a POSIX parent reads, the low eight
    bits of what [sys.exit] was given. *)

From Stdlib Require Import String Ascii List ZArith Bool Lia.
Import ListNotations.
Local Open Scope string_scope.
Local Open Scope list_scope.

Set Implicit Arguments.

(** ** Strings: [str.lower], [str.strip], truthiness *)

Module Str.

(** [str.lower] on code points below 256: the ASCII capitals and the
    Latin-1 capitals (U+00C0..U+00DE without the multiplication sign
    U+00D7) move up by 32. *)
Definition lower_char (c : ascii) : ascii :=
  let n := nat_of_ascii c in
  if ((65 <=? n) && (n <=? 90))%nat
     || ((192 <=? n) && (n <=? 222) && negb (n =? 215))%nat
  then ascii_of_nat (n + 32) else c.

Fixpoint lower (s : string) : string :=
  match s with
  | EmptyString => EmptyString
  | String c r => String (lower_char c) (lower r)
  end.

(** The characters [str.strip] removes when called without argument:
    the code points below 256 for which [str.isspace] holds. *)
Definition is_space (c : ascii) : bool :=
  let n := nat_of_ascii c in
  (((9 <=? n) && (n <=? 13)) || ((28 <=? n) && (n <=? 32))
   || (n =? 133) || (n =? 160))%nat.

Fixpoint lstrip (s : string) : string :=
  match s with
  | EmptyString => EmptyString
  | String c r => if is_space c then lstrip r else s
  end.

Fixpoint rstrip (s : string) : string :=
  match s with
  | EmptyString => EmptyString
  | String c r =>
      match rstrip r with
      | EmptyString => if is_space c then EmptyString else String c EmptyString
      | r' => String c r'
      end
  end.

Definition strip (s : string) : string := rstrip (lstrip s).

(** Python truthiness of a string: non-empty. *)
Definition truthy (s : string) : bool :=
  match s with EmptyString => false | _ => true end.

(** [x in (a, b, ...)] for a tuple of strings. *)
Definition mem (x : string) (l : list string) : bool :=
  existsb (String.eqb x) l.

End Str.

(** ** Paths and command arguments *)

(** A [pathlib.Path], as the list of its components below the anchor. *)
Definition Path := list string.

(** [p / c] *)
Definition path_div (p : Path) (c : string) : Path := p ++ [c].
Notation "p // c" := (path_div p c) (at level 40, left associativity).

Definition path_eqb (p q : Path) : bool :=
  if list_eq_dec string_dec p q then true else false.

(** [p.parents]: the proper ancestors, nearest first. *)
Fixpoint prefixes (p : Path) : list Path :=
  match p with
  | [] => [[]]
  | c :: r => [] :: map (cons c) (prefixes r)
  end.

Definition parents (p : Path) : list Path := tl (rev (prefixes p)).

(** An element of a command list: the source passes [str] and [Path]. *)
Inductive arg : Type :=
| Str (s : string)
| PathArg (p : Path).

Definition Command := list arg.

Definition arg_eqb (a b : arg) : bool :=
  match a, b with
  | Str x, Str y => String.eqb x y
  | PathArg p, PathArg q => path_eqb p q
  | _, _ => false
  end.

Fixpoint command_eqb (c d : Command) : bool :=
  match c, d with
  | [], [] => true
  | a :: c', b :: d' => arg_eqb a b && command_eqb c' d'
  | _, _ => false
  end.

(** ** InstallSpec *)

Record InstallSpec : Type := mkInstallSpec {
  name : string;
  version : string;
  extras : string
}.

(** [a or b] on strings. *)
Definition str_or (a b : string) : string := if Str.truthy a then a else b.

Module InstallSpecMethods.
(** [InstallSpec.__str__] *)
Definition __str__ (self : InstallSpec) : string :=
  (name self ++ extras self ++ str_or (version self) " (latest)")%string.
End InstallSpecMethods.

Definition BOOTSTRAP_MODULES : list InstallSpec :=
  [ mkInstallSpec "uv" ">=0.9.18" "";
    mkInstallSpec "tox" ">=4.32.0" "";
    mkInstallSpec "tox-uv" ">=1.29.0" "" ].

(** ** Exceptions and pure validation *)

Inductive exn : Type :=
| TypeError
| ValueError
| KeyError
| IndexError
| FileNotFoundError
| EOFError
| KeyboardInterrupt
| OSError      (* an [OSError] that is not a [FileNotFoundError] *)
| SyntaxError
| Unmodelled.  (* the source leaves the fragment this embedding covers *)

Definition is_Str (a : arg) : bool :=
  match a with Str _ => true | PathArg _ => false end.

(** [_validate_command]: a non-empty list whose items after the first are
    strings.  [None] means the check passes. *)
Definition _validate_command (lst : Command) : option exn :=
  match lst with
  | [] => Some ValueError
  | _ :: rest => if forallb is_Str rest then None else Some TypeError
  end.

(** The body of the [for] loop of [_build_install_command]. *)
Definition spec_str_of (module : InstallSpec) : string :=
  let spec_str := name module in
  let spec_str :=
    if Str.truthy (extras module) then (spec_str ++ extras module)%string
    else spec_str in
  let spec_str :=
    if Str.truthy (version module) then (spec_str ++ version module)%string
    else spec_str in
  spec_str.

Fixpoint append_specs (command : Command) (modules : list InstallSpec) : Command :=
  match modules with
  | [] => command
  | module :: rest => append_specs (command ++ [Str (spec_str_of module)]) rest
  end.

(** [_build_install_command] *)
Definition _build_install_command (base_command : Command)
    (modules : list InstallSpec) : exn + Command :=
  match _validate_command base_command with
  | Some e => inl e
  | None => inr (append_specs (base_command ++ [Str "install"; Str "-U"]) modules)
  end.

(** ** The outside world, the program state and the trace *)

(** A piece of a printed line: literal text or a formatted value. *)
Inductive frag : Type :=
| FStr (s : string)
| FPath (p : Path)
| FArg (a : arg)
| FInt (z : Z).

(** What the program does to the outside world, in order. *)
Inductive Event : Type :=
| Spawn (cmd : Command)        (* a child process is started *)
| CreateVenv (dir : Path)      (* [venv.create(dir, with_pip=True)] *)
| Input (prompt : string)      (* [input(prompt)] *)
| Print (line : list frag).    (* [print(...)] *)

(** What the user does at one [input] call: a line is typed (given
    without its newline), or the call is interrupted. *)
Inductive InputEvent : Type :=
| Line (s : string)
| Interrupt.

(** How a child process ends: it is not found; or it runs and returns a
    code, negative when a signal killed it; or the system refuses to start
    it for another reason, as for a file that exists and is not
    executable ([PermissionError]). *)
Inductive ProcResult : Type :=
| NotFound
| Completed (returncode : Z)
| NotStarted.

(** The part of the environment the program cannot change. *)
Record World : Type := mkWorld {
  win32 : bool;                               (* [sys.platform == "win32"] *)
  version_info : Z * Z;                       (* major, minor *)
  cwd : Path;                                 (* [Path.cwd()] *)
  proc : list Event -> Command -> ProcResult; (* a child, after a history *)
  git_toplevel : Path;      (* what a successful [git rev-parse] prints *)
  venv_layout : Path -> list Path  (* the files [venv.create] makes in a dir *)
}.

Record State : Type := mkState {
  dirs : list Path;
  files : list Path;
  stdin : list InputEvent;
  git_root_cache : option Path;          (* [lru_cache] of [get_git_root] *)
  pip_cache : list (Path * bool);        (* of [pip_module_is_available] *)
  trace : list Event
}.

Definition log (e : Event) (s : State) : State :=
  mkState (dirs s) (files s) (stdin s) (git_root_cache s) (pip_cache s)
          (trace s ++ [e]).

Definition set_stdin (i : list InputEvent) (s : State) : State :=
  mkState (dirs s) (files s) i (git_root_cache s) (pip_cache s) (trace s).

Definition set_git_root_cache (p : Path) (s : State) : State :=
  mkState (dirs s) (files s) (stdin s) (Some p) (pip_cache s) (trace s).

Definition set_pip_cache (c : list (Path * bool)) (s : State) : State :=
  mkState (dirs s) (files s) (stdin s) (git_root_cache s) c (trace s).

Definition add_venv (dir : Path) (created : list Path) (s : State) : State :=
  mkState (dir :: dirs s) (created ++ files s) (stdin s) (git_root_cache s)
          (pip_cache s) (trace s).

Definition path_mem (p : Path) (l : list Path) : bool := existsb (path_eqb p) l.

(** [p.is_dir()] and [p.exists()] *)
Definition is_dir (s : State) (p : Path) : bool := path_mem p (dirs s).
Definition exists_ (s : State) (p : Path) : bool :=
  path_mem p (dirs s) || path_mem p (files s).

(** ** The monad: state, [sys.exit] and exceptions *)

Inductive raised : Type :=
| Exn (e : exn)
| CalledProcessError (returncode : Z).

Inductive Outcome (A : Type) : Type :=
| Ret (a : A) (s : State)
| Exit (code : Z) (s : State)       (* [sys.exit(code)] *)
| Raise (e : raised) (s : State).
Arguments Exit {A} code s.
Arguments Raise {A} e s.

Definition M (A : Type) : Type := State -> Outcome A.

Definition ret {A} (a : A) : M A := fun s => Ret a s.

Definition bind {A B} (c : M A) (k : A -> M B) : M B :=
  fun s => match c s with
           | Ret a s' => k a s'
           | Exit code s' => Exit code s'
           | Raise e s' => Raise e s'
           end.

Notation "x <- c ;; k" := (bind c (fun x => k))
  (at level 61, c at next level, right associativity).
Notation "c ;;; k" := (bind c (fun _ => k))
  (at level 61, right associativity).

Definition sys_exit {A} (code : Z) : M A := fun s => Exit code s.
Definition raise {A} (e : raised) : M A := fun s => Raise e s.
Definition get {A} (f : State -> A) : M A := fun s => Ret (f s) s.
Definition modify (f : State -> State) : M unit := fun s => Ret tt (f s).

(** [try: body except ...: handler]; a handler of [None] lets the
    exception pass. *)
Definition try_except {A} (body : M A) (handler : raised -> option (M A)) : M A :=
  fun s => match body s with
           | Raise e s' =>
               match handler e with
               | Some h => h s'
               | None => Raise e s'
               end
           | o => o
           end.

Definition print (line : list frag) : M unit := modify (log (Print line)).

(** Final status of an outcome at the top of the interpreter, as the
    parent process reads it: the end of the script gives 0,
    [sys.exit(code)] gives the low eight bits of [code] (247 for -9), and
    an exception that nothing caught prints a traceback and gives 1. *)
Definition exit_status {A} (o : Outcome A) : Z :=
  match o with
  | Ret _ _ => 0
  | Exit code _ => code mod 256
  | Raise _ _ => 1
  end.

Definition final_state {A} (o : Outcome A) : State :=
  match o with
  | Ret _ s | Exit _ s | Raise _ s => s
  end.

(** The events an outcome added to the trace of the state it started in. *)
Definition emitted {A} (s : State) (o : Outcome A) : list Event :=
  skipn (length (trace s)) (trace (final_state o)).

(** ** [str.format] with the single keyword argument [activate] *)

Module Format.

Definition is_digit (c : ascii) : bool :=
  let n := nat_of_ascii c in ((48 <=? n) && (n <=? 57))%nat.

Fixpoint all_chars (f : ascii -> bool) (s : string) : bool :=
  match s with
  | EmptyString => true
  | String c r => f c && all_chars f r
  end.

Fixpoint any_char (f : ascii -> bool) (s : string) : bool :=
  match s with
  | EmptyString => false
  | String c r => f c || any_char f r
  end.

Definition one_of (l : list ascii) (c : ascii) : bool := existsb (Ascii.eqb c) l.

(** The value of one replacement field.  Only the plain field
    [{activate}] is covered; conversions, format specifications and
    attribute or index lookups are outside the embedding. *)
Definition field (name value : string) : exn + string :=
  if String.eqb name "activate" then inr value
  else if any_char (one_of ["!"; ":"; "."; "["]%char) name then inl Unmodelled
  else if any_char (one_of ["{"]%char) name then inl ValueError
  else if all_chars is_digit name then inl IndexError
  else inl KeyError.

Definition emit (c : ascii) (r : exn + string) : exn + string :=
  match r with
  | inr s => inr (String c s)
  | inl e => inl e
  end.

Definition splice (v r : exn + string) : exn + string :=
  match v, r with
  | inr a, inr b => inr (a ++ b)%string
  | inl e, _ => inl e
  | _, inl e => inl e
  end.

(** [open] is [None] outside a replacement field and [Some acc] inside
    one whose text so far is [acc]. *)
Fixpoint scan (open : option string) (value : string) (s : string)
  : exn + string :=
  match s with
  | EmptyString =>
      match open with
      | None => inr EmptyString
      | Some _ => inl ValueError
      end
  | String c r =>
      match open with
      | Some acc =>
          if Ascii.eqb c "}" then splice (field acc value) (scan None value r)
          else scan (Some (acc ++ String c EmptyString)%string) value r
      | None =>
          if Ascii.eqb c "{" then
            match r with
            | String c' r' =>
                if Ascii.eqb c' "{" then emit "{" (scan None value r')
                else scan (Some EmptyString) value r
            | EmptyString => inl ValueError
            end
          else if Ascii.eqb c "}" then
            match r with
            | String c' r' =>
                if Ascii.eqb c' "}" then emit "}" (scan None value r')
                else inl ValueError
            | EmptyString => inl ValueError
            end
          else emit c (scan None value r)
      end
  end.

(** [template.format(activate=value)] *)
Definition format (template value : string) : exn + string :=
  scan None value template.

End Format.

(** ** The message templates *)

Definition TOOL_USAGE_INSTRUCTIONS : string := "
You use 'tox' to run tasks that set up and manage the development environment,
run tests, linters, and build documentation:

Examples:

  tox run -e lint     # Run linters on the codebase
  tox run -e docs     # Build documentation
  tox run -e py310    # Run the test suite using Python 3.10
  tox run -e py314    # Run the test suite using Python 3.14
  tox devenv -e dev   # Start an interactive dev environment with Python 3.12

The list of available 'tox' environments can be found by running:

  tox list

If you are not familiar with using 'tox' see https://tox.wiki/en/latest/

You use 'uv' to manage Python packages within the virtual environment and to
update pyproject dependencies:

Examples:

  # Add a new package to the 'dev' dependency group
  uv add --dev --group=dev 'package_name>=1.2.3'

  # Add a new package to the default dependency group
  uv add 'package_name>=1.2.3'

  # Add a package to specified extras
  uv add 'package_name[extra1,extra2]'

  # install a package from PyPI to the virtual environment
  uv pip install 'package_name>=1.2.3'

See https://docs.astral.sh/uv/ for more information on using 'uv'.
".

(** The f-string of the source, in the three parts around [{{activate}}],
    which stands for the text [{activate}]; [{TOOL_USAGE_INSTRUCTIONS}] is
    replaced when the module is loaded. *)
Definition POST_INSTALL_HEAD : string := "
--- Bootstrap complete! ---

To activate the development environment, run:

  ".

Definition POST_INSTALL_TAIL : string :=
  ("

To deactivate the virtual environment, run:

  deactivate

" ++ TOOL_USAGE_INSTRUCTIONS ++ "
")%string.

Definition POST_INSTALL_MESSAGE : string :=
  (POST_INSTALL_HEAD ++ "{activate}" ++ POST_INSTALL_TAIL)%string.

(** ** The program *)

Definition DEBUG : bool := false.

Definition PROMPT : string :=
  ("This script will create a .venv directory in the git repo "
   ++ "root directory and install tools into it for development. "
   ++ "Continue? [y/n] ")%string.

Definition GIT_QUERY : Command :=
  [Str "git"; Str "rev-parse"; Str "--show-toplevel"].

Definition lift {A} (r : exn + A) : M A :=
  match r with
  | inl e => raise (Exn e)
  | inr a => ret a
  end.

(** Raising what a pure validator found. *)
Definition validate (v : option exn) : M unit :=
  match v with
  | Some e => raise (Exn e)
  | None => ret tt
  end.

(** [_validate_path]: the type test is settled by the embedding's types;
    the existence test remains. *)
Definition _validate_path (path : Path) (exists_flag : bool) : M unit :=
  fun s => if exists_flag && negb (exists_ s path)
           then Raise (Exn FileNotFoundError) s else Ret tt s.

(** [input(prompt)] reading the head of [pending]: the prompt is shown,
    then the user types a line, interrupts, or the input has ended. *)
Definition input_from (prompt : string) (pending : list InputEvent) : M string :=
  fun s =>
    let s' := log (Input prompt) (set_stdin (tl pending) s) in
    match pending with
    | [] => Raise (Exn EOFError) s'
    | Interrupt :: _ => Raise (Exn KeyboardInterrupt) s'
    | Line l :: _ => Ret l s'
    end.

Definition input (prompt : string) : M string :=
  fun s => input_from prompt (stdin s) s.

(** The condition of the [while] loop of [confirmation_prompt]. *)
Definition undecided (choice : string) : bool :=
  negb (Str.mem (Str.strip (Str.lower choice)) ["y"; "yes"; "n"; "no"]).

(** The [while] loop of [confirmation_prompt], by recursion on the input
    still pending. *)
Fixpoint ask (choice : string) (pending : list InputEvent) : M string :=
  if undecided choice then
    match pending with
    | [] => input_from PROMPT []
    | _ :: rest => c <- input_from PROMPT pending ;; ask c rest
    end
  else ret choice.

Definition ask_until_decided (choice : string) : M string :=
  fun s => ask choice (stdin s) s.

(** [functools.lru_cache] around a function of the state: a stored result
    is returned at once; otherwise the body runs and its result is stored
    when, and only when, it returns. *)
Definition lru_cache {A} (lookup : State -> option A)
    (store : A -> State -> State) (body : M A) : M A :=
  hit <- get lookup ;;
  match hit with
  | Some a => ret a
  | None => a <- body ;; modify (store a) ;;; ret a
  end.

(** [functools.lru_cache] around a function with an argument: a hit makes
    the entry the most recently used one, which [used] records; a result
    that is returned is stored by [used] too. *)
Definition lru_cache_by_key {A} (lookup : State -> option A)
    (used : A -> State -> State) (body : M A) : M A :=
  hit <- get lookup ;;
  match hit with
  | Some a => modify (used a) ;;; ret a
  | None => a <- body ;; modify (used a) ;;; ret a
  end.

(** The default [maxsize] of [lru_cache], which the bare [@cache] of the
    source gets. *)
Definition MAXSIZE : nat := 128.

(** The table of [pip_module_is_available], most recently used entry
    first: an entry that is used moves to the front, and what does not fit
    into [MAXSIZE] entries is dropped from the far end. *)
Definition remove_key (k : Path) (c : list (Path * bool)) : list (Path * bool) :=
  filter (fun entry => negb (path_eqb k (fst entry))) c.

Definition add_pip_cache (k : Path) (v : bool) (s : State) : State :=
  set_pip_cache (firstn MAXSIZE ((k, v) :: remove_key k (pip_cache s))) s.

Section Program.

Variable w : World.

(** [_is_windows] *)
Definition _is_windows : bool := win32 w.

(** [subprocess.run(command, check=check)] and [subprocess.check_output]:
    the child is started; a missing executable, another refusal of the
    system and, under [check], a non-zero return code are raised. *)
Definition subprocess_run (command : Command) (check : bool) : M unit :=
  fun s =>
    let s' := log (Spawn command) s in
    match proc w (trace s) command with
    | NotFound => Raise (Exn FileNotFoundError) s'
    | NotStarted => Raise (Exn OSError) s'
    | Completed rc =>
        if check && negb (rc =? 0)%Z then Raise (CalledProcessError rc) s'
        else Ret tt s'
    end.

Definition debug_print (line : list frag) : M unit :=
  if DEBUG then print line else ret tt.

(** [run_command]; the script passes no keyword arguments. *)
Definition run_command (command : Command) (check : bool) : M unit :=
  validate (_validate_command command) ;;;
  try_except
    (debug_print (FStr "DEBUG: Running " :: map FArg command
                  ++ [FStr " with kwargs: {}"]) ;;;
     subprocess_run command check)
    (fun e =>
       match e with
       | Exn FileNotFoundError =>
           Some (print [FStr "Error: Command '"; FArg (hd (Str "") command);
                        FStr "' not found. Is it in your PATH?"] ;;;
                 sys_exit 1%Z)
       | CalledProcessError returncode =>
           Some (print [FStr "Error: Command failed with exit code ";
                        FInt returncode] ;;;
                 sys_exit returncode)
       | _ => None
       end).

(** The body of [get_git_root], without the cache. *)
Definition get_git_root_uncached : M Path :=
  try_except
    (subprocess_run GIT_QUERY true ;;; ret (git_toplevel w))
    (fun e =>
       match e with
       | Exn FileNotFoundError =>
           Some (let current_dir := cwd w in
                 found <- get (fun s =>
                                 find (fun parent => is_dir s (parent // ".git"))
                                      (current_dir :: parents current_dir)) ;;
                 match found with
                 | Some parent => ret parent
                 | None =>
                     print [FStr "Error: .git directory not found in any parent directories."] ;;;
                     sys_exit 1%Z
                 end)
       | CalledProcessError _ =>
           Some (print [FStr ("Error: This does not appear to be a git repository. "
                              ++ "Please run from within the cloned project directory.")%string] ;;;
                 sys_exit 1%Z)
       | _ => None
       end).

(** [get_git_root], under [@cache]. *)
Definition get_git_root : M Path :=
  lru_cache git_root_cache set_git_root_cache get_git_root_uncached.

(** [confirmation_prompt]; [None] out of the [try] block stands for the
    [return False] of the handler. *)
Definition confirmation_prompt : M bool :=
  r <- try_except
         (git_root <- get_git_root ;;
          print [FStr "Current working directory: "; FPath (cwd w)] ;;;
          print [FStr "Git repo root directory: "; FPath git_root] ;;;
          choice <- ask_until_decided "" ;;
          ret (Some choice))
         (fun e =>
            match e with
            | Exn KeyboardInterrupt => Some (print [] ;;; ret None)
            | _ => None
            end) ;;
  match r with
  | None => ret false
  | Some choice =>
      ret (Str.mem (Str.strip (Str.lower choice)) [""; "y"; "yes"])
  end.

(** [path_to_venv_python] *)
Definition path_to_venv_python (venv_dir : Path) : M Path :=
  _validate_path venv_dir false ;;;
  let is_windows := _is_windows in
  let bin_dir := venv_dir // (if is_windows then "Scripts" else "bin") in
  let python_exe := bin_dir // (if is_windows then "python.exe" else "python") in
  ret python_exe.

Fixpoint cache_lookup (k : Path) (c : list (Path * bool)) : option bool :=
  match c with
  | [] => None
  | (k', v) :: r => if path_eqb k k' then Some v else cache_lookup k r
  end.

Definition pip_module_is_available_uncached (python_exe : Path) : M bool :=
  _validate_path python_exe true ;;;
  try_except
    (debug_print [FStr "DEBUG: Running '"; FPath python_exe;
                  FStr " -m pip --version' to check for pip availability"] ;;;
     subprocess_run [PathArg python_exe; Str "-m"; Str "pip"; Str "--version"] true ;;;
     ret true)
    (fun e =>
       match e with
       | Exn FileNotFoundError | CalledProcessError _ => Some (ret false)
       | _ => None
       end).

(** [pip_module_is_available], under [@cache], keyed by its argument. *)
Definition pip_module_is_available (python_exe : Path) : M bool :=
  lru_cache_by_key (fun s => cache_lookup python_exe (pip_cache s))
                   (add_pip_cache python_exe)
                   (pip_module_is_available_uncached python_exe).

(** [venv.create(venv_dir, with_pip=True)], taken to succeed: the
    directory and its layout exist afterwards. *)
Definition create_venv (venv_dir : Path) : M unit :=
  modify (fun s => log (CreateVenv venv_dir)
                       (add_venv venv_dir (venv_layout w venv_dir) s)).

(** [create_virtual_environment] *)
Definition create_virtual_environment (venv_dir python_exe : Path) : M unit :=
  _validate_path venv_dir false ;;;
  _validate_path python_exe false ;;;
  present <- get (fun s => exists_ s venv_dir) ;;
  if negb present then
    print [FStr "Creating virtual environment in '"; FPath venv_dir; FStr "'..."] ;;;
    create_venv venv_dir ;;;
    print [FStr ("---> Ensuring pip CLI script is installed in the virtual "
                 ++ "environment...")%string] ;;;
    run_command [PathArg python_exe; Str "-m"; Str "ensurepip"; Str "--upgrade"] true ;;;
    print [FStr ("---> Upgrading pip in the virtual environment to latest "
                 ++ "version...")%string] ;;;
    available <- pip_module_is_available python_exe ;;
    if negb available then
      let pip_path :=
        if _is_windows then venv_dir // "Scripts" // "pip.exe"
        else venv_dir // "bin" // "pip" in
      pip_present <- get (fun s => exists_ s pip_path) ;;
      (if negb pip_present then
         print [FStr ("Error: 'pip' is not available in the virtual "
                      ++ "environment after ensurepip.")%string] ;;;
         print [FStr "Please check your Python installation."] ;;;
         sys_exit 1%Z
       else ret tt) ;;;
      run_command [PathArg pip_path; Str "install"; Str "--upgrade"; Str "pip"] true
    else
      run_command [PathArg python_exe; Str "-m"; Str "pip"; Str "install";
                   Str "--upgrade"; Str "pip"; Str "--require-virtualenv"] true
  else
    print [FStr "Virtual environment '"; FPath venv_dir;
           FStr "' already exists. Skipping creation."].

(** [mod.name == "uv"] *)
Definition is_uv (module : InstallSpec) : bool := String.eqb (name module) "uv".

(** The base commands of [install_with_pip] and [install_with_uv]. *)
Definition PIP_BASE (python_exe : Path) : Command :=
  [PathArg python_exe; Str "-m"; Str "pip"; Str "--require-virtualenv"].

Definition UV_BASE (python_exe : Path) : Command :=
  [PathArg python_exe; Str "-m"; Str "uv"; Str "pip"].

(** [install_with_pip] *)
Definition install_with_pip (python_exe : Path) (modules : list InstallSpec)
    (message : string) : M unit :=
  _validate_path python_exe true ;;;
  (if Str.truthy message then print [FStr message]
   else print [FStr "--> Installing modules using 'pip'"]) ;;;
  command <- lift (_build_install_command (PIP_BASE python_exe) modules) ;;
  run_command command true.

(** [install_with_uv] *)
Definition install_with_uv (python_exe : Path) (modules : list InstallSpec)
    : M unit :=
  _validate_path python_exe true ;;;
  match filter is_uv modules with
  | [] => raise (Exn IndexError)
  | uv_module :: _ =>
      let other_modules := filter (fun module => negb (is_uv module)) modules in
      let bootstrap_message :=
        ("--> Bootstrapping 'uv' using 'pip': "
         ++ InstallSpecMethods.__str__ uv_module ++ ", "
         ++ str_or (version uv_module) "latest")%string in
      install_with_pip python_exe [uv_module] bootstrap_message ;;;
      match other_modules with
      | [] => ret tt
      | _ =>
          print [FStr "--> Installing remaining modules using 'uv pip'"] ;;;
          command <- lift (_build_install_command (UV_BASE python_exe)
                                                  other_modules) ;;
          run_command command true
      end
  end.

(** [install_tools] *)
Definition install_tools (python_exe : Path) (modules : list InstallSpec)
    : M unit :=
  _validate_path python_exe true ;;;
  match modules with
  | [] => ret tt
  | _ =>
      print [FStr "Installing/updating core development tools..."] ;;;
      let using_uv := existsb is_uv modules in
      if using_uv then install_with_uv python_exe modules
      else install_with_pip python_exe modules ""
  end.

(** The activation command chosen in [print_instructions]. *)
Definition activate_script : string :=
  let activate_script := "source .venv/bin/activate" in
  if _is_windows then ".venv\Scripts\activate.bat" else activate_script.

(** [print_instructions] *)
Definition print_instructions (template : string) : M unit :=
  instructions <- lift (Format.format template activate_script) ;;
  print [FStr instructions].

(** [main] *)
Definition main : M Z :=
  proceed <- confirmation_prompt ;;
  (if negb proceed then
     print [FStr "Aborted by user."] ;;; sys_exit 0%Z
   else ret tt) ;;;
  git_root <- get_git_root ;;
  print [FStr "--- Bootstrapping development environment (in ";
         FPath git_root; FStr ") ---"] ;;;
  let venv_dir := git_root // ".venv" in
  python_exe <- path_to_venv_python venv_dir ;;
  create_virtual_environment venv_dir python_exe ;;;
  install_tools python_exe BOOTSTRAP_MODULES ;;;
  print_instructions POST_INSTALL_MESSAGE ;;;
  ret 0%Z.

(** [sys.version_info < (3, 8)], a comparison of tuples. *)
Definition version_too_old : bool :=
  let (major, minor) := version_info w in
  ((major <? 3) || ((major =? 3) && (minor <? 8)))%Z.

(** The file is compiled before any of it runs.  The f-string of the
    version check and the variable annotations are syntax errors before
    Python 3.6. *)
Definition version_unparsable : bool :=
  let (major, minor) := version_info w in
  ((major <? 3) || ((major =? 3) && (minor <? 6)))%Z.

(** The module run as a script: compiled, then the version check, then
    [main()]. *)
Definition script : M Z :=
  if version_unparsable then raise (Exn SyntaxError)
  else if version_too_old then
    let (major, minor) := version_info w in
    print [FStr ("Error: Python 3.8 or later is required to run this script. "
                 ++ "You are using Python ")%string;
           FInt major; FStr "."; FInt minor; FStr "."] ;;;
    sys_exit 2%Z
  else main.

End Program.

(** ** Vocabulary of the specification *)

(** The installer argument the specification describes: the name, then the
    extras, then the version constraint. *)
Definition spec_arg (m : InstallSpec) : string :=
  (name m ++ extras m ++ version m)%string.

(** [base install -U spec ...] *)
Definition install_command (base : Command) (specs : list InstallSpec) : Command :=
  base ++ [Str "install"; Str "-U"] ++ map (fun m => Str (spec_arg m)) specs.

Definition pip_install (python_exe : Path) (specs : list InstallSpec) : Command :=
  install_command (PIP_BASE python_exe) specs.

Definition uv_pip_install (python_exe : Path) (specs : list InstallSpec) : Command :=
  install_command (UV_BASE python_exe) specs.

(** The child processes among a list of events. *)
Fixpoint commands (evs : list Event) : list Command :=
  match evs with
  | [] => []
  | Spawn c :: r => c :: commands r
  | _ :: r => commands r
  end.

(** The child processes an outcome started, beginning from state [s]. *)
Definition spawned {A} (s : State) (o : Outcome A) : list Command :=
  commands (emitted s o).

(** The calls to [venv.create] among a list of events. *)
Fixpoint creations (evs : list Event) : list Path :=
  match evs with
  | [] => []
  | CreateVenv d :: r => d :: creations r
  | _ :: r => creations r
  end.

(** The specs left once the first one named [uv] is taken out. *)
Fixpoint without_first_uv (modules : list InstallSpec) : list InstallSpec :=
  match modules with
  | [] => []
  | m :: r => if is_uv m then r else m :: without_first_uv r
  end.

(** How a computation ends, its value and its exception forgotten. *)
Inductive ending : Type :=
| GoesOn
| Exits (code : Z).

Definition ending_of {A} (o : Outcome A) : ending :=
  match o with
  | Exit code _ => Exits code
  | _ => GoesOn
  end.

(** A judgement relates the state a computation starts in to the way it
    ends and the state it ends in. *)
Definition judgement : Type := State -> ending -> State -> Prop.

Definition within {A} (Q : judgement) (c : M A) : Prop :=
  forall s, Q s (ending_of (c s)) (final_state (c s)).

(** [quiet s s']: the file system is the same and the trace has grown by
    events none of which is a call to [venv.create]. *)
Definition quiet (s s' : State) : Prop :=
  dirs s' = dirs s /\ files s' = files s
  /\ exists extra, trace s' = trace s ++ extra /\ creations extra = [].

Definition quietly : judgement := fun s _ s' => quiet s s'.

(** The number of [git] queries among a list of events. *)
Definition git_queries (evs : list Event) : nat :=
  length (filter (command_eqb GIT_QUERY) (commands evs)).

(** [git_neutral s s']: the cached root is the same and the trace has
    grown by events none of which is the [git] query. *)
Definition git_neutral (s s' : State) : Prop :=
  git_root_cache s' = git_root_cache s
  /\ exists extra, trace s' = trace s ++ extra /\ git_queries extra = 0.

Definition neutrally : judgement := fun s _ s' => git_neutral s s'.

(** The exit codes of the specification: 0, 1, 2, and the non-zero code a
    child process returned. *)
Definition exit_class (w : World) (code : Z) : Prop :=
  code = 0%Z \/ code = 1%Z \/ code = 2%Z
  \/ (code <> 0%Z /\ exists h command, proc w h command = Completed code).

(** The status of the process as its parent reads it: 0, 1, 2, or the low
    eight bits of the non-zero code a child process returned. *)
Definition status_class (w : World) (status : Z) : Prop :=
  status = 0%Z \/ status = 1%Z \/ status = 2%Z
  \/ exists h command rc,
       proc w h command = Completed rc /\ rc <> 0%Z
       /\ status = (rc mod 256)%Z.

Definition exits_in (P : Z -> Prop) : judgement := fun _ e _ =>
  match e with
  | Exits code => P code
  | GoesOn => True
  end.

(** [leaves w]: a computation that exits does so with a code of the
    specification. *)
Definition leaves (w : World) : judgement := exits_in (exit_class w).

(** [mod.name != "uv"] *)
Definition not_uv (module : InstallSpec) : bool := negb (is_uv module).

(** The lines the Tool Installer prints. *)

Definition pip_notice (message : string) : Event :=
  Print [FStr (if Str.truthy message then message
               else "--> Installing modules using 'pip'")].

Definition bootstrap_notice (uv_module : InstallSpec) : Event :=
  pip_notice ("--> Bootstrapping 'uv' using 'pip': "
              ++ InstallSpecMethods.__str__ uv_module ++ ", "
              ++ str_or (version uv_module) "latest")%string.

Definition uv_notice : Event :=
  Print [FStr "--> Installing remaining modules using 'uv pip'"].

Definition tools_notice : Event :=
  Print [FStr "Installing/updating core development tools..."].

(** The lines the Environment Builder prints first. *)
Definition creating_notice (venv_dir : Path) : Event :=
  Print [FStr "Creating virtual environment in '"; FPath venv_dir; FStr "'..."].

Definition skip_notice (venv_dir : Path) : Event :=
  Print [FStr "Virtual environment '"; FPath venv_dir;
         FStr "' already exists. Skipping creation."].

(** The state after [n] prompts have been shown and the pending input has
    become [pending]. *)
Definition after_prompts (n : nat) (pending : list InputEvent) (s : State) : State :=
  mkState (dirs s) (files s) pending (git_root_cache s) (pip_cache s)
          (trace s ++ repeat (Input PROMPT) n).

(** The two lines [confirmation_prompt] prints before it asks. *)
Definition banner (w : World) (git_root : Path) (s : State) : State :=
  log (Print [FStr "Git repo root directory: "; FPath git_root])
      (log (Print [FStr "Current working directory: "; FPath (cwd w)]) s).

(** Two calls of [get_git_root] in a row, with both results. *)
Definition get_git_root_twice (w : World) : M (Path * Path) :=
  p <- get_git_root w ;; q <- get_git_root w ;; ret (p, q).

(** The line [main] prints when the user declines. *)
Definition aborted_notice : Event := Print [FStr "Aborted by user."].

(** How a child process fails under [check=True]: it is not found, or it
    returns a code other than 0. *)
Definition fails (r : ProcResult) : Prop :=
  match r with
  | NotFound => True
  | Completed rc => rc <> 0%Z
  | NotStarted => False
  end.

Definition ENSUREPIP (python_exe : Path) : Command :=
  [PathArg python_exe; Str "-m"; Str "ensurepip"; Str "--upgrade"].

Definition PIP_VERSION (python_exe : Path) : Command :=
  [PathArg python_exe; Str "-m"; Str "pip"; Str "--version"].

(** ** Concrete worlds *)

(** A POSIX machine on which every child process succeeds, run from a
    subdirectory of the checkout [/home/dev/project]. *)
Definition project : Path := ["home"; "dev"; "project"].

Definition posix_world : World :=
  mkWorld false (3, 12)%Z (project // "src") (fun _ _ => Completed 0) project
          (fun d => [d // "bin" // "python"; d // "bin" // "pip"]).

Definition venv_python : Path := project // ".venv" // "bin" // "python".

(** The same machine with Python 3.7: older than 3.8, and able to compile
    the file. *)
Definition old_python_world : World :=
  mkWorld false (3, 7)%Z (project // "src") (fun _ _ => Completed 0) project
          (fun d => [d // "bin" // "python"; d // "bin" // "pip"]).

(** The same machine with an interpreter older than 3.6. *)
Definition ancient_python_world : World :=
  mkWorld false (3, 5)%Z (project // "src") (fun _ _ => Completed 0) project
          (fun d => [d // "bin" // "python"; d // "bin" // "pip"]).

(** A machine on which every child process is killed by signal 9. *)
Definition killing_world : World :=
  mkWorld false (3, 12)%Z (project // "src") (fun _ _ => Completed (-9)) project
          (fun d => [d // "bin" // "python"]).

(** A machine on which no executable is found, [git] included. *)
Definition bare_world : World :=
  mkWorld false (3, 12)%Z (project // "src") (fun _ _ => NotFound) project
          (fun d => [d // "bin" // "python"]).

(** A machine on which every child process returns code 3. *)
Definition failing_world : World :=
  mkWorld false (3, 12)%Z (project // "src") (fun _ _ => Completed 3) project
          (fun d => [d // "bin" // "python"]).

(** A machine whose new environments come without a working [pip]. *)
Definition broken_pip_world : World :=
  mkWorld false (3, 12)%Z (project // "src")
          (fun _ c => if command_eqb c (PIP_VERSION venv_python)
                      then Completed 1 else Completed 0)
          project
          (fun d => [d // "bin" // "python"]).

(** The process at start, before any environment exists, with the given
    user input pending. *)
Definition fresh_state (answers : list InputEvent) : State :=
  mkState [project] [] answers None [] [].

(** A process that finds the environment in place. *)
Definition ready_state : State :=
  mkState [project // ".venv"; project] [venv_python] [] None [] [].

(** ** Vocabulary of the further properties *)

(** A child process that ran and returned 0. *)
Definition succeeded (r : ProcResult) : bool :=
  match r with
  | Completed rc => (rc =? 0)%Z
  | NotFound | NotStarted => false
  end.

(** [held k v n c]: the table [c] holds the answer [v] for the path [k],
    with at most [n] entries used more recently. *)
Definition held (k : Path) (v : bool) (n : nat) (c : list (Path * bool)) : Prop :=
  exists newer older,
    c = newer ++ (k, v) :: older
    /\ length newer <= n
    /\ cache_lookup k newer = None.

(** [after_calls n s s']: from [s] the process has reached [s'] through
    [n] calls of [pip_module_is_available], for any paths, in any worlds
    and with any outcome, and through steps that leave the table of its
    answers alone. *)
Inductive after_calls : nat -> State -> State -> Prop :=
| after_no_call (s s' : State) :
    pip_cache s' = pip_cache s -> after_calls 0 s s'
| after_one_more (n : nat) (s s1 s' : State) (w : World) (python_exe : Path) :
    after_calls n s s1 ->
    pip_cache s' = pip_cache (final_state (pip_module_is_available w python_exe s1)) ->
    after_calls (S n) s s'.

(** [MAXSIZE] interpreters beside [venv_python], all in place, and the
    state after the probe has run for each of them in turn. *)
Definition other_pythons : list Path :=
  map (fun n => repeat "d" (S n)) (seq 0 MAXSIZE).

Definition crowded_state : State :=
  mkState [] (venv_python :: other_pythons) [] None [] [].

Definition probe_each (w : World) (paths : list Path) (s : State) : State :=
  fold_left (fun st p => final_state (pip_module_is_available w p st)) paths s.

(** The value of [path_to_venv_python], which reads only the platform. *)
Definition venv_python_path (w : World) (venv_dir : Path) : Path :=
  venv_dir // (if win32 w then "Scripts" else "bin")
           // (if win32 w then "python.exe" else "python").

(** The [pip_path] of [create_virtual_environment]. *)
Definition pip_script_path (w : World) (venv_dir : Path) : Path :=
  if win32 w then venv_dir // "Scripts" // "pip.exe"
  else venv_dir // "bin" // "pip".

(** The two upgrade commands of [create_virtual_environment]. *)
Definition PIP_UPGRADE (python_exe : Path) : Command :=
  [PathArg python_exe; Str "-m"; Str "pip"; Str "install"; Str "--upgrade";
   Str "pip"; Str "--require-virtualenv"].

Definition PIP_SCRIPT_UPGRADE (pip_path : Path) : Command :=
  [PathArg pip_path; Str "install"; Str "--upgrade"; Str "pip"].

(** The line [main] prints once the user has agreed. *)
Definition bootstrapping_notice (git_root : Path) : Event :=
  Print [FStr "--- Bootstrapping development environment (in ";
         FPath git_root; FStr ") ---"].

(** A command whose program is given by a path, or the [git] query: the
    commands whose program is not looked up under another name. *)
Definition by_path_or_git (command : Command) : bool :=
  match command with
  | PathArg _ :: _ => true
  | _ => command_eqb GIT_QUERY command
  end.

(** [named_only]: the trace has grown by events whose child processes are
    all started by path, the [git] query apart. *)
Definition named_only : judgement := fun s _ s' =>
  exists extra,
    trace s' = trace s ++ extra
    /\ forallb by_path_or_git (commands extra) = true.

(** [only_git s s']: the file system and the answers kept about [pip] are
    the same, and the trace has grown by events that create nothing and
    start no process but the [git] query. *)
Definition only_git (s s' : State) : Prop :=
  dirs s' = dirs s /\ files s' = files s /\ pip_cache s' = pip_cache s
  /\ exists extra,
       trace s' = trace s ++ extra
       /\ creations extra = []
       /\ forallb (command_eqb GIT_QUERY) (commands extra) = true.

Definition git_only : judgement := fun s _ s' => only_git s s'.

(** The state after the events [evs] have been logged, in this order. *)
Definition log_all (evs : list Event) (s : State) : State :=
  fold_left (fun st e => log e st) evs s.

(** The instructions [main] prints last. *)
Definition instructions_notice (w : World) : Event :=
  Print [FStr (POST_INSTALL_HEAD ++ activate_script w ++ POST_INSTALL_TAIL)%string].

(** The two installer commands [main] gives rise to, written out. *)
Definition BOOTSTRAP_UV (python_exe : Path) : Command :=
  [PathArg python_exe; Str "-m"; Str "pip"; Str "--require-virtualenv";
   Str "install"; Str "-U"; Str "uv>=0.9.18"].

Definition BOOTSTRAP_TOOLS (python_exe : Path) : Command :=
  [PathArg python_exe; Str "-m"; Str "uv"; Str "pip";
   Str "install"; Str "-U"; Str "tox>=4.32.0"; Str "tox-uv>=1.29.0"].

(** The lines [create_virtual_environment] prints around [ensurepip]. *)
Definition ensuring_notice : Event :=
  Print [FStr ("---> Ensuring pip CLI script is installed in the virtual "
               ++ "environment...")%string].

Definition upgrading_notice : Event :=
  Print [FStr ("---> Upgrading pip in the virtual environment to latest "
               ++ "version...")%string].

(** A checkout whose environment directory exists without an interpreter
    in it. *)
Definition broken_state (answers : list InputEvent) : State :=
  mkState [project // ".venv"; project] [] answers None [] [].

(** A checkout with an environment in place and the given input. *)
Definition ready_state_with (answers : list InputEvent) : State :=
  mkState [project // ".venv"; project] [venv_python] answers None [] [].

(** A machine without [git], run from a subdirectory of a checkout. *)
Definition no_git_world : World :=
  mkWorld false (3, 12)%Z (project // "src" // "pkg")
          (fun _ c => if command_eqb c GIT_QUERY then NotFound else Completed 0)
          project
          (fun d => [d // "bin" // "python"; d // "bin" // "pip"]).

(** A checkout seen through its [.git] directories: one at the root and
    one in a vendored copy beside the working directory. *)
Definition checkout_state : State :=
  mkState [project // ".git"; project // "vendor" // ".git"; project] []
          [] None [] [].

(** A machine whose [ensurepip] fails. *)
Definition no_ensurepip_world : World :=
  mkWorld false (3, 12)%Z (project // "src")
          (fun _ c => if command_eqb c (ENSUREPIP venv_python)
                      then Completed 5 else Completed 0)
          project
          (fun d => [d // "bin" // "python"]).

(** A machine that finds every program and refuses to start any but
    [git]. *)
Definition refusing_world : World :=
  mkWorld false (3, 12)%Z (project // "src")
          (fun _ c => if command_eqb c GIT_QUERY then Completed 0 else NotStarted)
          project
          (fun d => [d // "bin" // "python"]).

(** A machine whose environments have the [pip] script but not the
    module. *)
Definition script_pip_world : World :=
  mkWorld false (3, 12)%Z (project // "src")
          (fun _ c => if command_eqb c (PIP_VERSION venv_python)
                      then Completed 1 else Completed 0)
          project
          (fun d => [d // "bin" // "python"; d // "bin" // "pip"]).

(** * Properties *)

Unset Implicit Arguments.

(** ** The embedding on small inputs *)

Example strip_lower_answer : Str.strip (Str.lower "  YeS ") = "yes".
Proof. reflexivity. Qed.

Example undecided_answers :
  map undecided [""; "y"; " NO "; "maybe"; "yes!"] = [true; false; false; true; true].
Proof. reflexivity. Qed.

Example parents_of_path :
  parents ["home"; "dev"; "project"] = [["home"; "dev"]; ["home"]; []].
Proof. reflexivity. Qed.

Example format_escapes :
  Format.format "{{x}} runs {activate}" "it" = inr "{x} runs it".
Proof. reflexivity. Qed.

Example format_unknown_field : Format.format "{other}" "it" = inl KeyError.
Proof. reflexivity. Qed.

Example display_of_spec :
  map InstallSpecMethods.__str__
      [mkInstallSpec "tox" ">=4" ""; mkInstallSpec "tox" "" "[dev]"]
  = ["tox>=4"; "tox[dev] (latest)"].
Proof. reflexivity. Qed.

Example bootstrap_command :
  _build_install_command (UV_BASE venv_python) (tl BOOTSTRAP_MODULES)
  = inr [PathArg venv_python; Str "-m"; Str "uv"; Str "pip"; Str "install";
         Str "-U"; Str "tox>=4.32.0"; Str "tox-uv>=1.29.0"].
Proof. reflexivity. Qed.

(** A whole run on a fresh checkout, the user answering [y]. *)
Example processes_of_a_run :
  let s := fresh_state [Line "y"] in
  script posix_world s = Ret 0%Z (final_state (script posix_world s))
  /\ spawned s (script posix_world s)
     = [ GIT_QUERY;
         ENSUREPIP venv_python;
         PIP_VERSION venv_python;
         [PathArg venv_python; Str "-m"; Str "pip"; Str "install";
          Str "--upgrade"; Str "pip"; Str "--require-virtualenv"];
         pip_install venv_python [mkInstallSpec "uv" ">=0.9.18" ""];
         uv_pip_install venv_python [mkInstallSpec "tox" ">=4.32.0" "";
                                     mkInstallSpec "tox-uv" ">=1.29.0" ""] ]
  /\ creations (emitted s (script posix_world s)) = [project // ".venv"].
Proof. vm_compute. repeat split. Qed.

(** ** Strings *)

Lemma string_app_empty_r (s : string) : (s ++ "")%string = s.
Proof.
  induction s as [|c s IH]; simpl; [reflexivity | now rewrite IH].
Qed.

Lemma string_app_assoc (a b c : string) :
  ((a ++ b) ++ c)%string = (a ++ (b ++ c))%string.
Proof.
  induction a as [|x a IH]; simpl; [reflexivity | now rewrite IH].
Qed.

Lemma truthy_false_empty (s : string) : Str.truthy s = false -> s = "".
Proof. destruct s; [reflexivity | discriminate]. Qed.

(** ** Building the installer command *)

Lemma spec_str_of_concat (m : InstallSpec) : spec_str_of m = spec_arg m.
Proof.
  unfold spec_str_of, spec_arg.
  destruct (Str.truthy (extras m)) eqn:He, (Str.truthy (version m)) eqn:Hv;
    try (apply truthy_false_empty in He; rewrite He);
    try (apply truthy_false_empty in Hv; rewrite Hv);
    simpl; rewrite ?string_app_empty_r, ?string_app_assoc; reflexivity.
Qed.

Lemma append_specs_map (modules : list InstallSpec) :
  forall command,
    append_specs command modules
    = command ++ map (fun m => Str (spec_arg m)) modules.
Proof.
  induction modules as [|m r IH]; intros command; simpl.
  - now rewrite app_nil_r.
  - rewrite IH, spec_str_of_concat, <- app_assoc. reflexivity.
Qed.

Lemma build_install_command_valid (base : Command) (modules : list InstallSpec) :
  _validate_command base = None ->
  _build_install_command base modules = inr (install_command base modules).
Proof.
  intros Hv. unfold _build_install_command, install_command.
  rewrite Hv, append_specs_map, <- app_assoc. reflexivity.
Qed.

Lemma build_pip (exe : Path) (modules : list InstallSpec) :
  _build_install_command (PIP_BASE exe) modules = inr (pip_install exe modules).
Proof. now apply build_install_command_valid. Qed.

Lemma build_uv (exe : Path) (modules : list InstallSpec) :
  _build_install_command (UV_BASE exe) modules = inr (uv_pip_install exe modules).
Proof. now apply build_install_command_valid. Qed.

(** C2.  The argument [_build_install_command] appends for a spec is its
    name, then its extras, then its version constraint, an empty part
    adding nothing; the command is the base, [install -U], and these
    arguments in order (with an invalid base no command is built).  The
    display rendering [__str__] is that same argument when a version is
    given and the argument followed by [" (latest)"] when it is not: the
    substitution exists in [__str__] alone, and for a spec without version
    the installer argument is just name and extras. *)
Theorem C2_installer_argument_is_concatenation :
  forall (base : Command) (modules : list InstallSpec) (m : InstallSpec),
    spec_str_of m = (name m ++ extras m ++ version m)%string
    /\ _build_install_command base modules
       = match _validate_command base with
         | Some e => inl e
         | None =>
             inr (base ++ [Str "install"; Str "-U"]
                       ++ map (fun m => Str (name m ++ extras m ++ version m)%string)
                              modules)
         end
    /\ InstallSpecMethods.__str__ m
       = (if String.eqb (version m) ""
          then (spec_str_of m ++ " (latest)")%string
          else spec_str_of m)
    /\ spec_str_of (mkInstallSpec (name m) "" (extras m))
       = (name m ++ extras m)%string.
Proof.
  intros base modules m. repeat split.
  - apply spec_str_of_concat.
  - destruct (_validate_command base) eqn:Hv.
    + unfold _build_install_command. now rewrite Hv.
    + now apply build_install_command_valid.
  - rewrite spec_str_of_concat. unfold InstallSpecMethods.__str__, spec_arg, str_or.
    destruct (version m) as [|c v]; simpl.
    + now rewrite string_app_empty_r, string_app_assoc.
    + reflexivity.
  - rewrite spec_str_of_concat. unfold spec_arg. simpl.
    now rewrite string_app_empty_r.
Qed.

(** ** Steps of the monad *)

Lemma bind_ret_step {A B} (c : M A) (k : A -> M B) (s : State) (a : A)
    (s' : State) :
  c s = Ret a s' -> bind c k s = k a s'.
Proof. intros H. unfold bind. now rewrite H. Qed.

Lemma bind_ret_inv {A B} (c : M A) (k : A -> M B) (s s' : State) (b : B) :
  bind c k s = Ret b s' ->
  exists a s1, c s = Ret a s1 /\ k a s1 = Ret b s'.
Proof.
  unfold bind. destruct (c s) as [a s1|code s1|e s1]; try discriminate.
  intros H. now exists a, s1.
Qed.

(** [sys.exit] is not caught on the way out: it passes through what
    follows and through every handler. *)
Lemma bind_exit {A B} (c : M A) (k : A -> M B) (s s' : State) (code : Z) :
  c s = Exit code s' -> bind c k s = Exit code s'.
Proof. intros H. unfold bind. now rewrite H. Qed.

Lemma try_except_exit {A} (body : M A) (handler : raised -> option (M A))
    (s s' : State) (code : Z) :
  body s = Exit code s' -> try_except body handler s = Exit code s'.
Proof. intros H. unfold try_except. now rewrite H. Qed.

(** ** The trace *)

Lemma skipn_length_app {A} (l r : list A) : skipn (length l) (l ++ r) = r.
Proof.
  induction l as [|x l IH]; simpl; [reflexivity | exact IH].
Qed.

Lemma emitted_of_trace {A} (s : State) (o : Outcome A) (evs : list Event) :
  trace (final_state o) = trace s ++ evs -> emitted s o = evs.
Proof.
  intros H. unfold emitted. rewrite H. apply skipn_length_app.
Qed.

Lemma emitted_same {A} (s : State) (o : Outcome A) :
  trace (final_state o) = trace s -> emitted s o = [].
Proof.
  intros H. apply emitted_of_trace. now rewrite app_nil_r.
Qed.

Lemma commands_app (a b : list Event) : commands (a ++ b) = commands a ++ commands b.
Proof.
  induction a as [|e a IH]; simpl; [reflexivity|].
  destruct e; simpl; now rewrite IH.
Qed.

Lemma creations_app (a b : list Event) :
  creations (a ++ b) = creations a ++ creations b.
Proof.
  induction a as [|e a IH]; simpl; [reflexivity|].
  destruct e; simpl; now rewrite IH.
Qed.

Lemma exists_log (e : Event) (s : State) (p : Path) :
  exists_ (log e s) p = exists_ s p.
Proof. reflexivity. Qed.

(** Brings the trace of a final state to the form [trace s ++ events]. *)
Ltac trace_norm :=
  cbn [final_state trace log set_stdin set_git_root_cache add_pip_cache set_pip_cache add_venv];
  rewrite <- ?app_assoc; cbn [app].

(** ** The Command Runner *)

Section CommandRunner.

Variable w : World.
Variables (command : Command) (s : State).
Hypothesis Hvalid : _validate_command command = None.

Lemma run_command_completed (check : bool) (rc : Z) :
  proc w (trace s) command = Completed rc ->
  (check && negb (rc =? 0)%Z) = false ->
  run_command w command check s = Ret tt (log (Spawn command) s).
Proof.
  intros Hp Hc.
  unfold run_command, bind, try_except, validate, debug_print, subprocess_run.
  rewrite Hvalid. cbn. now rewrite Hp, Hc.
Qed.

Lemma run_command_not_found (check : bool) :
  proc w (trace s) command = NotFound ->
  run_command w command check s
  = Exit 1 (log (Print [FStr "Error: Command '"; FArg (hd (Str "") command);
                        FStr "' not found. Is it in your PATH?"])
                (log (Spawn command) s)).
Proof.
  intros Hp.
  unfold run_command, bind, try_except, validate, debug_print, subprocess_run.
  rewrite Hvalid. cbn. now rewrite Hp.
Qed.

Lemma run_command_failed (rc : Z) :
  proc w (trace s) command = Completed rc ->
  rc <> 0%Z ->
  run_command w command true s
  = Exit rc (log (Print [FStr "Error: Command failed with exit code "; FInt rc])
                 (log (Spawn command) s)).
Proof.
  intros Hp Hrc.
  unfold run_command, bind, try_except, validate, debug_print, subprocess_run.
  rewrite Hvalid. cbn. rewrite Hp.
  apply Z.eqb_neq in Hrc. now rewrite Hrc.
Qed.

(** No handler of [run_command] is for a child the system refuses to
    start: the exception leaves the function. *)
Lemma run_command_not_started (check : bool) :
  proc w (trace s) command = NotStarted ->
  run_command w command check s = Raise (Exn OSError) (log (Spawn command) s).
Proof.
  intros Hp.
  unfold run_command, bind, try_except, validate, debug_print, subprocess_run.
  rewrite Hvalid. cbn. now rewrite Hp.
Qed.

(** A checked command either succeeds, leaving one [Spawn] event, or ends
    the process after one [Spawn] and one diagnostic line, or lets the
    exception of a child that could not be started pass. *)
Lemma run_command_checked_cases :
  run_command w command true s = Ret tt (log (Spawn command) s)
  \/ (exists code line,
        run_command w command true s
        = Exit code (log (Print line) (log (Spawn command) s))
        /\ (proc w (trace s) command = NotFound /\ code = 1%Z
            \/ proc w (trace s) command = Completed code /\ code <> 0%Z))
  \/ run_command w command true s = Raise (Exn OSError) (log (Spawn command) s).
Proof.
  destruct (proc w (trace s) command) as [|rc|] eqn:Hp.
  - right. left. eexists _, _. split.
    + apply run_command_not_found. exact Hp.
    + left. split; reflexivity.
  - destruct (Z.eq_dec rc 0) as [->|Hrc].
    + left. now apply (run_command_completed true 0%Z Hp).
    + right. left. eexists _, _. split.
      * apply run_command_failed; [exact Hp | exact Hrc].
      * right. split; [reflexivity | exact Hrc].
  - right. right. now apply run_command_not_started.
Qed.

End CommandRunner.

(** ** The Tool Installer *)

Lemma install_command_valid (base : Command) (specs : list InstallSpec) :
  _validate_command base = None ->
  _validate_command (install_command base specs) = None.
Proof.
  unfold install_command. destruct base as [|a base]; [discriminate|].
  cbn [_validate_command app].
  destruct (forallb is_Str base) eqn:Hb; [intros _ | discriminate].
  rewrite forallb_app, Hb. cbn.
  assert (H : forallb is_Str (map (fun m => Str (spec_arg m)) specs) = true)
    by (induction specs; simpl; auto).
  now rewrite H.
Qed.

Lemma existsb_filter {A} (f : A -> bool) (l : list A) :
  existsb f l = match filter f l with [] => false | _ :: _ => true end.
Proof.
  induction l as [|x l IH]; simpl; [reflexivity|].
  destruct (f x); simpl; [reflexivity | exact IH].
Qed.

Lemma filter_not_uv_names (modules : list InstallSpec) :
  forall m, In m (filter not_uv modules) -> name m <> "uv".
Proof.
  intros m Hin. apply filter_In in Hin. destruct Hin as [_ Hn].
  unfold not_uv, is_uv in Hn. apply negb_true_iff in Hn.
  now apply String.eqb_neq.
Qed.

Section ToolInstaller.

Variable w : World.
Variable exe : Path.

Lemma install_with_pip_runs (modules : list InstallSpec) (message : string)
    (s : State) :
  exists_ s exe = true ->
  install_with_pip w exe modules message s
  = run_command w (pip_install exe modules) true (log (pip_notice message) s).
Proof.
  intros Hexe.
  unfold install_with_pip, bind, _validate_path, pip_notice.
  rewrite Hexe. cbn [andb negb].
  destruct (Str.truthy message); cbn [print modify]; rewrite build_pip;
    reflexivity.
Qed.

(** The empty list: nothing happens at all. *)
Lemma install_tools_nil (s : State) :
  exists_ s exe = true -> install_tools w exe [] s = Ret tt s.
Proof.
  intros Hexe. unfold install_tools, bind, _validate_path. now rewrite Hexe.
Qed.

(** Without a spec named [uv]: one [pip] call for the whole list. *)
Lemma install_tools_pip (modules : list InstallSpec) (s : State) :
  exists_ s exe = true ->
  modules <> [] ->
  filter is_uv modules = [] ->
  install_tools w exe modules s
  = run_command w (pip_install exe modules) true
      (log (pip_notice "") (log tools_notice s)).
Proof.
  intros Hexe Hne Hf. destruct modules as [|m r]; [contradiction|].
  unfold install_tools, bind, _validate_path. rewrite Hexe. cbn [andb negb].
  rewrite existsb_filter, Hf. cbn [print modify].
  now rewrite install_with_pip_runs.
Qed.

(** With a spec named [uv]: the first such spec goes to [pip], and then
    the specs not named [uv] go to [uv pip] in one call. *)
Lemma install_tools_uv (modules : list InstallSpec) (uv : InstallSpec)
    (rest : list InstallSpec) (s : State) :
  exists_ s exe = true ->
  filter is_uv modules = uv :: rest ->
  install_tools w exe modules s
  = match run_command w (pip_install exe [uv]) true
            (log (bootstrap_notice uv) (log tools_notice s)) with
    | Ret _ s1 =>
        match filter not_uv modules with
        | [] => Ret tt s1
        | others =>
            run_command w (uv_pip_install exe others) true (log uv_notice s1)
        end
    | Exit code s1 => Exit code s1
    | Raise e s1 => Raise e s1
    end.
Proof.
  intros Hexe Hf. destruct modules as [|m r]; [discriminate|].
  unfold install_tools, bind, _validate_path. rewrite Hexe. cbn [andb negb].
  rewrite existsb_filter, Hf. cbn [print modify].
  unfold install_with_uv, bind, _validate_path.
  rewrite exists_log, Hexe. cbn [andb negb]. rewrite Hf.
  rewrite install_with_pip_runs by exact Hexe.
  fold (bootstrap_notice uv). fold not_uv.
  unfold tools_notice.
  destruct (run_command w (pip_install exe [uv]) true _) as [[] s1|c s1|e s1];
    try reflexivity.
  destruct (filter not_uv (m :: r)) as [|o os]; [reflexivity|].
  cbn [print modify]. rewrite build_uv. reflexivity.
Qed.

End ToolInstaller.

(** A checked command adds its [Spawn] event to the trace and, when it
    ends the process, one printed line after it. *)
Lemma run_command_checked_trace (w : World) (command : Command) (s : State) :
  _validate_command command = None ->
  exists extra,
    trace (final_state (run_command w command true s))
    = trace s ++ Spawn command :: extra
    /\ commands extra = [] /\ creations extra = [].
Proof.
  intros Hv.
  destruct (run_command_checked_cases w command s Hv)
    as [E | [(code & line & E & _) | E]]; rewrite E.
  - exists []. now trace_norm.
  - exists [Print line]. now trace_norm.
  - exists []. now trace_norm.
Qed.

Lemma pip_install_valid (exe : Path) (specs : list InstallSpec) :
  _validate_command (pip_install exe specs) = None.
Proof. now apply install_command_valid. Qed.

Lemma uv_pip_install_valid (exe : Path) (specs : list InstallSpec) :
  _validate_command (uv_pip_install exe specs) = None.
Proof. now apply install_command_valid. Qed.

(** The processes [install_tools] starts when a spec is named [uv]: the
    [pip] bootstrap of the first such spec, and after it at most the one
    [uv pip] call for the specs not named [uv]; exactly that call when the
    bootstrap succeeds and such specs exist. *)
Lemma install_tools_uv_spawned (w : World) (exe : Path)
    (modules : list InstallSpec) (uv : InstallSpec) (rest : list InstallSpec)
    (s : State) :
  exists_ s exe = true ->
  filter is_uv modules = uv :: rest ->
  let batch :=
    match filter not_uv modules with
    | [] => []
    | others => [uv_pip_install exe others]
    end in
  (spawned s (install_tools w exe modules s) = [pip_install exe [uv]]
   \/ spawned s (install_tools w exe modules s) = pip_install exe [uv] :: batch)
  /\ ((forall h, proc w h (pip_install exe [uv]) = Completed 0) ->
      spawned s (install_tools w exe modules s) = pip_install exe [uv] :: batch).
Proof.
  intros Hexe Hf batch.
  rewrite (install_tools_uv w exe modules uv rest s Hexe Hf).
  set (s0 := log (bootstrap_notice uv) (log tools_notice s)).
  assert (Hcalc : forall (o : Outcome unit) extra,
            commands extra = [] ->
            trace (final_state o)
            = trace s ++ [tools_notice; bootstrap_notice uv;
                          Spawn (pip_install exe [uv])] ++ extra ->
            spawned s o = [pip_install exe [uv]]).
  { intros o extra Hx Ho. unfold spawned.
    rewrite (emitted_of_trace s o _ Ho). cbn [app commands tools_notice
      bootstrap_notice pip_notice]. now rewrite Hx. }
  assert (Hbatch : forall s1,
            trace s1 = trace s ++ [tools_notice; bootstrap_notice uv;
                                   Spawn (pip_install exe [uv])] ->
            spawned s (match filter not_uv modules with
                       | [] => Ret tt s1
                       | others =>
                           run_command w (uv_pip_install exe others) true
                             (log uv_notice s1)
                       end)
            = pip_install exe [uv] :: batch).
  { intros s1 Hs1. subst batch.
    destruct (filter not_uv modules) as [|o os].
    - apply (Hcalc _ []); [reflexivity | now rewrite app_nil_r].
    - destruct (run_command_checked_trace w _ (log uv_notice s1)
                  (uv_pip_install_valid exe (o :: os))) as (extra & Ht & Hc & _).
      unfold spawned. erewrite emitted_of_trace.
      2:{ rewrite Ht. cbn [trace log]. rewrite Hs1, <- !app_assoc.
          cbn [app]. reflexivity. }
      cbn [commands]. now rewrite Hc. }
  split.
  - destruct (run_command_checked_cases w _ s0 (pip_install_valid exe [uv]))
      as [E | [(code & line & E & _) | E]]; rewrite E.
    + right. apply Hbatch. subst s0. now trace_norm.
    + left. apply (Hcalc _ [Print line]); [reflexivity|].
      subst s0. now trace_norm.
    + left. apply (Hcalc _ []); [reflexivity|].
      subst s0. now trace_norm.
  - intros Hboot.
    rewrite (run_command_completed w _ s0 (pip_install_valid exe [uv]) true
               0%Z (Hboot (trace s0)) eq_refl).
    apply Hbatch. subst s0. now trace_norm.
Qed.

Lemma install_tools_pip_spawned (w : World) (exe : Path)
    (modules : list InstallSpec) (s : State) :
  exists_ s exe = true ->
  modules <> [] ->
  filter is_uv modules = [] ->
  spawned s (install_tools w exe modules s) = [pip_install exe modules].
Proof.
  intros Hexe Hne Hf. rewrite (install_tools_pip w exe modules s Hexe Hne Hf).
  destruct (run_command_checked_trace w _ (log (pip_notice "") (log tools_notice s))
              (pip_install_valid exe modules)) as (extra & Ht & Hc & _).
  unfold spawned. erewrite emitted_of_trace.
  2:{ rewrite Ht. trace_norm. reflexivity. }
  cbn [commands pip_notice tools_notice]. now rewrite Hc.
Qed.

(** C3.  With an existing interpreter and a non-empty spec list:
    when a spec is named [uv] and the [pip] bootstrap of the first such
    spec succeeds, the processes started are that single-item [pip]
    install and then one [uv pip] install of all the specs not named [uv],
    in list order (no second process when there is none); when no spec is
    named [uv], the only process started is one [pip] install of the whole
    list. *)
Theorem C3_install_tools_invocations :
  forall (w : World) (exe : Path) (modules : list InstallSpec) (s : State),
    exists_ s exe = true ->
    modules <> [] ->
    (forall uv rest,
        filter is_uv modules = uv :: rest ->
        (forall h, proc w h (pip_install exe [uv]) = Completed 0) ->
        spawned s (install_tools w exe modules s)
        = pip_install exe [uv]
            :: match filter not_uv modules with
               | [] => []
               | others => [uv_pip_install exe others]
               end)
    /\ (filter is_uv modules = [] ->
        spawned s (install_tools w exe modules s) = [pip_install exe modules]).
Proof.
  intros w exe modules s Hexe Hne. split.
  - intros uv rest Hf Hboot.
    now apply (install_tools_uv_spawned w exe modules uv rest s Hexe Hf).
  - intros Hf. now apply install_tools_pip_spawned.
Qed.

Lemma C3_install_tools_invocations_witness :
  spawned ready_state (install_tools posix_world venv_python BOOTSTRAP_MODULES ready_state)
  = [ pip_install venv_python [mkInstallSpec "uv" ">=0.9.18" ""];
      uv_pip_install venv_python [mkInstallSpec "tox" ">=4.32.0" "";
                                  mkInstallSpec "tox-uv" ">=1.29.0" ""] ]
  /\ spawned ready_state
       (install_tools posix_world venv_python [mkInstallSpec "tox" "" ""] ready_state)
     = [ pip_install venv_python [mkInstallSpec "tox" "" ""] ].
Proof.
  split.
  - apply (proj1 (C3_install_tools_invocations posix_world venv_python
                    BOOTSTRAP_MODULES ready_state eq_refl
                    ltac:(discriminate)) _ _ eq_refl).
    intros h. reflexivity.
  - apply (proj2 (C3_install_tools_invocations posix_world venv_python
                    [mkInstallSpec "tox" "" ""] ready_state eq_refl
                    ltac:(discriminate))).
    reflexivity.
Defined.

(** C3, a second spec named [uv]: of the specs left after the bootstrap,
    [uv>=1] is not in the batched call, which holds [tox] alone. *)
Lemma C3_counterexample_second_uv_spec :
  let modules := [ mkInstallSpec "uv" "" ""; mkInstallSpec "tox" "" "";
                   mkInstallSpec "uv" ">=1" "" ] in
  spawned ready_state (install_tools posix_world venv_python modules ready_state)
  = [ pip_install venv_python [mkInstallSpec "uv" "" ""];
      uv_pip_install venv_python [mkInstallSpec "tox" "" ""] ]
  /\ spawned ready_state (install_tools posix_world venv_python modules ready_state)
     <> [ pip_install venv_python [mkInstallSpec "uv" "" ""];
          uv_pip_install venv_python (without_first_uv modules) ].
Proof.
  split; [reflexivity | discriminate].
Qed.

(** C4.  On the empty spec list [install_tools] starts no process, prints
    nothing and leaves the state as it is, whatever the interpreter path;
    when the interpreter exists it returns normally. *)
Theorem C4_install_tools_empty_is_noop :
  forall (w : World) (exe : Path) (s : State),
    spawned s (install_tools w exe [] s) = []
    /\ final_state (install_tools w exe [] s) = s
    /\ (exists_ s exe = true -> install_tools w exe [] s = Ret tt s).
Proof.
  intros w exe s.
  assert (Hs : final_state (install_tools w exe [] s) = s).
  { unfold install_tools, bind, _validate_path.
    destruct (exists_ s exe); reflexivity. }
  repeat split.
  - unfold spawned. rewrite emitted_same; [reflexivity | now rewrite Hs].
  - exact Hs.
  - apply install_tools_nil.
Qed.

Lemma C4_install_tools_empty_is_noop_witness :
  install_tools posix_world venv_python [] ready_state = Ret tt ready_state.
Proof.
  apply (C4_install_tools_empty_is_noop posix_world venv_python ready_state).
  reflexivity.
Defined.

(** C10.  When more than one spec is named [uv] and the interpreter
    exists: the first process started is the single-item [pip] install of
    the first such spec; the only other process that can follow is the
    [uv pip] install of the specs not named [uv], which therefore holds no
    spec named [uv]; so no process installs the second or a later spec
    named [uv].  When the bootstrap succeeds these are exactly the
    processes started. *)
Theorem C10_only_first_uv_spec_installed :
  forall (w : World) (exe : Path) (modules : list InstallSpec) (s : State)
         (uv1 uv2 : InstallSpec) (more : list InstallSpec),
    exists_ s exe = true ->
    filter is_uv modules = uv1 :: uv2 :: more ->
    let others := filter not_uv modules in
    let batch := match others with
                 | [] => []
                 | _ => [uv_pip_install exe others]
                 end in
    (forall m, In m others -> name m <> "uv")
    /\ (forall m, In m (uv2 :: more) -> name m = "uv" /\ ~ In m others)
    /\ (spawned s (install_tools w exe modules s) = [pip_install exe [uv1]]
        \/ spawned s (install_tools w exe modules s)
           = pip_install exe [uv1] :: batch)
    /\ ((forall h, proc w h (pip_install exe [uv1]) = Completed 0) ->
        spawned s (install_tools w exe modules s)
        = pip_install exe [uv1] :: batch).
Proof.
  intros w exe modules s uv1 uv2 more Hexe Hf others batch.
  assert (Hnames : forall m, In m others -> name m <> "uv")
    by apply filter_not_uv_names.
  split; [exact Hnames|]. split.
  - intros m Hin.
    assert (Hm : In m (filter is_uv modules)) by (rewrite Hf; now right).
    apply filter_In in Hm. destruct Hm as [_ Hm].
    unfold is_uv in Hm. apply String.eqb_eq in Hm.
    split; [exact Hm|]. intros Ho. now apply (Hnames m Ho).
  - destruct (install_tools_uv_spawned w exe modules uv1 (uv2 :: more) s Hexe Hf)
      as [Hcases Hexact].
    subst batch others. split.
    + destruct (filter not_uv modules); exact Hcases.
    + intros Hboot. destruct (filter not_uv modules); now apply Hexact.
Qed.

Lemma C10_only_first_uv_spec_installed_witness :
  let modules := [ mkInstallSpec "uv" "" ""; mkInstallSpec "tox" "" "";
                   mkInstallSpec "uv" ">=1" "" ] in
  spawned ready_state (install_tools posix_world venv_python modules ready_state)
  = [ pip_install venv_python [mkInstallSpec "uv" "" ""];
      uv_pip_install venv_python [mkInstallSpec "tox" "" ""] ].
Proof.
  intros modules.
  apply (C10_only_first_uv_spec_installed posix_world venv_python modules
           ready_state (mkInstallSpec "uv" "" "") (mkInstallSpec "uv" ">=1" "")
           [] eq_refl eq_refl).
  intros h. reflexivity.
Defined.

(** ** A rule for sequencing

    [within Q c]: from every state [s], the computation [c] ends (by
    return, exception or exit) in a way and in a state that [Q] relates to
    [s].  When [Q] holds of standing still and composes along a
    computation that goes on, the property passes through the monad's
    combinators. *)

Section Sequencing.

Variable Q : judgement.
Hypothesis Q_refl : forall s, Q s GoesOn s.
Hypothesis Q_trans : forall a b c e, Q a GoesOn b -> Q b e c -> Q a e c.

Lemma within_ret {A} (a : A) : within Q (ret a).
Proof. intros s. apply Q_refl. Qed.

Lemma within_exit {A} (code : Z) :
  (forall s, Q s (Exits code) s) -> within Q (@sys_exit A code).
Proof. intros H s. apply H. Qed.

Lemma within_raise {A} (e : raised) : within Q (@raise A e).
Proof. intros s. apply Q_refl. Qed.

Lemma within_get {A} (f : State -> A) : within Q (get f).
Proof. intros s. apply Q_refl. Qed.

Lemma within_validate (v : option exn) : within Q (validate v).
Proof. destruct v; [apply within_raise | apply within_ret]. Qed.

Lemma within_lift {A} (r : exn + A) : within Q (lift r).
Proof. destruct r; [apply within_raise | apply within_ret]. Qed.

Lemma within_validate_path (p : Path) (b : bool) : within Q (_validate_path p b).
Proof.
  intros s. unfold _validate_path.
  destruct (b && negb (exists_ s p)); apply Q_refl.
Qed.

Lemma within_bind {A B} (c : M A) (k : A -> M B) :
  within Q c -> (forall a, within Q (k a)) -> within Q (bind c k).
Proof.
  intros Hc Hk s. unfold bind. specialize (Hc s).
  destruct (c s) as [a s'|code s'|e s']; cbn in *; try exact Hc.
  apply (Q_trans _ _ _ _ Hc). apply Hk.
Qed.

(** A value that is already there is passed on as it is. *)
Lemma within_bind_value {A B} (a : A) (k : A -> M B) :
  within Q (k a) -> within Q (bind (lift (inr a)) k).
Proof. intros Hk s. apply Hk. Qed.

Lemma within_try_except {A} (body : M A) (handler : raised -> option (M A)) :
  within Q body ->
  (forall e h, handler e = Some h -> within Q h) ->
  within Q (try_except body handler).
Proof.
  intros Hb Hh s. unfold try_except. specialize (Hb s).
  destruct (body s) as [a s'|code s'|e s']; cbn in *; try exact Hb.
  destruct (handler e) as [h|] eqn:He; cbn; [|exact Hb].
  apply (Q_trans _ _ _ _ Hb). now apply (Hh e h).
Qed.

Lemma within_modify (f : State -> State) :
  (forall s, Q s GoesOn (f s)) -> within Q (modify f).
Proof. intros H s. apply H. Qed.

Lemma within_lru_cache {A} (lookup : State -> option A)
    (store : A -> State -> State) (body : M A) :
  within Q body ->
  (forall a s, Q s GoesOn (store a s)) ->
  within Q (lru_cache lookup store body).
Proof.
  intros Hb Hs. unfold lru_cache.
  apply within_bind; [apply within_get|]. intros [a|]; [apply within_ret|].
  apply within_bind; [exact Hb|]. intros a.
  apply within_bind; [|intros _; apply within_ret].
  apply within_modify. apply Hs.
Qed.

Lemma within_lru_cache_by_key {A} (lookup : State -> option A)
    (used : A -> State -> State) (body : M A) :
  within Q body ->
  (forall a s, Q s GoesOn (used a s)) ->
  within Q (lru_cache_by_key lookup used body).
Proof.
  intros Hb Hs. unfold lru_cache_by_key.
  apply within_bind; [apply within_get|]. intros [a|].
  - apply within_bind; [|intros _; apply within_ret].
    apply within_modify. apply Hs.
  - apply within_bind; [exact Hb|]. intros a.
    apply within_bind; [|intros _; apply within_ret].
    apply within_modify. apply Hs.
Qed.

End Sequencing.

Lemma lru_cache_hit {A} (lookup : State -> option A)
    (store : A -> State -> State) (body : M A) (s : State) (a : A) :
  lookup s = Some a -> lru_cache lookup store body s = Ret a s.
Proof. intros H. unfold lru_cache, bind, get. now rewrite H. Qed.

Lemma lru_cache_miss {A} (lookup : State -> option A)
    (store : A -> State -> State) (body : M A) (s : State) :
  lookup s = None ->
  lru_cache lookup store body s
  = match body s with
    | Ret a s' => Ret a (store a s')
    | Exit code s' => Exit code s'
    | Raise e s' => Raise e s'
    end.
Proof.
  intros H. unfold lru_cache, bind, get. rewrite H.
  destruct (body s); reflexivity.
Qed.

Lemma lru_cache_by_key_hit {A} (lookup : State -> option A)
    (used : A -> State -> State) (body : M A) (s : State) (a : A) :
  lookup s = Some a -> lru_cache_by_key lookup used body s = Ret a (used a s).
Proof. intros H. unfold lru_cache_by_key, bind, get. now rewrite H. Qed.

Lemma lru_cache_by_key_miss {A} (lookup : State -> option A)
    (used : A -> State -> State) (body : M A) (s : State) :
  lookup s = None ->
  lru_cache_by_key lookup used body s
  = match body s with
    | Ret a s' => Ret a (used a s')
    | Exit code s' => Exit code s'
    | Raise e s' => Raise e s'
    end.
Proof.
  intros H. unfold lru_cache_by_key, bind, get. rewrite H.
  destruct (body s); reflexivity.
Qed.

(** The handlers of a [try_except], one by one. *)
Ltac each_handler :=
  let e := fresh "e" in let h := fresh "h" in let H := fresh "H" in
  intros e h H;
  repeat match type of H with
         | match ?x with _ => _ end = Some _ => destruct x; try discriminate
         end;
  inversion H; subst; clear H.

(** Walks through a computation built from the monad's combinators; the
    tactic [leaf] settles its primitive steps and the exits. *)
Ltac within_walk refl trans leaf :=
  repeat first
    [ solve [leaf]
    | apply within_ret; exact refl
    | apply within_exit; solve [leaf]
    | apply within_raise; exact refl
    | apply within_get; exact refl
    | apply within_validate; exact refl
    | apply within_lift; exact refl
    | apply within_validate_path; exact refl
    | apply within_bind_value
    | apply within_bind; [exact trans | | intros ?; cbv beta]
    | apply within_try_except; [exact trans | | each_handler]
    | match goal with
      | |- within _ (if ?b then _ else _) => destruct b
      | |- within _ (match ?x with _ => _ end) => destruct x
      | |- within _ (let _ := _ in _) => cbv zeta
      end ].

(** *** Quiet computations *)

Lemma quiet_refl (s : State) : quiet s s.
Proof.
  repeat split. exists []. now rewrite app_nil_r.
Qed.

Lemma quiet_trans (a b c : State) : quiet a b -> quiet b c -> quiet a c.
Proof.
  intros (Hd1 & Hf1 & x1 & Ht1 & Hc1) (Hd2 & Hf2 & x2 & Ht2 & Hc2).
  repeat split; try congruence.
  exists (x1 ++ x2). split.
  - now rewrite Ht2, Ht1, app_assoc.
  - now rewrite creations_app, Hc1, Hc2.
Qed.

Lemma quietly_refl (s : State) : quietly s GoesOn s.
Proof. apply quiet_refl. Qed.

Lemma quietly_trans (a b c : State) (e : ending) :
  quietly a GoesOn b -> quietly b e c -> quietly a e c.
Proof. apply quiet_trans. Qed.

Lemma quietly_exit (code : Z) (s : State) : quietly s (Exits code) s.
Proof. apply quiet_refl. Qed.

Lemma quiet_print (line : list frag) : within quietly (print line).
Proof.
  intros s. repeat split. exists [Print line]. now split.
Qed.

Lemma quiet_subprocess_run (w : World) (command : Command) (check : bool) :
  within quietly (subprocess_run w command check).
Proof.
  intros s. unfold subprocess_run.
  assert (H : quiet s (log (Spawn command) s))
    by (repeat split; exists [Spawn command]; now split).
  destruct (proc w (trace s) command) as [|rc|]; [exact H| |exact H].
  destruct (check && negb (rc =? 0)%Z); exact H.
Qed.

Create HintDb quiet.
#[local] Hint Resolve quietly_exit quiet_print quiet_subprocess_run : quiet.

Ltac quiet_walk :=
  within_walk quietly_refl quietly_trans ltac:(auto with quiet nocore).

Lemma quiet_run_command (w : World) (command : Command) (check : bool) :
  within quietly (run_command w command check).
Proof. unfold run_command, debug_print. quiet_walk. Qed.

Lemma quiet_modify_pip_cache (k : Path) (v : bool) :
  within quietly (modify (add_pip_cache k v)).
Proof.
  intros s. repeat split. exists []. cbn. now rewrite app_nil_r.
Qed.

#[local] Hint Resolve quiet_run_command quiet_modify_pip_cache : quiet.

Lemma quiet_pip_module_is_available (w : World) (python_exe : Path) :
  within quietly (pip_module_is_available w python_exe).
Proof.
  unfold pip_module_is_available.
  apply within_lru_cache_by_key;
    [exact quietly_refl | exact quietly_trans | | apply quiet_modify_pip_cache].
  unfold pip_module_is_available_uncached, debug_print. quiet_walk.
Qed.

#[local] Hint Resolve quiet_pip_module_is_available : quiet.

(** ** The Environment Builder *)

Section EnvironmentBuilder.

Variable w : World.
Variables venv_dir python_exe : Path.

Lemma create_virtual_environment_present (s : State) :
  exists_ s venv_dir = true ->
  create_virtual_environment w venv_dir python_exe s
  = Ret tt (log (skip_notice venv_dir) s).
Proof.
  intros Hp. unfold create_virtual_environment.
  do 2 (erewrite bind_ret_step by reflexivity).
  erewrite bind_ret_step by reflexivity. now rewrite Hp.
Qed.

(** When the directory is absent: the environment is created once, the
    directory exists from then on, and nothing that follows creates
    again. *)
Lemma create_virtual_environment_absent (s : State) :
  exists_ s venv_dir = false ->
  let s' := final_state (create_virtual_environment w venv_dir python_exe s) in
  dirs s' = venv_dir :: dirs s
  /\ exists extra,
       trace s' = trace s ++ creating_notice venv_dir :: CreateVenv venv_dir :: extra
       /\ creations extra = [].
Proof.
  intros Ha. unfold create_virtual_environment.
  do 2 (erewrite bind_ret_step by reflexivity).
  erewrite bind_ret_step by reflexivity. rewrite Ha. cbn [negb].
  do 2 (erewrite bind_ret_step by reflexivity).
  match goal with
  | |- context [final_state (?rest ?s2)] =>
      assert (Hq : within quietly rest) by quiet_walk;
      destruct (Hq s2) as (Hd & _ & extra & Ht & Hc)
  end.
  cbv zeta. rewrite Hd, Ht. split; [reflexivity|].
  exists extra. split; [|exact Hc].
  trace_norm. reflexivity.
Qed.

Lemma create_virtual_environment_exists_after (s : State) :
  exists_ (final_state (create_virtual_environment w venv_dir python_exe s))
          venv_dir = true.
Proof.
  destruct (exists_ s venv_dir) eqn:He.
  - rewrite create_virtual_environment_present by exact He. exact He.
  - destruct (create_virtual_environment_absent s He) as [Hd _].
    unfold exists_. rewrite Hd. cbn [path_mem existsb].
    unfold path_eqb at 1.
    destruct (list_eq_dec string_dec venv_dir venv_dir); [reflexivity | contradiction].
Qed.

Lemma create_virtual_environment_trace (s : State) :
  exists evs,
    trace (final_state (create_virtual_environment w venv_dir python_exe s))
    = trace s ++ evs
    /\ creations evs = (if exists_ s venv_dir then [] else [venv_dir]).
Proof.
  destruct (exists_ s venv_dir) eqn:He.
  - rewrite create_virtual_environment_present by exact He.
    exists [skip_notice venv_dir]. now split.
  - destruct (create_virtual_environment_absent s He) as [_ (extra & Ht & Hc)].
    eexists. split; [exact Ht|]. cbn. now rewrite Hc.
Qed.

End EnvironmentBuilder.



(** ** The Repository Locator *)

Section RepositoryLocator.

Variable w : World.

Lemma get_git_root_cached (s : State) (p : Path) :
  git_root_cache s = Some p -> get_git_root w s = Ret p s.
Proof. apply lru_cache_hit. Qed.

(** A result that is returned has been stored. *)
Lemma get_git_root_stores (s s1 : State) (p : Path) :
  get_git_root w s = Ret p s1 -> git_root_cache s1 = Some p.
Proof.
  unfold get_git_root. destruct (git_root_cache s) as [q|] eqn:Hc.
  - rewrite (lru_cache_hit _ _ _ s q Hc). intros H. inversion H; subst. exact Hc.
  - rewrite (lru_cache_miss _ _ _ s Hc).
    destruct (get_git_root_uncached w s) as [q s2|code s2|e s2];
      intros H; inversion H; subst. reflexivity.
Qed.

(** The body asks [git] exactly once, whatever the answer. *)
Lemma get_git_root_uncached_trace (s : State) :
  exists extra,
    trace (final_state (get_git_root_uncached w s))
    = trace s ++ Spawn GIT_QUERY :: extra
    /\ commands extra = []
    /\ git_root_cache (final_state (get_git_root_uncached w s))
       = git_root_cache s.
Proof.
  unfold get_git_root_uncached, try_except, bind, subprocess_run.
  destruct (proc w (trace s) GIT_QUERY) as [|rc|].
  - cbv beta iota zeta. unfold bind, get. destruct (find _ _).
    + exists []. repeat split.
    + cbn. eexists [_]. repeat split; trace_norm; reflexivity.
  - cbn. destruct (rc =? 0)%Z; cbn.
    + exists []. repeat split.
    + eexists [_]. repeat split; trace_norm; reflexivity.
  - exists []. repeat split.
Qed.

Lemma get_git_root_spawned (s : State) :
  spawned s (get_git_root w s)
  = match git_root_cache s with
    | Some _ => []
    | None => [GIT_QUERY]
    end.
Proof.
  unfold get_git_root. destruct (git_root_cache s) as [q|] eqn:Hc.
  - rewrite (lru_cache_hit _ _ _ s q Hc). unfold spawned.
    now rewrite emitted_same.
  - rewrite (lru_cache_miss _ _ _ s Hc).
    destruct (get_git_root_uncached_trace s) as (extra & Ht & Hx & _).
    unfold spawned. erewrite emitted_of_trace.
    2:{ destruct (get_git_root_uncached w s); exact Ht. }
    cbn. now rewrite Hx.
Qed.

End RepositoryLocator.

(** ** The whole script: the [git] query *)

Lemma git_queries_app (a b : list Event) :
  git_queries (a ++ b) = git_queries a + git_queries b.
Proof.
  unfold git_queries. now rewrite commands_app, filter_app, length_app.
Qed.

Lemma git_neutral_refl (s : State) : git_neutral s s.
Proof. split; [reflexivity|]. exists []. now rewrite app_nil_r. Qed.

Lemma git_neutral_trans (a b c : State) :
  git_neutral a b -> git_neutral b c -> git_neutral a c.
Proof.
  intros (Hc1 & x1 & Ht1 & Hq1) (Hc2 & x2 & Ht2 & Hq2).
  split; [congruence|]. exists (x1 ++ x2). split.
  - now rewrite Ht2, Ht1, app_assoc.
  - now rewrite git_queries_app, Hq1, Hq2.
Qed.

Lemma neutrally_refl (s : State) : neutrally s GoesOn s.
Proof. apply git_neutral_refl. Qed.

Lemma neutrally_trans (a b c : State) (e : ending) :
  neutrally a GoesOn b -> neutrally b e c -> neutrally a e c.
Proof. apply git_neutral_trans. Qed.

Lemma neutrally_exit (code : Z) (s : State) : neutrally s (Exits code) s.
Proof. apply git_neutral_refl. Qed.

(** One event that is not the query, with the cache untouched. *)
Lemma git_neutral_event (e : Event) (s s' : State) :
  git_root_cache s' = git_root_cache s ->
  trace s' = trace s ++ [e] ->
  git_queries [e] = 0 ->
  git_neutral s s'.
Proof. intros Hc Ht Hq. split; [exact Hc|]. now exists [e]. Qed.

Lemma neutral_print (line : list frag) : within neutrally (print line).
Proof. intros s. now apply (git_neutral_event (Print line)). Qed.

Lemma neutral_input_from (prompt : string) (pending : list InputEvent) :
  within neutrally (input_from prompt pending).
Proof.
  intros s. unfold input_from.
  destruct pending as [|[l|] rest];
    now apply (git_neutral_event (Input prompt)).
Qed.

Lemma neutral_subprocess_run (w : World) (command : Command) (check : bool) :
  command_eqb GIT_QUERY command = false ->
  within neutrally (subprocess_run w command check).
Proof.
  intros Hc s. unfold subprocess_run.
  assert (H : git_neutral s (log (Spawn command) s)).
  { apply (git_neutral_event (Spawn command)); try reflexivity.
    unfold git_queries. cbn [commands filter]. now rewrite Hc. }
  destruct (proc w (trace s) command) as [|rc|]; [exact H| |exact H].
  destruct (check && negb (rc =? 0)%Z); exact H.
Qed.

Lemma neutral_store_pip (k : Path) (v : bool) (s : State) :
  neutrally s GoesOn (add_pip_cache k v s).
Proof.
  split; [reflexivity|]. exists []. cbn. now rewrite app_nil_r.
Qed.

Lemma neutral_create_venv (w : World) (venv_dir : Path) :
  within neutrally (create_venv w venv_dir).
Proof. intros s. now apply (git_neutral_event (CreateVenv venv_dir)). Qed.

Create HintDb neutral.
#[local] Hint Resolve neutrally_exit neutral_print neutral_input_from
  neutral_subprocess_run neutral_create_venv : neutral.
#[local] Hint Extern 0 (command_eqb _ _ = false) => reflexivity : neutral.

Ltac neutral_walk :=
  within_walk neutrally_refl neutrally_trans ltac:(auto with neutral nocore).

Lemma neutral_run_command (w : World) (command : Command) (check : bool) :
  command_eqb GIT_QUERY command = false ->
  within neutrally (run_command w command check).
Proof. intros Hc. unfold run_command, debug_print. neutral_walk. Qed.

#[local] Hint Resolve neutral_run_command : neutral.

Lemma neutral_pip_module_is_available (w : World) (python_exe : Path) :
  within neutrally (pip_module_is_available w python_exe).
Proof.
  unfold pip_module_is_available.
  apply within_lru_cache_by_key;
    [exact neutrally_refl | exact neutrally_trans | | apply neutral_store_pip].
  unfold pip_module_is_available_uncached, debug_print. neutral_walk.
Qed.

Lemma neutral_ask (pending : list InputEvent) :
  forall choice, within neutrally (ask choice pending).
Proof.
  induction pending as [|ev rest IH]; intros choice; cbn [ask]; neutral_walk.
Qed.

Lemma neutral_ask_until_decided (choice : string) :
  within neutrally (ask_until_decided choice).
Proof. intros s. apply neutral_ask. Qed.

#[local] Hint Resolve neutral_pip_module_is_available
  neutral_ask_until_decided : neutral.

Lemma neutral_create_virtual_environment (w : World) (venv_dir python_exe : Path) :
  within neutrally (create_virtual_environment w venv_dir python_exe).
Proof. unfold create_virtual_environment. neutral_walk. Qed.

Lemma neutral_install_with_pip (w : World) (python_exe : Path)
    (modules : list InstallSpec) (message : string) :
  within neutrally (install_with_pip w python_exe modules message).
Proof.
  unfold install_with_pip. rewrite build_pip. neutral_walk.
Qed.

#[local] Hint Resolve neutral_install_with_pip : neutral.

Lemma neutral_install_tools (w : World) (python_exe : Path)
    (modules : list InstallSpec) :
  within neutrally (install_tools w python_exe modules).
Proof.
  unfold install_tools, install_with_uv. rewrite build_uv. neutral_walk.
Qed.

Lemma neutral_print_instructions (w : World) (template : string) :
  within neutrally (print_instructions w template).
Proof. unfold print_instructions. neutral_walk. Qed.


#[local] Hint Resolve neutral_create_virtual_environment neutral_install_tools
  neutral_print_instructions : neutral.

(** ** The confirmation prompt *)

(** The recursion [ask] is the [while] loop of the source: while the
    answer is undecided, read another one. *)
Lemma ask_until_decided_unfold (choice : string) (s : State) :
  ask_until_decided choice s
  = if undecided choice
    then bind (input PROMPT) ask_until_decided s
    else Ret choice s.
Proof.
  unfold ask_until_decided, input, bind.
  destruct (stdin s) as [|ev rest] eqn:Hs; cbn [ask];
    destruct (undecided choice); try reflexivity.
  unfold bind. destruct ev as [l|]; reflexivity.
Qed.

Lemma after_prompts_log (n : nat) (pending rest : list InputEvent) (s : State) :
  after_prompts n rest (log (Input PROMPT) (set_stdin pending s))
  = after_prompts (S n) rest s.
Proof.
  unfold after_prompts. cbn [dirs files git_root_cache pip_cache trace log set_stdin].
  f_equal. now rewrite <- app_assoc.
Qed.

(** Undecided answers are asked again, one prompt each; the loop ends at
    the first decided answer ... *)
Lemma ask_answered (junk : list string) (a : string) (rest : list InputEvent) :
  Forall (fun b => undecided b = true) junk ->
  undecided a = false ->
  forall (c : string) (s : State),
    undecided c = true ->
    ask c (map Line junk ++ Line a :: rest) s
    = Ret a (after_prompts (S (length junk)) rest s).
Proof.
  intros Hjunk Ha. induction junk as [|b more IH]; intros c s Hc.
  - cbn [map app ask length]. rewrite Hc. unfold bind. cbn [input_from tl].
    destruct rest; cbn [ask]; rewrite Ha; unfold ret, after_prompts; cbn;
      reflexivity.
  - inversion Hjunk as [|? ? Hb Hmore]; subst.
    cbn [map app ask length]. rewrite Hc. unfold bind. cbn [input_from tl].
    rewrite (IH Hmore b _ Hb). now rewrite after_prompts_log.
Qed.

(** ... or at an interrupt ... *)
Lemma ask_interrupted (junk : list string) (rest : list InputEvent) :
  Forall (fun b => undecided b = true) junk ->
  forall (c : string) (s : State),
    undecided c = true ->
    ask c (map Line junk ++ Interrupt :: rest) s
    = Raise (Exn KeyboardInterrupt) (after_prompts (S (length junk)) rest s).
Proof.
  intros Hjunk. induction junk as [|b more IH]; intros c s Hc.
  - cbn [map app ask length]. rewrite Hc. reflexivity.
  - inversion Hjunk as [|? ? Hb Hmore]; subst.
    cbn [map app ask length]. rewrite Hc. unfold bind. cbn [input_from tl].
    rewrite (IH Hmore b _ Hb). now rewrite after_prompts_log.
Qed.

(** ... or at the end of the input. *)
Lemma ask_eof (junk : list string) :
  Forall (fun b => undecided b = true) junk ->
  forall (c : string) (s : State),
    undecided c = true ->
    ask c (map Line junk) s
    = Raise (Exn EOFError) (after_prompts (S (length junk)) [] s).
Proof.
  intros Hjunk. induction junk as [|b more IH]; intros c s Hc.
  - cbn [map ask length]. rewrite Hc. reflexivity.
  - inversion Hjunk as [|? ? Hb Hmore]; subst.
    cbn [map ask length]. rewrite Hc. unfold bind. cbn [input_from tl].
    rewrite (IH Hmore b _ Hb). now rewrite after_prompts_log.
Qed.

Section Confirmation.

Variable w : World.
Variables (s s1 : State) (root : Path).
Hypothesis Hroot : get_git_root w s = Ret root s1.

Lemma confirmation_prompt_asks :
  confirmation_prompt w s
  = match ask_until_decided "" (banner w root s1) with
    | Ret choice s2 =>
        Ret (Str.mem (Str.strip (Str.lower choice)) [""; "y"; "yes"]) s2
    | Raise (Exn KeyboardInterrupt) s2 => Ret false (log (Print []) s2)
    | Raise e s2 => Raise e s2
    | Exit code s2 => Exit code s2
    end.
Proof.
  unfold confirmation_prompt, bind at 1, try_except.
  rewrite (bind_ret_step _ _ s root s1 Hroot).
  do 2 (erewrite bind_ret_step by reflexivity). fold (banner w root s1).
  unfold bind.
  destruct (ask_until_decided "" (banner w root s1)) as [c s2|code s2|e s2];
    try reflexivity.
  destruct e as [[]|]; reflexivity.
Qed.

Variable junk : list string.
Hypothesis Hjunk : Forall (fun a => undecided a = true) junk.

Lemma confirmation_prompt_answered (a : string) (rest : list InputEvent) :
  stdin s1 = map Line junk ++ Line a :: rest ->
  undecided a = false ->
  confirmation_prompt w s
  = Ret (Str.mem (Str.strip (Str.lower a)) [""; "y"; "yes"])
        (after_prompts (S (length junk)) rest (banner w root s1)).
Proof.
  intros Hin Ha. rewrite confirmation_prompt_asks.
  unfold ask_until_decided. cbn [stdin banner log]. rewrite Hin.
  now rewrite (ask_answered junk a rest Hjunk Ha).
Qed.

Lemma confirmation_prompt_interrupted (rest : list InputEvent) :
  stdin s1 = map Line junk ++ Interrupt :: rest ->
  confirmation_prompt w s
  = Ret false (log (Print [])
                   (after_prompts (S (length junk)) rest (banner w root s1))).
Proof.
  intros Hin. rewrite confirmation_prompt_asks.
  unfold ask_until_decided. cbn [stdin banner log]. rewrite Hin.
  now rewrite (ask_interrupted junk rest Hjunk).
Qed.

End Confirmation.

Lemma confirmation_prompt_eof (w : World) (s s1 : State) (root : Path)
    (junk : list string) :
  get_git_root w s = Ret root s1 ->
  Forall (fun a => undecided a = true) junk ->
  stdin s1 = map Line junk ->
  confirmation_prompt w s
  = Raise (Exn EOFError) (after_prompts (S (length junk)) [] (banner w root s1)).
Proof.
  intros Hroot Hjunk Hin. rewrite (confirmation_prompt_asks w s s1 root Hroot).
  unfold ask_until_decided. cbn [stdin banner log]. rewrite Hin.
  now rewrite (ask_eof junk Hjunk).
Qed.

(** The loop returns decided answers only, never the empty one. *)
Lemma ask_returns_decided (pending : list InputEvent) :
  forall (choice a : string) (s s' : State),
    ask choice pending s = Ret a s' -> undecided a = false.
Proof.
  induction pending as [|ev rest IH]; intros choice a s s' H; cbn [ask] in H;
    destruct (undecided choice) eqn:Hc.
  - destruct s; discriminate.
  - inversion H; subst. exact Hc.
  - apply bind_ret_inv in H. destruct H as (c & s1 & _ & H).
    exact (IH c a s1 s' H).
  - inversion H; subst. exact Hc.
Qed.

Lemma decided_is_not_empty (a : string) :
  undecided a = false -> Str.strip (Str.lower a) <> "".
Proof.
  unfold undecided. intros H E. rewrite E in H. discriminate.
Qed.

(** C1.  With the repository root found and [rest] the input after the
    answers named: a first answer [y], [Y] or [yes] gives [true] and [n],
    [no] or [NO] gives [false], after one prompt.  The empty answer is not
    accepted: the prompt is shown again and the result is that of the next
    decided answer, [false] for [n]; when the input ends after the empty
    answer, [EOFError] leaves the function.  On no input does the loop
    hand an empty answer to the [return] statement. *)
Theorem C1_empty_answer_is_asked_again :
  forall (w : World) (s s1 : State) (root : Path) (rest : list InputEvent),
    get_git_root w s = Ret root s1 ->
    (forall a, In a ["y"; "Y"; "yes"] ->
               stdin s1 = Line a :: rest ->
               confirmation_prompt w s
               = Ret true (after_prompts 1 rest (banner w root s1)))
    /\ (forall a, In a ["n"; "no"; "NO"] ->
                  stdin s1 = Line a :: rest ->
                  confirmation_prompt w s
                  = Ret false (after_prompts 1 rest (banner w root s1)))
    /\ (forall a, undecided a = false ->
                  stdin s1 = Line "" :: Line a :: rest ->
                  confirmation_prompt w s
                  = Ret (Str.mem (Str.strip (Str.lower a)) [""; "y"; "yes"])
                        (after_prompts 2 rest (banner w root s1)))
    /\ (stdin s1 = [Line ""] ->
        confirmation_prompt w s
        = Raise (Exn EOFError) (after_prompts 2 [] (banner w root s1)))
    /\ (forall choice a s0 s', ask_until_decided choice s0 = Ret a s' ->
                               Str.strip (Str.lower a) <> "").
Proof.
  intros w s s1 root rest Hroot. repeat apply conj.
  - intros a Ha Hin.
    rewrite (confirmation_prompt_answered w s s1 root Hroot [] (Forall_nil _)
               a rest Hin);
      cbn in Ha; decompose [or] Ha; subst; try contradiction; reflexivity.
  - intros a Ha Hin.
    rewrite (confirmation_prompt_answered w s s1 root Hroot [] (Forall_nil _)
               a rest Hin);
      cbn in Ha; decompose [or] Ha; subst; try contradiction; reflexivity.
  - intros a Ha Hin.
    apply (confirmation_prompt_answered w s s1 root Hroot [""]); auto.
  - intros Hin.
    apply (confirmation_prompt_eof w s s1 root [""]); auto.
  - intros choice a s0 s' H. apply decided_is_not_empty.
    exact (ask_returns_decided (stdin s0) choice a s0 s' H).
Qed.

Lemma C1_empty_answer_is_asked_again_witness :
  let s := fresh_state [Line ""; Line "n"] in
  let s1 := final_state (get_git_root posix_world s) in
  confirmation_prompt posix_world s
  = Ret false (after_prompts 2 [] (banner posix_world project s1)).
Proof.
  intros s s1.
  destruct (C1_empty_answer_is_asked_again posix_world s s1 project []
              eq_refl) as (_ & _ & H & _).
  apply (H "n"); reflexivity.
Defined.

(** ** Abort and the exit status *)

Lemma main_aborts (w : World) (s s2 : State) :
  confirmation_prompt w s = Ret false s2 ->
  main w s = Exit 0 (log aborted_notice s2).
Proof.
  intros H. unfold main. now rewrite (bind_ret_step _ _ s false s2 H).
Qed.

(** A version the check lets through is one the file compiles under. *)
Lemma version_parsable (w : World) :
  version_too_old w = false -> version_unparsable w = false.
Proof.
  unfold version_too_old, version_unparsable.
  destruct (version_info w) as [major minor]. lia.
Qed.

Lemma script_runs_main (w : World) :
  version_too_old w = false -> script w = main w.
Proof.
  intros H. unfold script. now rewrite (version_parsable w H), H.
Qed.

(** The handler of [confirmation_prompt] lets no [KeyboardInterrupt] out,
    whatever the world and the input. *)
Lemma confirmation_prompt_catches_interrupt (w : World) (s s' : State) :
  confirmation_prompt w s <> Raise (Exn KeyboardInterrupt) s'.
Proof.
  unfold confirmation_prompt, bind at 1, try_except.
  match goal with
  | |- context [match ?body s with _ => _ end] => destruct (body s) as [r s1|code s1|e s1]
  end.
  - destruct r; discriminate.
  - discriminate.
  - destruct e as [[]|]; discriminate.
Qed.

(** C7.  No [KeyboardInterrupt] leaves [confirmation_prompt].  With the
    repository root found: when the user interrupts a prompt, after any
    number of undecided answers, [confirmation_prompt] returns [false],
    [main] prints the abort line and calls [sys.exit(0)], and the script
    ends with status 0. *)
Theorem C7_interrupt_is_a_normal_abort :
  forall (w : World) (s : State),
    (forall s', confirmation_prompt w s <> Raise (Exn KeyboardInterrupt) s')
    /\ (forall (s1 : State) (root : Path) (junk : list string)
                (rest : list InputEvent),
           get_git_root w s = Ret root s1 ->
           Forall (fun a => undecided a = true) junk ->
           stdin s1 = map Line junk ++ Interrupt :: rest ->
           let s2 := log (Print [])
                         (after_prompts (S (length junk)) rest
                                        (banner w root s1)) in
           confirmation_prompt w s = Ret false s2
           /\ main w s = Exit 0 (log aborted_notice s2)
           /\ (version_too_old w = false -> exit_status (script w s) = 0%Z)).
Proof.
  intros w s. split; [apply confirmation_prompt_catches_interrupt|].
  intros s1 root junk rest Hroot Hjunk Hin s2.
  pose proof (confirmation_prompt_interrupted w s s1 root Hroot junk Hjunk
                rest Hin) as Hc.
  pose proof (main_aborts w s s2 Hc) as Hm.
  repeat split; try assumption.
  intros Hv. now rewrite (script_runs_main w Hv), Hm.
Qed.

Lemma C7_interrupt_is_a_normal_abort_witness :
  let s := fresh_state [Line "maybe"; Interrupt; Line "y"] in
  exit_status (script posix_world s) = 0%Z.
Proof.
  intros s.
  destruct (C7_interrupt_is_a_normal_abort posix_world s) as [_ H].
  apply (H (final_state (get_git_root posix_world s)) project ["maybe"]
           [Line "y"] eq_refl).
  - repeat constructor.
  - reflexivity.
  - reflexivity.
Defined.

(** ** The whole script: the [git] query is made once *)

(** A prompt that returns [true] has found the repository root ... *)
Lemma confirmation_prompt_finds_root (w : World) (s s2 : State) :
  confirmation_prompt w s = Ret true s2 ->
  exists root s1, get_git_root w s = Ret root s1.
Proof.
  intros H. unfold confirmation_prompt in H.
  apply bind_ret_inv in H. destruct H as (r & s' & Htry & Hr).
  unfold try_except, bind at 1 in Htry.
  destruct (get_git_root w s) as [root s1|code s1|e s1]; [eauto| |].
  - discriminate.
  - exfalso. destruct e as [[]|]; try discriminate.
    cbn in Htry. inversion Htry; subst. discriminate.
Qed.

(** ... and leaves it cached. *)
Lemma confirmation_prompt_keeps_root (w : World) (s s1 s2 : State) (root : Path)
    (b : bool) :
  get_git_root w s = Ret root s1 ->
  confirmation_prompt w s = Ret b s2 ->
  git_root_cache s2 = Some root.
Proof.
  intros Hroot H.
  rewrite (confirmation_prompt_asks w s s1 root Hroot) in H.
  destruct (neutral_ask_until_decided "" (banner w root s1)) as [Hc _].
  pose proof (get_git_root_stores w s s1 root Hroot) as Hs.
  destruct (ask_until_decided "" (banner w root s1)) as [c s3|code s3|e s3];
    cbn [final_state] in Hc.
  - inversion H; subst. now rewrite Hc.
  - discriminate.
  - destruct e as [[]|]; try discriminate.
    inversion H; subst. cbn [git_root_cache log]. now rewrite Hc.
Qed.

(** Once the user has agreed, [main] is the Environment Builder at
    [git_root / ".venv"], then the Tool Installer, then the instructions. *)
Lemma main_proceeds (w : World) (s s2 : State) (root : Path) :
  confirmation_prompt w s = Ret true s2 ->
  git_root_cache s2 = Some root ->
  let venv_dir := root // ".venv" in
  let python_exe := venv_python_path w venv_dir in
  main w s
  = bind (create_virtual_environment w venv_dir python_exe)
         (fun _ => bind (install_tools w python_exe BOOTSTRAP_MODULES)
                     (fun _ => bind (print_instructions w POST_INSTALL_MESSAGE)
                                 (fun _ => ret 0%Z)))
         (log (bootstrapping_notice root) s2).
Proof.
  intros H Hc venv_dir python_exe. unfold main.
  rewrite (bind_ret_step _ _ s true s2 H). cbn [negb].
  erewrite bind_ret_step by reflexivity.
  rewrite (bind_ret_step _ _ s2 root s2 (get_git_root_cached w s2 root Hc)).
  erewrite bind_ret_step by reflexivity.
  erewrite bind_ret_step by reflexivity.
  reflexivity.
Qed.

(** One call asks [git] at most once. *)
Lemma get_git_root_queries (w : World) (s : State) :
  exists asked,
    trace (final_state (get_git_root w s)) = trace s ++ asked
    /\ git_queries asked <= 1.
Proof.
  unfold get_git_root. destruct (git_root_cache s) as [p|] eqn:Hc.
  - rewrite (lru_cache_hit _ _ _ s p Hc). exists [].
    split; [now rewrite app_nil_r | auto].
  - rewrite (lru_cache_miss _ _ _ s Hc).
    destruct (get_git_root_uncached_trace w s) as (extra & Ht & Hx & _).
    exists (Spawn GIT_QUERY :: extra). split.
    + destruct (get_git_root_uncached w s); exact Ht.
    + unfold git_queries. cbn. now rewrite Hx.
Qed.

(** What [confirmation_prompt] does besides calling [get_git_root] asks
    [git] nothing. *)
Lemma confirmation_prompt_queries (w : World) (s : State) :
  exists extra,
    trace (final_state (confirmation_prompt w s))
    = trace (final_state (get_git_root w s)) ++ extra
    /\ git_queries extra = 0.
Proof.
  destruct (get_git_root w s) as [root s1|code s1|e s1] eqn:E.
  - rewrite (confirmation_prompt_asks w s s1 root E).
    destruct (neutral_ask_until_decided "" (banner w root s1))
      as (_ & x & Ht & Hq).
    destruct (ask_until_decided "" (banner w root s1)) as [c s3|code s3|e s3];
      cbn [final_state] in *.
    + eexists. split; [rewrite Ht; cbn [banner trace log];
                       rewrite <- !app_assoc; reflexivity|].
      now rewrite git_queries_app.
    + eexists. split; [rewrite Ht; cbn [banner trace log];
                       rewrite <- !app_assoc; reflexivity|].
      now rewrite git_queries_app.
    + assert (H : exists y,
                trace (final_state
                         (match e with
                          | Exn KeyboardInterrupt =>
                              @Ret bool false (log (Print []) s3)
                          | _ => Raise e s3
                          end))
                = trace s3 ++ y /\ git_queries y = 0).
      { destruct e as [[]|];
          try (exists []; split; [now rewrite app_nil_r | reflexivity]).
        exists [Print []]. split; reflexivity. }
      destruct H as (y & Hy & Hqy).
      exists ([Print [FStr "Current working directory: "; FPath (cwd w)];
               Print [FStr "Git repo root directory: "; FPath root]] ++ x ++ y).
      split.
      * destruct e as [[]|]; cbn [final_state] in *; rewrite Hy, Ht;
          cbn [banner trace log]; rewrite <- !app_assoc; reflexivity.
      * rewrite !git_queries_app, Hq, Hqy. reflexivity.
  - unfold confirmation_prompt, try_except, bind. rewrite E.
    exists []. split; [now rewrite app_nil_r | reflexivity].
  - unfold confirmation_prompt, try_except, bind. rewrite E.
    destruct e as [[]|]; cbn;
      try (exists []; split; [now rewrite app_nil_r | reflexivity]).
    exists [Print []]. split; reflexivity.
Qed.

(** What follows the prompt in [main] asks [git] nothing. *)
Lemma neutral_after_consent (w : World) (venv_dir python_exe : Path) :
  within neutrally
    (bind (create_virtual_environment w venv_dir python_exe)
       (fun _ => bind (install_tools w python_exe BOOTSTRAP_MODULES)
                   (fun _ => bind (print_instructions w POST_INSTALL_MESSAGE)
                               (fun _ => ret 0%Z)))).
Proof.
  apply within_bind;
    [exact neutrally_trans | apply neutral_create_virtual_environment |].
  intros ?. apply within_bind;
    [exact neutrally_trans | apply neutral_install_tools |].
  intros ?. apply within_bind;
    [exact neutrally_trans | apply neutral_print_instructions |].
  intros ?. apply within_ret. exact neutrally_refl.
Qed.

Lemma main_queries_git_at_most_once (w : World) (s : State) :
  git_queries (emitted s (main w s)) <= 1.
Proof.
  destruct (get_git_root_queries w s) as (asked & Ha & Hqa).
  destruct (confirmation_prompt_queries w s) as (extra & He & Hqe).
  rewrite Ha in He.
  assert (Hrest : exists more,
            trace (final_state (main w s))
            = trace (final_state (confirmation_prompt w s)) ++ more
            /\ git_queries more = 0).
  { destruct (confirmation_prompt w s) as [[|] s2|code s2|e s2] eqn:E.
    - destruct (confirmation_prompt_finds_root w s s2 E) as (root & s1 & Hroot).
      rewrite (main_proceeds w s s2 root E
                 (confirmation_prompt_keeps_root w s s1 s2 root true Hroot E)).
      cbv zeta.
      destruct (neutral_after_consent w (root // ".venv")
                  (venv_python_path w (root // ".venv"))
                  (log (bootstrapping_notice root) s2)) as (_ & x & Ht & Hq).
      exists (bootstrapping_notice root :: x). split.
      + rewrite Ht. cbn [final_state trace log]. now rewrite <- app_assoc.
      + exact Hq.
    - rewrite (main_aborts w s s2 E). exists [aborted_notice]. now split.
    - unfold main. rewrite (bind_exit _ _ s s2 code E).
      exists []. split; [now rewrite app_nil_r | reflexivity].
    - unfold main, bind. rewrite E.
      exists []. split; [now rewrite app_nil_r | reflexivity]. }
  destruct Hrest as (more & Hm & Hqm).
  rewrite He, <- !app_assoc in Hm.
  rewrite (emitted_of_trace s _ _ Hm), !git_queries_app, Hqe, Hqm. lia.
Qed.

(** In one run of the script the [git] query is made at most once. *)
Lemma script_queries_git_at_most_once (w : World) (s : State) :
  git_queries (emitted s (script w s)) <= 1.
Proof.
  unfold script. destruct (version_unparsable w).
  - unfold raise. rewrite emitted_same by reflexivity. cbn. lia.
  - destruct (version_too_old w); [|apply main_queries_git_at_most_once].
    destruct (version_info w) as [major minor].
    erewrite emitted_of_trace by (trace_norm; reflexivity). cbn. lia.
Qed.

(** C9.  Once [get_git_root] has returned a path, a further call returns
    that same path and leaves the state, and with it the trace, as it is:
    no process is started.  A call starts the [git] query when nothing is
    cached and nothing otherwise, so two calls in a row return twice the
    same path and start the processes of one call; and in a whole run of
    the script the query is made at most once. *)
Theorem C9_get_git_root_memoized :
  forall (w : World) (s : State),
    (forall p s1, get_git_root w s = Ret p s1 ->
                  get_git_root w s1 = Ret p s1
                  /\ spawned s1 (get_git_root w s1) = []
                  /\ get_git_root_twice w s = Ret (p, p) s1)
    /\ spawned s (get_git_root w s)
       = match git_root_cache s with Some _ => [] | None => [GIT_QUERY] end
    /\ spawned s (get_git_root_twice w s) = spawned s (get_git_root w s)
    /\ git_queries (emitted s (script w s)) <= 1.
Proof.
  intros w s. split; [|split; [|split]].
  - intros p s1 H1.
    pose proof (get_git_root_cached w s1 p (get_git_root_stores w s s1 p H1))
      as H2.
    repeat split.
    + exact H2.
    + rewrite H2. unfold spawned. now rewrite emitted_same.
    + unfold get_git_root_twice, bind. now rewrite H1, H2.
  - apply get_git_root_spawned.
  - unfold get_git_root_twice, bind.
    destruct (get_git_root w s) as [p s1|code s1|e s1] eqn:H1; try reflexivity.
    rewrite (get_git_root_cached w s1 p (get_git_root_stores w s s1 p H1)).
    reflexivity.
  - apply script_queries_git_at_most_once.
Qed.

Lemma C9_get_git_root_memoized_witness :
  let s1 := final_state (get_git_root posix_world (fresh_state [])) in
  get_git_root posix_world s1 = Ret project s1
  /\ spawned s1 (get_git_root posix_world s1) = []
  /\ get_git_root_twice posix_world (fresh_state []) = Ret (project, project) s1.
Proof.
  intros s1.
  destruct (C9_get_git_root_memoized posix_world (fresh_state [])) as (H & _).
  apply (H project s1). reflexivity.
Defined.

(** ** The instructions *)

(** Whatever the value of [activate], formatting the install message puts
    it, unchanged, between the head and the tail. *)
Lemma format_post_install_message (a : string) :
  Format.format POST_INSTALL_MESSAGE a
  = inr (POST_INSTALL_HEAD ++ a ++ POST_INSTALL_TAIL)%string.
Proof. vm_compute. reflexivity. Qed.

(** C8.  The activation command is [".venv\Scripts\activate.bat"] when the
    platform flag says Windows and ["source .venv/bin/activate"] when it
    does not: it is one of these two distinct strings and depends on the
    world through that flag alone.  [print_instructions] prints the
    install message with exactly this command in the place of
    [{activate}]. *)
Theorem C8_activation_command_two_variants :
  forall (w : World) (s : State),
    activate_script w
    = (if win32 w then ".venv\Scripts\activate.bat"
       else "source .venv/bin/activate")
    /\ (activate_script w = "source .venv/bin/activate"
        \/ activate_script w = ".venv\Scripts\activate.bat")
    /\ "source .venv/bin/activate" <> ".venv\Scripts\activate.bat"
    /\ print_instructions w POST_INSTALL_MESSAGE s
       = Ret tt (log (Print [FStr (POST_INSTALL_HEAD ++ activate_script w
                                     ++ POST_INSTALL_TAIL)%string]) s).
Proof.
  intros w s. unfold activate_script, _is_windows.
  split; [reflexivity|]. split; [destruct (win32 w); auto|].
  split; [discriminate|].
  unfold print_instructions, activate_script, _is_windows.
  erewrite bind_ret_step; [reflexivity|].
  now rewrite format_post_install_message.
Qed.

(** ** Exit codes *)

(** Before Python 3.6 nothing of the script runs, the version check
    included. *)
Lemma script_unparsable (w : World) (s : State) :
  version_unparsable w = true -> script w s = Raise (Exn SyntaxError) s.
Proof. intros H. unfold script. now rewrite H. Qed.

Lemma script_old_version (w : World) (s : State) :
  version_unparsable w = false ->
  version_too_old w = true ->
  script w s
  = Exit 2 (log (Print [FStr ("Error: Python 3.8 or later is required to run this script. "
                              ++ "You are using Python ")%string;
                        FInt (fst (version_info w)); FStr ".";
                        FInt (snd (version_info w)); FStr "."]) s).
Proof.
  intros Hc H. unfold script. rewrite Hc, H.
  destruct (version_info w) as [major minor]. reflexivity.
Qed.

Lemma get_git_root_not_in_checkout (w : World) (s : State) (rc : Z) :
  git_root_cache s = None ->
  proc w (trace s) GIT_QUERY = Completed rc ->
  rc <> 0%Z ->
  exists line,
    get_git_root w s = Exit 1 (log (Print line) (log (Spawn GIT_QUERY) s)).
Proof.
  intros Hc Hp Hrc. apply Z.eqb_neq in Hrc.
  unfold get_git_root. rewrite (lru_cache_miss _ _ _ s Hc).
  unfold get_git_root_uncached, try_except, bind, subprocess_run.
  rewrite Hp. cbn [andb]. rewrite Hrc. cbn. eexists. reflexivity.
Qed.

Lemma get_git_root_no_marker (w : World) (s : State) :
  git_root_cache s = None ->
  proc w (trace s) GIT_QUERY = NotFound ->
  (forall parent, In parent (cwd w :: parents (cwd w)) ->
                  is_dir s (parent // ".git") = false) ->
  exists line,
    get_git_root w s = Exit 1 (log (Print line) (log (Spawn GIT_QUERY) s)).
Proof.
  intros Hc Hp Hnone.
  unfold get_git_root. rewrite (lru_cache_miss _ _ _ s Hc).
  unfold get_git_root_uncached, try_except, bind, subprocess_run.
  rewrite Hp. cbv beta iota zeta. unfold bind, get.
  destruct (find _ _) as [parent|] eqn:Hf.
  - apply find_some in Hf. destruct Hf as [Hin Hd].
    change (is_dir (log (Spawn GIT_QUERY) s) (parent // ".git"))
      with (is_dir s (parent // ".git")) in Hd.
    rewrite (Hnone parent Hin) in Hd. discriminate.
  - cbn. eexists. reflexivity.
Qed.

Lemma pip_module_is_available_unavailable (w : World) (exe : Path) (s : State) :
  cache_lookup exe (pip_cache s) = None ->
  exists_ s exe = true ->
  fails (proc w (trace s) (PIP_VERSION exe)) ->
  pip_module_is_available w exe s
  = Ret false (add_pip_cache exe false (log (Spawn (PIP_VERSION exe)) s)).
Proof.
  intros Hc Hexe Hfail. unfold pip_module_is_available.
  rewrite (lru_cache_by_key_miss _ _ _ s Hc).
  unfold pip_module_is_available_uncached, bind, _validate_path,
    try_except, bind, debug_print, subprocess_run.
  rewrite Hexe. cbn [andb negb DEBUG ret]. fold (PIP_VERSION exe).
  destruct (proc w (trace s) (PIP_VERSION exe)) as [|rc|];
    [reflexivity | | contradiction].
  cbn in Hfail. apply Z.eqb_neq in Hfail. rewrite Hfail. reflexivity.
Qed.

(** The broken install: [ensurepip] has run, yet neither the [pip] module
    nor the [pip] script is there. *)
Lemma create_virtual_environment_broken (w : World) (venv_dir python_exe : Path)
    (s : State) :
  let layout := add_venv venv_dir (venv_layout w venv_dir) s in
  let pip_path := if win32 w then venv_dir // "Scripts" // "pip.exe"
                  else venv_dir // "bin" // "pip" in
  exists_ s venv_dir = false ->
  (forall h, proc w h (ENSUREPIP python_exe) = Completed 0) ->
  (forall h, fails (proc w h (PIP_VERSION python_exe))) ->
  cache_lookup python_exe (pip_cache s) = None ->
  exists_ layout python_exe = true ->
  exists_ layout pip_path = false ->
  exists s',
    create_virtual_environment w venv_dir python_exe s = Exit 1 s'
    /\ spawned s (create_virtual_environment w venv_dir python_exe s)
       = [ENSUREPIP python_exe; PIP_VERSION python_exe].
Proof.
  intros layout pip_path Ha Hensure Hpip Hcache Hexe Hnopip.
  unfold create_virtual_environment.
  do 2 (erewrite bind_ret_step by reflexivity).
  erewrite bind_ret_step by reflexivity. rewrite Ha. cbn [negb].
  do 3 (erewrite bind_ret_step by reflexivity).
  fold (ENSUREPIP python_exe).
  erewrite bind_ret_step
    by (apply (run_command_completed w (ENSUREPIP python_exe) _ eq_refl true 0%Z);
        [apply Hensure | reflexivity]).
  erewrite bind_ret_step by reflexivity.
  erewrite bind_ret_step
    by (apply pip_module_is_available_unavailable;
        [exact Hcache | exact Hexe | apply Hpip]).
  cbn [negb]. cbv zeta. unfold _is_windows. fold pip_path.
  erewrite bind_ret_step by reflexivity.
  match goal with
  | |- context [exists_ ?st pip_path] =>
      change (exists_ st pip_path) with (exists_ layout pip_path)
  end.
  rewrite Hnopip. cbn [negb].
  eexists. split; [reflexivity|].
  unfold spawned. erewrite emitted_of_trace by (cbn; trace_norm; reflexivity).
  reflexivity.
Qed.

Lemma main_returns_zero (w : World) (s s' : State) (z : Z) :
  main w s = Ret z s' -> z = 0%Z.
Proof.
  intros H. unfold main in H.
  repeat (apply bind_ret_inv in H; destruct H as (? & ? & _ & H)).
  now inversion H.
Qed.

(** ** The whole script: the exit status *)

Section ExitStatus.

Variable w : World.

Lemma leaves_refl (s : State) : leaves w s GoesOn s.
Proof. exact I. Qed.

Lemma leaves_trans (a b c : State) (e : ending) :
  leaves w a GoesOn b -> leaves w b e c -> leaves w a e c.
Proof. intros _ H. exact H. Qed.

Lemma leaves_with_0 (s : State) : leaves w s (Exits 0) s.
Proof. left. reflexivity. Qed.

Lemma leaves_with_1 (s : State) : leaves w s (Exits 1) s.
Proof. right. left. reflexivity. Qed.

Lemma leaves_with_2 (s : State) : leaves w s (Exits 2) s.
Proof. right. right. left. reflexivity. Qed.

Lemma leaves_print (line : list frag) : within (leaves w) (print line).
Proof. intros s. exact I. Qed.

Lemma leaves_input_from (prompt : string) (pending : list InputEvent) :
  within (leaves w) (input_from prompt pending).
Proof. intros s. destruct pending as [|[l|] rest]; exact I. Qed.

Lemma leaves_subprocess_run (command : Command) (check : bool) :
  within (leaves w) (subprocess_run w command check).
Proof.
  intros s. unfold subprocess_run.
  destruct (proc w (trace s) command) as [|rc|]; [exact I| |exact I].
  destruct (check && negb (rc =? 0)%Z); exact I.
Qed.

Lemma leaves_modify (f : State -> State) : within (leaves w) (modify f).
Proof. intros s. exact I. Qed.

Lemma leaves_create_venv (venv_dir : Path) : within (leaves w) (create_venv w venv_dir).
Proof. intros s. exact I. Qed.

(** The Command Runner exits with 1 or with the code its child returned. *)
Lemma leaves_run_command (command : Command) (check : bool) :
  within (leaves w) (run_command w command check).
Proof.
  intros s. unfold run_command, bind, validate, try_except, debug_print,
    subprocess_run.
  destruct (_validate_command command); cbn; [exact I|].
  destruct (proc w (trace s) command) as [|rc|] eqn:Hp.
  - cbn. right. left. reflexivity.
  - destruct (check && negb (rc =? 0)%Z) eqn:Hc; cbn; [|exact I].
    right. right. right.
    apply andb_true_iff in Hc. destruct Hc as [_ Hc].
    apply negb_true_iff, Z.eqb_neq in Hc.
    split; [exact Hc|]. now exists (trace s), command.
  - exact I.
Qed.

End ExitStatus.

Create HintDb leaves.
#[local] Hint Resolve leaves_with_0 leaves_with_1 leaves_with_2 leaves_print
  leaves_input_from leaves_subprocess_run leaves_modify leaves_create_venv
  leaves_run_command : leaves.

Ltac leaves_walk w :=
  within_walk (leaves_refl w) (leaves_trans w) ltac:(auto with leaves nocore).

Section ExitStatusOfScript.

Variable w : World.

Lemma leaves_get_git_root : within (leaves w) (get_git_root w).
Proof.
  unfold get_git_root.
  apply within_lru_cache;
    [exact (leaves_refl w) | exact (leaves_trans w) | | intros; exact I].
  unfold get_git_root_uncached. leaves_walk w.
Qed.

Lemma leaves_pip_module_is_available (python_exe : Path) :
  within (leaves w) (pip_module_is_available w python_exe).
Proof.
  unfold pip_module_is_available.
  apply within_lru_cache_by_key;
    [exact (leaves_refl w) | exact (leaves_trans w) | | intros; exact I].
  unfold pip_module_is_available_uncached, debug_print. leaves_walk w.
Qed.

Lemma leaves_ask (pending : list InputEvent) :
  forall choice, within (leaves w) (ask choice pending).
Proof.
  induction pending as [|ev rest IH]; intros choice; cbn [ask]; leaves_walk w.
Qed.

Lemma leaves_ask_until_decided (choice : string) :
  within (leaves w) (ask_until_decided choice).
Proof. intros s. apply leaves_ask. Qed.

#[local] Hint Resolve leaves_get_git_root leaves_pip_module_is_available
  leaves_ask_until_decided : leaves.

Lemma leaves_main : within (leaves w) (main w).
Proof.
  unfold main, confirmation_prompt, path_to_venv_python,
    create_virtual_environment, install_tools, install_with_uv,
    install_with_pip, print_instructions.
  leaves_walk w.
Qed.

Lemma leaves_script : within (leaves w) (script w).
Proof.
  unfold script. destruct (version_unparsable w); [intros s; exact I|].
  destruct (version_too_old w); [|apply leaves_main].
  destruct (version_info w). leaves_walk w.
Qed.

(** Whatever the world and the input, what the script hands to [sys.exit]
    is 0, 1, 2, or the non-zero code a child process returned ... *)
Lemma script_exit_code_in_class (s s' : State) (code : Z) :
  script w s = Exit code s' -> exit_class w code.
Proof.
  intros E. pose proof (leaves_script s) as H. unfold leaves, exits_in in H.
  now rewrite E in H.
Qed.

(** ... and the status the script ends with is 0, 1, 2, or the low eight
    bits of such a code. *)
Lemma script_exit_status_in_class (s : State) :
  status_class w (exit_status (script w s)).
Proof.
  destruct (script w s) as [z s'|code s'|e s'] eqn:E; cbn [exit_status].
  - left. reflexivity.
  - destruct (script_exit_code_in_class s s' code E)
      as [-> | [-> | [-> | (Hne & h & command & Hp)]]].
    + left. reflexivity.
    + right. left. reflexivity.
    + right. right. left. reflexivity.
    + right. right. right. now exists h, command, code.
  - right. left. reflexivity.
Qed.

End ExitStatusOfScript.

(** An interpreter too old to compile the file is one the check is
    written for. *)
Lemma version_unparsable_too_old (w : World) :
  version_unparsable w = true -> version_too_old w = true.
Proof.
  unfold version_too_old, version_unparsable.
  destruct (version_info w) as [major minor]. lia.
Qed.

(** C6.  The exit status by failure class.  The version check is written
    for every interpreter older than 3.8, but the file compiles only from
    3.6 on: under an older interpreter nothing runs, [SyntaxError] is
    reported and the status is 1; under 3.6 and 3.7 the script prints its
    message and ends with 2 before anything else happens; from 3.8 on the
    script is [main].  In the Command Runner a missing executable gives 1
    and a checked child that returns a non-zero code has that code handed
    to [sys.exit]: the status is the code itself for 1 to 255.  Outside a
    checkout (the [git] query fails, or [git] is missing and no ancestor
    holds [.git]) and on a broken install (no usable [pip] after
    [ensurepip]) the status is 1.  Declining the prompt ends the script
    with 0, and so does a [main] that returns.  In every run what
    [sys.exit] is given is 0, 1, 2 or the non-zero code a child returned,
    and the status is 0, 1, 2 or the low eight bits of such a code. *)
Theorem C6_exit_codes_by_failure_class :
  (forall (w : World) (s : State),
      version_unparsable w = true ->
      version_too_old w = true
      /\ script w s = Raise (Exn SyntaxError) s
      /\ exit_status (script w s) = 1%Z)
  /\ (forall (w : World) (s : State),
         version_unparsable w = false ->
         version_too_old w = true ->
         (exists line, script w s = Exit 2 (log (Print line) s))
         /\ exit_status (script w s) = 2%Z
         /\ spawned s (script w s) = [])
  /\ (forall (w : World) (s : State),
         version_too_old w = false -> script w s = main w s)
  /\ (forall (w : World) (command : Command) (check : bool) (s : State),
         _validate_command command = None ->
         proc w (trace s) command = NotFound ->
         (exists s', run_command w command check s = Exit 1 s')
         /\ exit_status (run_command w command check s) = 1%Z)
  /\ (forall (w : World) (command : Command) (s : State) (rc : Z),
         _validate_command command = None ->
         proc w (trace s) command = Completed rc ->
         rc <> 0%Z ->
         (exists s', run_command w command true s = Exit rc s')
         /\ exit_status (run_command w command true s) = (rc mod 256)%Z
         /\ ((0 < rc < 256)%Z ->
             exit_status (run_command w command true s) = rc))
  /\ (forall (w : World) (s : State) (rc : Z),
         git_root_cache s = None ->
         proc w (trace s) GIT_QUERY = Completed rc ->
         rc <> 0%Z ->
         exists s', get_git_root w s = Exit 1 s')
  /\ (forall (w : World) (s : State),
         git_root_cache s = None ->
         proc w (trace s) GIT_QUERY = NotFound ->
         (forall parent, In parent (cwd w :: parents (cwd w)) ->
                         is_dir s (parent // ".git") = false) ->
         exists s', get_git_root w s = Exit 1 s')
  /\ (forall (w : World) (venv_dir python_exe : Path) (s : State),
         exists_ s venv_dir = false ->
         (forall h, proc w h (ENSUREPIP python_exe) = Completed 0) ->
         (forall h, fails (proc w h (PIP_VERSION python_exe))) ->
         cache_lookup python_exe (pip_cache s) = None ->
         exists_ (add_venv venv_dir (venv_layout w venv_dir) s) python_exe = true ->
         exists_ (add_venv venv_dir (venv_layout w venv_dir) s)
                 (if win32 w then venv_dir // "Scripts" // "pip.exe"
                  else venv_dir // "bin" // "pip") = false ->
         exists s', create_virtual_environment w venv_dir python_exe s = Exit 1 s')
  /\ (forall (w : World) (s s2 : State),
         version_too_old w = false ->
         confirmation_prompt w s = Ret false s2 ->
         script w s = Exit 0 (log aborted_notice s2)
         /\ exit_status (script w s) = 0%Z)
  /\ (forall (w : World) (s s' : State) (z : Z),
         version_too_old w = false ->
         main w s = Ret z s' ->
         z = 0%Z /\ script w s = Ret 0%Z s' /\ exit_status (script w s) = 0%Z)
  /\ (forall (w : World) (s s' : State) (code : Z),
         script w s = Exit code s' -> exit_class w code)
  /\ (forall (w : World) (s : State), status_class w (exit_status (script w s))).
Proof.
  repeat apply conj.
  - intros w s H. rewrite (script_unparsable w s H).
    split; [now apply version_unparsable_too_old | split; reflexivity].
  - intros w s Hc H. rewrite (script_old_version w s Hc H). repeat split.
    + eexists. reflexivity.
    + unfold spawned. erewrite emitted_of_trace by (trace_norm; reflexivity).
      reflexivity.
  - intros w s H. now rewrite (script_runs_main w H).
  - intros w command check s Hv Hp.
    rewrite (run_command_not_found w command s Hv check Hp).
    split; [eexists|]; reflexivity.
  - intros w command s rc Hv Hp Hrc.
    rewrite (run_command_failed w command s Hv rc Hp Hrc).
    split; [eexists; reflexivity|]. split; [reflexivity|].
    intros Hr. cbn [exit_status]. apply Z.mod_small. lia.
  - intros w s rc Hc Hp Hrc.
    destruct (get_git_root_not_in_checkout w s rc Hc Hp Hrc) as (line & H).
    eexists. exact H.
  - intros w s Hc Hp Hnone.
    destruct (get_git_root_no_marker w s Hc Hp Hnone) as (line & H).
    eexists. exact H.
  - intros w venv_dir python_exe s Ha He Hp Hc Hexe Hnopip.
    destruct (create_virtual_environment_broken w venv_dir python_exe s
                Ha He Hp Hc Hexe Hnopip) as (s' & H & _).
    exists s'. exact H.
  - intros w s s2 Hv H.
    rewrite (script_runs_main w Hv), (main_aborts w s s2 H).
    split; reflexivity.
  - intros w s s' z Hv H.
    pose proof (main_returns_zero w s s' z H) as ->.
    rewrite (script_runs_main w Hv), H. repeat split.
  - intros w s s' code. apply script_exit_code_in_class.
  - intros w. apply script_exit_status_in_class.
Qed.

Lemma C6_exit_codes_by_failure_class_witness :
  (script ancient_python_world (fresh_state [])
   = Raise (Exn SyntaxError) (fresh_state [])
   /\ exit_status (script ancient_python_world (fresh_state [])) = 1%Z)
  /\ exit_status (script old_python_world (fresh_state [])) = 2%Z
  /\ exit_status (run_command bare_world [Str "tox"] true (fresh_state [])) = 1%Z
  /\ exit_status (run_command failing_world [Str "tox"] true (fresh_state []))
     = 3%Z
  /\ exit_status (run_command killing_world [Str "tox"] true (fresh_state []))
     = 247%Z
  /\ (exists s', get_git_root failing_world (fresh_state []) = Exit 1 s')
  /\ (exists s', get_git_root bare_world (fresh_state []) = Exit 1 s')
  /\ (exists s', create_virtual_environment broken_pip_world (project // ".venv")
                   venv_python (fresh_state []) = Exit 1 s')
  /\ exit_status (script posix_world (fresh_state [Line "n"])) = 0%Z
  /\ (exists s', script posix_world (fresh_state [Line "y"]) = Ret 0%Z s')
  /\ exit_status (script posix_world (fresh_state [Line "y"])) = 0%Z.
Proof.
  destruct C6_exit_codes_by_failure_class
    as (Hancient & Hold & _ & Hmissing & Hchild & Hcheckout & Hmarker & Hbroken
        & Habort & Hok & _).
  repeat apply conj.
  - apply (Hancient ancient_python_world (fresh_state [])). reflexivity.
  - apply (Hancient ancient_python_world (fresh_state [])). reflexivity.
  - apply (Hold old_python_world (fresh_state [])); reflexivity.
  - apply (Hmissing bare_world); reflexivity.
  - apply (Hchild failing_world [Str "tox"] (fresh_state []) 3%Z);
      [reflexivity | reflexivity | discriminate | lia].
  - apply (proj1 (proj2 (Hchild killing_world [Str "tox"] (fresh_state [])
                           (-9)%Z eq_refl eq_refl ltac:(discriminate)))).
  - apply (Hcheckout failing_world (fresh_state []) 3%Z);
      [reflexivity | reflexivity | discriminate].
  - apply (Hmarker bare_world (fresh_state [])); [reflexivity | reflexivity |].
    intros parent Hin. cbn in Hin. decompose [or] Hin; subst;
      try contradiction; reflexivity.
  - apply (Hbroken broken_pip_world (project // ".venv") venv_python
             (fresh_state []));
      try (vm_compute; reflexivity).
    intros h. vm_compute. discriminate.
  - apply (Habort posix_world (fresh_state [Line "n"])
             (final_state (confirmation_prompt posix_world
                             (fresh_state [Line "n"]))));
      vm_compute; reflexivity.
  - eexists.
    apply (Hok posix_world (fresh_state [Line "y"])
               (final_state (main posix_world (fresh_state [Line "y"]))) 0%Z);
      vm_compute; reflexivity.
  - apply (Hok posix_world (fresh_state [Line "y"])
               (final_state (main posix_world (fresh_state [Line "y"]))) 0%Z);
      vm_compute; reflexivity.
Defined.

(** * Further properties *)

(** ** The Command Runner, beyond its exit codes *)

(** X1.  [run_command] checks its command before anything else: the empty
    command raises [ValueError] and a command with a [Path] after its
    first item raises [TypeError], in both cases with no process started,
    nothing printed and the state as it was. *)
Theorem X1_run_command_rejects_invalid_command :
  forall (w : World) (check : bool) (s : State) (a : arg) (pre post : Command)
         (p : Path),
    run_command w [] check s = Raise (Exn ValueError) s
    /\ run_command w (a :: pre ++ PathArg p :: post) check s
       = Raise (Exn TypeError) s.
Proof.
  intros w check s a pre post p. split; [reflexivity|].
  unfold run_command, bind, validate. cbn [_validate_command].
  rewrite forallb_app. cbn [forallb is_Str].
  now rewrite andb_false_r.
Qed.

(** X2.  Without [check], a child that returns a non-zero code does not
    end the process: [run_command] returns after the one [Spawn] event and
    prints nothing.  A missing executable still ends the process with
    1. *)
Theorem X2_run_command_unchecked_returns :
  forall (w : World) (command : Command) (s : State),
    _validate_command command = None ->
    (forall rc, proc w (trace s) command = Completed rc ->
                run_command w command false s = Ret tt (log (Spawn command) s))
    /\ (proc w (trace s) command = NotFound ->
        exists line,
          run_command w command false s
          = Exit 1 (log (Print line) (log (Spawn command) s))).
Proof.
  intros w command s Hv. split.
  - intros rc Hp. now apply (run_command_completed w command s Hv false rc).
  - intros Hp. eexists. now apply run_command_not_found.
Qed.

Lemma X2_run_command_unchecked_returns_witness :
  run_command failing_world [Str "tox"] false (fresh_state [])
  = Ret tt (log (Spawn [Str "tox"]) (fresh_state []))
  /\ exists line,
       run_command bare_world [Str "tox"] false (fresh_state [])
       = Exit 1 (log (Print line) (log (Spawn [Str "tox"]) (fresh_state []))).
Proof.
  split.
  - apply (proj1 (X2_run_command_unchecked_returns failing_world [Str "tox"]
                    (fresh_state []) eq_refl) 3%Z).
    reflexivity.
  - apply (proj2 (X2_run_command_unchecked_returns bare_world [Str "tox"]
                    (fresh_state []) eq_refl)).
    reflexivity.
Defined.

(** ** The installer probe *)

Lemma path_eqb_refl (p : Path) : path_eqb p p = true.
Proof.
  unfold path_eqb. destruct (list_eq_dec string_dec p p); [reflexivity|].
  contradiction.
Qed.

Lemma path_eqb_eq (p q : Path) : path_eqb p q = true -> p = q.
Proof.
  unfold path_eqb. destruct (list_eq_dec string_dec p q); [auto | discriminate].
Qed.

Lemma path_eqb_neq (p q : Path) : p <> q -> path_eqb p q = false.
Proof.
  intros H. destruct (path_eqb p q) eqn:E; [|reflexivity].
  apply path_eqb_eq in E. contradiction.
Qed.

Lemma cache_lookup_app (k : Path) (a c : list (Path * bool)) :
  cache_lookup k a = None -> cache_lookup k (a ++ c) = cache_lookup k c.
Proof.
  induction a as [|[k' v] a IH]; [reflexivity|]. cbn [cache_lookup app].
  destruct (path_eqb k k'); [discriminate | exact IH].
Qed.

Lemma cache_lookup_remove_key (k k' : Path) (a : list (Path * bool)) :
  cache_lookup k a = None -> cache_lookup k (remove_key k' a) = None.
Proof.
  induction a as [|[k0 v] a IH]; [reflexivity|].
  cbn [cache_lookup remove_key filter fst].
  destruct (path_eqb k k0) eqn:E; [discriminate|]. intros H.
  destruct (negb (path_eqb k' k0)); [|exact (IH H)].
  cbn [cache_lookup]. rewrite E. exact (IH H).
Qed.

Lemma remove_key_app (k : Path) (a c : list (Path * bool)) :
  remove_key k (a ++ c) = remove_key k a ++ remove_key k c.
Proof. apply filter_app. Qed.

Lemma remove_key_length (k : Path) (a : list (Path * bool)) :
  length (remove_key k a) <= length a.
Proof. apply filter_length_le. Qed.

Lemma held_lookup (k : Path) (v : bool) (n : nat) (c : list (Path * bool)) :
  held k v n c -> cache_lookup k c = Some v.
Proof.
  intros (newer & older & -> & _ & Hn).
  rewrite (cache_lookup_app k newer _ Hn). cbn [cache_lookup].
  now rewrite path_eqb_refl.
Qed.

Lemma held_longer (k : Path) (v : bool) (n m : nat) (c : list (Path * bool)) :
  n <= m -> held k v n c -> held k v m c.
Proof.
  intros Hnm (newer & older & Hc & Hl & Hn).
  exists newer, older. repeat split; [exact Hc | lia | exact Hn].
Qed.

(** A path that is used becomes the most recently used one. *)
Lemma held_used (k : Path) (v : bool) (s : State) :
  held k v 0 (pip_cache (add_pip_cache k v s)).
Proof.
  exists [], (firstn (MAXSIZE - 1) (remove_key k (pip_cache s))).
  repeat split. auto.
Qed.

(** The use of another path moves an entry back by at most one place, and
    drops it only from the last of the [MAXSIZE] places. *)
Lemma held_other_used (k k' : Path) (v v' : bool) (n : nat) (s : State) :
  k' <> k ->
  S n < MAXSIZE ->
  held k v n (pip_cache s) ->
  held k v (S n) (pip_cache (add_pip_cache k' v' s)).
Proof.
  intros Hne Hn (newer & older & Hc & Hl & Hnone).
  assert (Hne' : k <> k') by congruence.
  pose proof (remove_key_length k' newer) as Hrl.
  exists ((k', v') :: remove_key k' newer),
         (firstn (MAXSIZE - S (S (length (remove_key k' newer))))
                 (remove_key k' older)).
  cbn [pip_cache add_pip_cache set_pip_cache]. rewrite Hc, remove_key_app.
  cbn [remove_key filter fst]. rewrite (path_eqb_neq k' k Hne). cbn [negb].
  fold (remove_key k' older).
  repeat split.
  - change ((k', v') :: remove_key k' newer ++ (k, v) :: remove_key k' older)
      with (((k', v') :: remove_key k' newer)
              ++ (k, v) :: remove_key k' older).
    rewrite firstn_app.
    rewrite firstn_all2 by (cbn [length]; lia).
    f_equal.
    replace (MAXSIZE - length ((k', v') :: remove_key k' newer))
      with (S (MAXSIZE - S (S (length (remove_key k' newer)))))
      by (cbn [length]; lia).
    reflexivity.
  - cbn [length]. lia.
  - cbn [cache_lookup]. rewrite (path_eqb_neq k k' Hne').
    now apply cache_lookup_remove_key.
Qed.

(** The probe itself leaves the table alone. *)
Lemma pip_module_is_available_uncached_cache (w : World) (exe : Path) (s : State) :
  pip_cache (final_state (pip_module_is_available_uncached w exe s)) = pip_cache s.
Proof.
  unfold pip_module_is_available_uncached, bind, _validate_path, try_except,
    bind, debug_print, subprocess_run.
  destruct (exists_ s exe); cbn [andb negb DEBUG ret]; [|reflexivity].
  destruct (proc w (trace s) _) as [|rc|]; try reflexivity.
  cbn [andb]. destruct (negb (rc =? 0)%Z); reflexivity.
Qed.

(** One call, for whatever path and with whatever outcome, moves an entry
    back by at most one place. *)
Lemma held_after_call (w : World) (k exe : Path) (v : bool) (n : nat)
    (s : State) :
  S n < MAXSIZE ->
  held k v n (pip_cache s) ->
  held k v (S n) (pip_cache (final_state (pip_module_is_available w exe s))).
Proof.
  intros Hn Hh. unfold pip_module_is_available.
  destruct (list_eq_dec string_dec exe k) as [->|Hne].
  - rewrite (lru_cache_by_key_hit _ _ _ s v (held_lookup k v n _ Hh)).
    apply (held_longer k v 0); [lia | apply held_used].
  - destruct (cache_lookup exe (pip_cache s)) as [v'|] eqn:Hc.
    + rewrite (lru_cache_by_key_hit _ _ _ s v' Hc).
      now apply held_other_used.
    + rewrite (lru_cache_by_key_miss _ _ _ s Hc).
      pose proof (pip_module_is_available_uncached_cache w exe s) as Hkeep.
      destruct (pip_module_is_available_uncached w exe s) as [v' s'|code s'|e s'];
        cbn [final_state] in *.
      * apply held_other_used; [exact Hne | exact Hn | now rewrite Hkeep].
      * rewrite Hkeep. apply (held_longer k v n); [lia | exact Hh].
      * rewrite Hkeep. apply (held_longer k v n); [lia | exact Hh].
Qed.

Lemma held_after_calls (k : Path) (v : bool) (n : nat) (s s' : State) :
  after_calls n s s' ->
  n < MAXSIZE ->
  held k v 0 (pip_cache s) ->
  held k v n (pip_cache s').
Proof.
  induction 1 as [s s' Hsame | n s s1 s' w exe Hcalls IH Hcall];
    intros Hn Hh.
  - now rewrite Hsame.
  - rewrite Hcall. apply held_after_call; [exact Hn|].
    apply IH; [lia | exact Hh].
Qed.

(** A call that returns has made its path the most recently used one. *)
Lemma pip_module_is_available_stores (w : World) (exe : Path) (s s1 : State)
    (b : bool) :
  pip_module_is_available w exe s = Ret b s1 ->
  held exe b 0 (pip_cache s1).
Proof.
  unfold pip_module_is_available.
  destruct (cache_lookup exe (pip_cache s)) as [b0|] eqn:Hc.
  - rewrite (lru_cache_by_key_hit _ _ _ s b0 Hc). intros H.
    inversion H; subst. apply held_used.
  - rewrite (lru_cache_by_key_miss _ _ _ s Hc).
    destruct (pip_module_is_available_uncached w exe s) as [b0 s2|code s2|e s2];
      intros H; inversion H; subst.
    apply held_used.
Qed.

(** X3.  The answer of [pip_module_is_available] is kept for as long as
    its path is among the [MAXSIZE] = 128 most recently used ones.  Once a
    call has returned [b] for an interpreter path, a later call for that
    path returns [b] at once when fewer than 128 calls of the function
    were made in between, whatever their paths and outcomes: it starts no
    process and does not test the path, even when the world would now
    answer differently or the interpreter is gone.  The bound is met: in
    a state where the probe has since run for 128 other interpreters, the
    answer is no longer held and the probe is run again. *)
Theorem X3_pip_probe_answer_is_kept :
  (forall (w : World) (exe : Path) (s s1 : State) (b : bool),
      pip_module_is_available w exe s = Ret b s1 ->
      forall (n : nat) (s2 : State) (w' : World),
        after_calls n s1 s2 ->
        n < MAXSIZE ->
        pip_module_is_available w' exe s2 = Ret b (add_pip_cache exe b s2)
        /\ spawned s2 (pip_module_is_available w' exe s2) = [])
  /\ (let s1 := final_state
                  (pip_module_is_available posix_world venv_python crowded_state) in
      let s2 := probe_each posix_world other_pythons s1 in
      cache_lookup venv_python (pip_cache s1) = Some true
      /\ cache_lookup venv_python (pip_cache s2) = None
      /\ spawned s2 (pip_module_is_available posix_world venv_python s2)
         = [PIP_VERSION venv_python]).
Proof.
  split.
  - intros w exe s s1 b H n s2 w' Hcalls Hn.
    pose proof (held_after_calls exe b n s1 s2 Hcalls Hn
                  (pip_module_is_available_stores w exe s s1 b H)) as Hh.
    assert (E : pip_module_is_available w' exe s2
                = Ret b (add_pip_cache exe b s2))
      by (apply lru_cache_by_key_hit; exact (held_lookup exe b n _ Hh)).
    split; [exact E|]. rewrite E. unfold spawned.
    now rewrite emitted_same.
  - vm_compute. repeat split.
Qed.

Lemma X3_pip_probe_answer_is_kept_witness :
  let s := ready_state in
  let s1 := final_state (pip_module_is_available posix_world venv_python s) in
  let s' := final_state (pip_module_is_available posix_world project s1) in
  let gone := mkState [] [] [] None (pip_cache s') [] in
  pip_module_is_available bare_world venv_python gone
  = Ret true (add_pip_cache venv_python true gone).
Proof.
  intros s s1 s' gone.
  apply (proj1 X3_pip_probe_answer_is_kept posix_world venv_python s s1 true
           eq_refl 1 gone bare_world).
  - apply (@after_one_more 0 s1 s1 gone posix_world project).
    + now apply after_no_call.
    + reflexivity.
  - unfold MAXSIZE. lia.
Defined.

Lemma pip_module_is_available_probe (w : World) (exe : Path) (s : State) :
  cache_lookup exe (pip_cache s) = None ->
  pip_module_is_available w exe s
  = if exists_ s exe
    then match proc w (trace s) (PIP_VERSION exe) with
         | NotStarted => Raise (Exn OSError) (log (Spawn (PIP_VERSION exe)) s)
         | r => Ret (succeeded r)
                    (add_pip_cache exe (succeeded r)
                       (log (Spawn (PIP_VERSION exe)) s))
         end
    else Raise (Exn FileNotFoundError) s.
Proof.
  intros Hc. unfold pip_module_is_available.
  rewrite (lru_cache_by_key_miss _ _ _ s Hc).
  unfold pip_module_is_available_uncached, bind, _validate_path, try_except,
    bind, debug_print, subprocess_run.
  destruct (exists_ s exe); cbn [andb negb DEBUG ret]; [|reflexivity].
  fold (PIP_VERSION exe).
  destruct (proc w (trace s) (PIP_VERSION exe)) as [|rc|]; try reflexivity.
  cbn [succeeded]. destruct (rc =? 0)%Z; reflexivity.
Qed.

(** X4.  With nothing cached for the path, [pip_module_is_available]
    raises [FileNotFoundError] when the interpreter does not exist,
    starting no process and caching nothing; otherwise it starts the one
    process [python -m pip --version].  When that process is not found or
    returns, the answer is [true] exactly for the return code 0, and it
    is stored and returned: a failed or missing probe is an answer.  When
    the system refuses to start the process for another reason, as for an
    interpreter file that is not executable, the exception is caught by
    no handler and leaves the function, and nothing is stored. *)
Theorem X4_pip_probe_outcome :
  forall (w : World) (exe : Path) (s : State),
    cache_lookup exe (pip_cache s) = None ->
    pip_module_is_available w exe s
    = if exists_ s exe
      then match proc w (trace s) (PIP_VERSION exe) with
           | NotStarted => Raise (Exn OSError) (log (Spawn (PIP_VERSION exe)) s)
           | r => Ret (succeeded r)
                      (add_pip_cache exe (succeeded r)
                         (log (Spawn (PIP_VERSION exe)) s))
           end
      else Raise (Exn FileNotFoundError) s.
Proof. exact pip_module_is_available_probe. Qed.

Lemma X4_pip_probe_outcome_witness :
  pip_module_is_available broken_pip_world venv_python ready_state
  = Ret false (add_pip_cache venv_python false
                 (log (Spawn (PIP_VERSION venv_python)) ready_state))
  /\ pip_module_is_available refusing_world venv_python ready_state
     = Raise (Exn OSError) (log (Spawn (PIP_VERSION venv_python)) ready_state)
  /\ pip_module_is_available posix_world venv_python (fresh_state [])
     = Raise (Exn FileNotFoundError) (fresh_state []).
Proof.
  split; [|split].
  - apply (X4_pip_probe_outcome broken_pip_world venv_python ready_state).
    reflexivity.
  - apply (X4_pip_probe_outcome refusing_world venv_python ready_state).
    reflexivity.
  - apply (X4_pip_probe_outcome posix_world venv_python (fresh_state [])).
    reflexivity.
Defined.

(** ** The Repository Locator without [git] *)

Lemma prefixes_snoc (p : Path) (c : string) :
  prefixes (p ++ [c]) = prefixes p ++ [p ++ [c]].
Proof.
  induction p as [|a p IH]; [reflexivity|].
  cbn [app prefixes]. rewrite IH, map_app. reflexivity.
Qed.

(** The directories the walk visits, nearest first. *)

Lemma candidates_rev (p : Path) : p :: parents p = rev (prefixes p).
Proof.
  unfold parents. induction p as [|c p IH] using rev_ind; [reflexivity|].
  rewrite prefixes_snoc, rev_app_distr. reflexivity.
Qed.

Lemma candidates_snoc (p : Path) (c : string) :
  @cons Path (p ++ [c]) (parents (p ++ [c]))
  = @cons Path (p ++ [c]) (@cons Path p (parents p)).
Proof.
  unfold parents at 1. rewrite prefixes_snoc, rev_app_distr.
  cbn [rev app tl]. f_equal. symmetry. apply candidates_rev.
Qed.

Lemma snoc_split (p q r : Path) (c : string) :
  p ++ [c] = q ++ r ->
  (r = [] /\ q = p ++ [c]) \/ (exists r', r = r' ++ [c] /\ p = q ++ r').
Proof.
  intros H. destruct r as [|x r] using rev_ind.
  - left. rewrite app_nil_r in H. now split.
  - right. exists r. rewrite app_assoc in H.
    apply app_inj_tail in H. destruct H as [Hp Hc]. subst. now split.
Qed.

(** The walk finds the nearest of the directory and its ancestors that
    satisfies [f]. *)
Lemma find_nearest (f : Path -> bool) (p : Path) :
  forall root,
    find f (p :: parents p) = Some root ->
    (exists rest, p = root ++ rest)
    /\ f root = true
    /\ (forall q r, p = q ++ r -> length root < length q -> f q = false).
Proof.
  induction p as [|c p IH] using rev_ind; intros root H.
  - cbn in H. destruct (f []) eqn:Hf; [|discriminate].
    inversion H; subst. repeat split; [now exists [] | exact Hf |].
    intros q r Hq Hlen. symmetry in Hq. apply app_eq_nil in Hq.
    destruct Hq as [-> _]. cbn in Hlen. lia.
  - rewrite candidates_snoc in H. cbn [find] in H.
    destruct (f (p ++ [c])) eqn:Hf.
    + inversion H; subst.
      repeat split; [exists []; now rewrite app_nil_r | exact Hf |].
      intros q r Hq Hlen. apply (f_equal (@length string)) in Hq.
      rewrite (length_app q r) in Hq. lia.
    + destruct (IH root H) as ((rest & Hrest) & Hroot & Hnear).
      repeat split; [|exact Hroot|].
      * exists (rest ++ [c]). now rewrite Hrest, app_assoc.
      * intros q r Hq Hlen.
        destruct (snoc_split p q r c Hq) as [[_ ->] | (r' & _ & Hp)];
          [exact Hf | now apply (Hnear q r')].
Qed.

Lemma find_some_candidate (f : Path -> bool) (p q r : Path) :
  p = q ++ r -> f q = true -> find f (p :: parents p) <> None.
Proof.
  revert q r. induction p as [|c p IH] using rev_ind; intros q r Hq Hf.
  - symmetry in Hq. apply app_eq_nil in Hq. destruct Hq as [-> _].
    cbn. now rewrite Hf.
  - rewrite candidates_snoc. cbn [find].
    destruct (f (p ++ [c])) eqn:Hpc; [discriminate|].
    destruct (snoc_split p q r c Hq) as [[_ ->] | (r' & _ & Hp)].
    + rewrite Hf in Hpc. discriminate.
    + now apply (IH q r').
Qed.

(** [get_git_root] when [git] is not installed. *)
Lemma get_git_root_walk (w : World) (s : State) :
  git_root_cache s = None ->
  proc w (trace s) GIT_QUERY = NotFound ->
  get_git_root w s
  = match find (fun parent => is_dir s (parent // ".git"))
               (cwd w :: parents (cwd w)) with
    | Some root =>
        Ret root (set_git_root_cache root (log (Spawn GIT_QUERY) s))
    | None =>
        Exit 1 (log (Print [FStr "Error: .git directory not found in any parent directories."])
                    (log (Spawn GIT_QUERY) s))
    end.
Proof.
  intros Hc Hp. unfold get_git_root. rewrite (lru_cache_miss _ _ _ s Hc).
  unfold get_git_root_uncached, try_except, bind, subprocess_run.
  rewrite Hp. cbv beta iota zeta. unfold bind, get.
  change (fun parent => is_dir (log (Spawn GIT_QUERY) s) (parent // ".git"))
    with (fun parent => is_dir s (parent // ".git")).
  destruct (find _ _); reflexivity.
Qed.

(** X5.  When [git] is not installed and nothing is cached, the root that
    [get_git_root] returns is the working directory or one of its
    ancestors, it holds a [.git] directory, and no directory between it
    and the working directory does: it is the nearest such ancestor.  The
    call returns whenever the working directory or an ancestor holds
    [.git]. *)
Theorem X5_walk_returns_nearest_checkout :
  forall (w : World) (s : State),
    git_root_cache s = None ->
    proc w (trace s) GIT_QUERY = NotFound ->
    (forall root s1,
        get_git_root w s = Ret root s1 ->
        (exists rest, cwd w = root ++ rest)
        /\ is_dir s (root // ".git") = true
        /\ (forall q r, cwd w = q ++ r -> length root < length q ->
                        is_dir s (q // ".git") = false))
    /\ (forall q r, cwd w = q ++ r -> is_dir s (q // ".git") = true ->
                    exists root s1, get_git_root w s = Ret root s1).
Proof.
  intros w s Hc Hp. rewrite (get_git_root_walk w s Hc Hp). split.
  - intros root s1 H.
    destruct (find _ _) as [found|] eqn:Hf; [|discriminate].
    inversion H; subst.
    exact (find_nearest (fun parent => is_dir s (parent // ".git")) (cwd w)
             root Hf).
  - intros q r Hq Hd.
    pose proof (find_some_candidate
                  (fun parent => is_dir s (parent // ".git")) (cwd w) q r Hq Hd)
      as Hsome.
    destruct (find _ _) as [found|]; [|contradiction].
    eexists _, _. reflexivity.
Qed.

Lemma X5_walk_returns_nearest_checkout_witness :
  (exists rest, cwd no_git_world = project ++ rest)
  /\ is_dir checkout_state (project // ".git") = true
  /\ (forall q r, cwd no_git_world = q ++ r -> length project < length q ->
                  is_dir checkout_state (q // ".git") = false).
Proof.
  destruct (X5_walk_returns_nearest_checkout no_git_world checkout_state
              eq_refl eq_refl) as [H _].
  apply (H project (final_state (get_git_root no_git_world checkout_state))).
  reflexivity.
Defined.

(** X6.  When [git] is installed, its return code alone decides
    [get_git_root] (nothing being cached): with code 0 the path [git]
    printed is returned and stored, whatever the file system holds; with
    any other code the process ends with 1, and the directory walk is not
    tried even where a [.git] directory is in reach. *)
Theorem X6_git_answer_decides :
  forall (w : World) (s : State) (rc : Z),
    git_root_cache s = None ->
    proc w (trace s) GIT_QUERY = Completed rc ->
    get_git_root w s
    = if (rc =? 0)%Z
      then Ret (git_toplevel w)
               (set_git_root_cache (git_toplevel w) (log (Spawn GIT_QUERY) s))
      else Exit 1
             (log (Print [FStr ("Error: This does not appear to be a git repository. "
                                ++ "Please run from within the cloned project directory.")%string])
                  (log (Spawn GIT_QUERY) s)).
Proof.
  intros w s rc Hc Hp. unfold get_git_root. rewrite (lru_cache_miss _ _ _ s Hc).
  unfold get_git_root_uncached, try_except, bind, subprocess_run.
  rewrite Hp. cbn [andb]. destruct (rc =? 0)%Z; reflexivity.
Qed.

Lemma X6_git_answer_decides_witness :
  exists s',
    get_git_root failing_world checkout_state = Exit 1 s'
    /\ is_dir checkout_state (project // ".git") = true.
Proof.
  eexists. split.
  - apply (X6_git_answer_decides failing_world checkout_state 3%Z);
      reflexivity.
  - reflexivity.
Defined.

(** ** The Environment Builder, step by step *)

(** The state in which [ensurepip] is started. *)
Lemma create_virtual_environment_starts (w : World) (venv_dir python_exe : Path)
    (s : State) :
  exists_ s venv_dir = false ->
  exists rest : unit -> M unit,
    create_virtual_environment w venv_dir python_exe s
    = bind (run_command w (ENSUREPIP python_exe) true) rest
        (log (Print [FStr ("---> Ensuring pip CLI script is installed in the virtual "
                           ++ "environment...")%string])
             (log (CreateVenv venv_dir)
                  (add_venv venv_dir (venv_layout w venv_dir)
                            (log (creating_notice venv_dir) s)))).
Proof.
  intros Ha. unfold create_virtual_environment.
  do 2 (erewrite bind_ret_step by reflexivity).
  erewrite bind_ret_step by reflexivity. rewrite Ha. cbn [negb].
  do 3 (erewrite bind_ret_step by reflexivity).
  eexists. reflexivity.
Qed.

(** X8.  When [ensurepip] fails in a fresh directory, the process ends
    with a non-zero code having started that one process, but the
    directory has been created and stays: a later call for the same
    directory takes the skip branch, so neither [ensurepip] nor the [pip]
    upgrade is ever run for it. *)
Theorem X8_failed_creation_is_not_repaired :
  forall (w : World) (venv_dir python_exe : Path) (s : State),
    exists_ s venv_dir = false ->
    (forall h, fails (proc w h (ENSUREPIP python_exe))) ->
    exists code s',
      create_virtual_environment w venv_dir python_exe s = Exit code s'
      /\ code <> 0%Z
      /\ spawned s (create_virtual_environment w venv_dir python_exe s)
         = [ENSUREPIP python_exe]
      /\ creations (emitted s (create_virtual_environment w venv_dir python_exe s))
         = [venv_dir]
      /\ create_virtual_environment w venv_dir python_exe s'
         = Ret tt (log (skip_notice venv_dir) s').
Proof.
  intros w venv_dir python_exe s Ha Hfail.
  pose proof (create_virtual_environment_exists_after w venv_dir python_exe s)
    as Hafter.
  destruct (create_virtual_environment_starts w venv_dir python_exe s Ha)
    as (rest & E).
  rewrite E in Hafter |- *.
  match goal with
  | |- context [bind _ rest ?st] => set (s0 := st) in *
  end.
  specialize (Hfail (trace s0)).
  assert (R : exists code line,
             run_command w (ENSUREPIP python_exe) true s0
             = Exit code (log (Print line) (log (Spawn (ENSUREPIP python_exe)) s0))
             /\ code <> 0%Z).
  { destruct (proc w (trace s0) (ENSUREPIP python_exe)) as [|rc|] eqn:Hp.
    - eexists _, _. split;
        [exact (run_command_not_found w (ENSUREPIP python_exe) s0 eq_refl true Hp)
        | discriminate].
    - eexists _, _. split;
        [exact (run_command_failed w (ENSUREPIP python_exe) s0 eq_refl rc Hp Hfail)
        | exact Hfail].
    - destruct Hfail. }
  destruct R as (code & line & R & Hcode).
  unfold bind in Hafter |- *. rewrite R in Hafter |- *.
  exists code. eexists. split; [reflexivity|]. split; [exact Hcode|].
  unfold spawned.
  erewrite emitted_of_trace by (subst s0; trace_norm; reflexivity).
  repeat split.
  apply create_virtual_environment_present. exact Hafter.
Qed.

Lemma X8_failed_creation_is_not_repaired_witness :
  let venv_dir := project // ".venv" in
  exists code s',
    create_virtual_environment no_ensurepip_world venv_dir venv_python
      (fresh_state []) = Exit code s'
    /\ code <> 0%Z
    /\ create_virtual_environment no_ensurepip_world venv_dir venv_python s'
       = Ret tt (log (skip_notice venv_dir) s').
Proof.
  intros venv_dir.
  destruct (X8_failed_creation_is_not_repaired no_ensurepip_world venv_dir
              venv_python (fresh_state []) eq_refl)
    as (code & s' & E & Hc & _ & _ & Hskip).
  - intros h. cbn. discriminate.
  - exists code, s'. repeat split; assumption.
Defined.

(** After a successful [ensurepip] in a fresh directory: the probe, then
    the upgrade by module, by script, or the exit. *)
Lemma create_virtual_environment_upgrade (w : World) (venv_dir python_exe : Path)
    (s : State) :
  let layout := add_venv venv_dir (venv_layout w venv_dir) s in
  exists_ s venv_dir = false ->
  (forall h, proc w h (ENSUREPIP python_exe) = Completed 0) ->
  (forall h, proc w h (PIP_VERSION python_exe) <> NotStarted) ->
  cache_lookup python_exe (pip_cache s) = None ->
  exists_ layout python_exe = true ->
  exists s_e,
    trace s_e = trace s ++ [creating_notice venv_dir; CreateVenv venv_dir;
                            Print [FStr ("---> Ensuring pip CLI script is installed in the virtual "
                                         ++ "environment...")%string];
                            Spawn (ENSUREPIP python_exe);
                            Print [FStr ("---> Upgrading pip in the virtual environment to latest "
                                         ++ "version...")%string]]
    /\ (dirs s_e = dirs layout /\ files s_e = files layout)
    /\ create_virtual_environment w venv_dir python_exe s
       = let b := succeeded (proc w (trace s_e) (PIP_VERSION python_exe)) in
         let s_f := add_pip_cache python_exe b
                      (log (Spawn (PIP_VERSION python_exe)) s_e) in
         if b then run_command w (PIP_UPGRADE python_exe) true s_f
         else if exists_ layout (pip_script_path w venv_dir)
              then run_command w (PIP_SCRIPT_UPGRADE (pip_script_path w venv_dir))
                               true s_f
              else Exit 1
                     (log (Print [FStr "Please check your Python installation."])
                          (log (Print [FStr ("Error: 'pip' is not available in the virtual "
                                             ++ "environment after ensurepip.")%string])
                               s_f)).
Proof.
  intros layout Ha Hensure Hstart Hcache Hexe.
  unfold create_virtual_environment.
  do 2 (erewrite bind_ret_step by reflexivity).
  erewrite bind_ret_step by reflexivity. rewrite Ha. cbn [negb].
  do 3 (erewrite bind_ret_step by reflexivity).
  erewrite bind_ret_step
    by (apply (run_command_completed w (ENSUREPIP python_exe) _ eq_refl true 0%Z);
        [apply Hensure | reflexivity]).
  erewrite bind_ret_step by reflexivity.
  match goal with
  | |- context [bind (pip_module_is_available w python_exe) _ ?st] =>
      exists st; split; [trace_norm; reflexivity|];
      split; [split; reflexivity|];
      rewrite (bind_ret_step (pip_module_is_available w python_exe) _ st
                 (succeeded (proc w (trace st) (PIP_VERSION python_exe)))
                 (add_pip_cache python_exe
                    (succeeded (proc w (trace st) (PIP_VERSION python_exe)))
                    (log (Spawn (PIP_VERSION python_exe)) st)))
  end.
  2:{ rewrite pip_module_is_available_probe by exact Hcache.
      match goal with
      | |- context [exists_ ?st python_exe] =>
          change (exists_ st python_exe) with (exists_ layout python_exe)
      end.
      rewrite Hexe.
      match goal with
      | |- context [proc w ?h (PIP_VERSION python_exe)] =>
          specialize (Hstart h);
          destruct (proc w h (PIP_VERSION python_exe));
          [reflexivity | reflexivity | contradiction]
      end. }
  cbv zeta.
  destruct (succeeded _); cbn [negb]; [reflexivity|].
  unfold _is_windows. fold (pip_script_path w venv_dir).
  erewrite bind_ret_step by reflexivity.
  match goal with
  | |- context [exists_ ?st (pip_script_path w venv_dir)] =>
      change (exists_ st (pip_script_path w venv_dir))
        with (exists_ layout (pip_script_path w venv_dir))
  end.
  destruct (exists_ layout (pip_script_path w venv_dir)); cbn [negb];
    reflexivity.
Qed.

(** X7.  In a fresh directory, after a successful [ensurepip], [pip] is
    upgraded in one of two ways.  When the probe [python -m pip --version]
    succeeds, the upgrade is [python -m pip install --upgrade pip
    --require-virtualenv]; when it fails but the [pip] script exists in
    the environment, the upgrade is run through that script, without
    [--require-virtualenv].  In both cases exactly three processes are
    started, in this order. *)
Theorem X7_pip_upgrade_by_module_or_script :
  forall (w : World) (venv_dir python_exe : Path) (s : State),
    exists_ s venv_dir = false ->
    (forall h, proc w h (ENSUREPIP python_exe) = Completed 0) ->
    cache_lookup python_exe (pip_cache s) = None ->
    exists_ (add_venv venv_dir (venv_layout w venv_dir) s) python_exe = true ->
    ((forall h, proc w h (PIP_VERSION python_exe) = Completed 0) ->
     spawned s (create_virtual_environment w venv_dir python_exe s)
     = [ENSUREPIP python_exe; PIP_VERSION python_exe; PIP_UPGRADE python_exe])
    /\ ((forall h, fails (proc w h (PIP_VERSION python_exe))) ->
        exists_ (add_venv venv_dir (venv_layout w venv_dir) s)
                (pip_script_path w venv_dir) = true ->
        spawned s (create_virtual_environment w venv_dir python_exe s)
        = [ENSUREPIP python_exe; PIP_VERSION python_exe;
           PIP_SCRIPT_UPGRADE (pip_script_path w venv_dir)]).
Proof.
  intros w venv_dir python_exe s Ha Hensure Hcache Hexe.
  split.
  - intros Hprobe.
    assert (Hstart : forall h, proc w h (PIP_VERSION python_exe) <> NotStarted)
      by (intros h; rewrite Hprobe; discriminate).
    destruct (create_virtual_environment_upgrade w venv_dir python_exe s
                Ha Hensure Hstart Hcache Hexe) as (s_e & Ht & _ & E).
    rewrite E. cbv zeta.
    rewrite (Hprobe (trace s_e)). cbn [succeeded Z.eqb].
    match goal with
    | |- context [run_command w ?cmd true ?st] =>
        destruct (run_command_checked_trace w cmd st eq_refl)
          as (extra & Hx & Hc & _)
    end.
    unfold spawned. erewrite emitted_of_trace.
    2:{ rewrite Hx. cbn [trace add_pip_cache set_pip_cache log]. rewrite Ht, <- !app_assoc.
        cbn [app]. reflexivity. }
    cbn [commands creating_notice]. now rewrite Hc.
  - intros Hprobe Hscript.
    assert (Hstart : forall h, proc w h (PIP_VERSION python_exe) <> NotStarted)
      by (intros h E; specialize (Hprobe h); now rewrite E in Hprobe).
    destruct (create_virtual_environment_upgrade w venv_dir python_exe s
                Ha Hensure Hstart Hcache Hexe) as (s_e & Ht & _ & E).
    rewrite E. cbv zeta.
    specialize (Hprobe (trace s_e)).
    assert (Hb : succeeded (proc w (trace s_e) (PIP_VERSION python_exe)) = false).
    { destruct (proc w (trace s_e) (PIP_VERSION python_exe)) as [|rc|];
        [reflexivity | | reflexivity]. cbn in *. now apply Z.eqb_neq. }
    rewrite Hb, Hscript.
    match goal with
    | |- context [run_command w ?cmd true ?st] =>
        destruct (run_command_checked_trace w cmd st eq_refl)
          as (extra & Hx & Hc & _)
    end.
    unfold spawned. erewrite emitted_of_trace.
    2:{ rewrite Hx. cbn [trace add_pip_cache set_pip_cache log]. rewrite Ht, <- !app_assoc.
        cbn [app]. reflexivity. }
    cbn [commands creating_notice]. now rewrite Hc.
Qed.

Lemma X7_pip_upgrade_by_module_or_script_witness :
  let venv_dir := project // ".venv" in
  spawned (fresh_state [])
    (create_virtual_environment posix_world venv_dir venv_python (fresh_state []))
  = [ENSUREPIP venv_python; PIP_VERSION venv_python; PIP_UPGRADE venv_python]
  /\ spawned (fresh_state [])
       (create_virtual_environment script_pip_world venv_dir venv_python
          (fresh_state []))
     = [ENSUREPIP venv_python; PIP_VERSION venv_python;
        PIP_SCRIPT_UPGRADE (venv_dir // "bin" // "pip")].
Proof.
  intros venv_dir. split.
  - apply (proj1 (X7_pip_upgrade_by_module_or_script posix_world venv_dir
                    venv_python (fresh_state []) eq_refl
                    (fun _ => eq_refl) eq_refl eq_refl)).
    intros h. reflexivity.
  - apply (proj2 (X7_pip_upgrade_by_module_or_script script_pip_world venv_dir
                    venv_python (fresh_state []) eq_refl
                    (fun _ => eq_refl) eq_refl eq_refl)).
    + intros h. cbn. discriminate.
    + reflexivity.
Defined.

(** ** The Tool Installer, at its edges *)

Lemma install_with_pip_missing (w : World) (exe : Path)
    (modules : list InstallSpec) (message : string) (s : State) :
  exists_ s exe = false ->
  install_with_pip w exe modules message s = Raise (Exn FileNotFoundError) s.
Proof.
  intros He. unfold install_with_pip, bind, _validate_path. now rewrite He.
Qed.

Lemma install_tools_missing (w : World) (exe : Path)
    (modules : list InstallSpec) (s : State) :
  exists_ s exe = false ->
  install_tools w exe modules s = Raise (Exn FileNotFoundError) s.
Proof.
  intros He. unfold install_tools, bind, _validate_path. now rewrite He.
Qed.

(** X9.  [install_with_uv] called with a list that names no [uv] raises:
    [FileNotFoundError] when the interpreter does not exist, [IndexError]
    otherwise; in both cases before any process is started or any line
    printed. *)
Theorem X9_install_with_uv_needs_uv :
  forall (w : World) (exe : Path) (modules : list InstallSpec) (s : State),
    existsb is_uv modules = false ->
    install_with_uv w exe modules s
    = Raise (Exn (if exists_ s exe then IndexError else FileNotFoundError)) s.
Proof.
  intros w exe modules s Hno. rewrite existsb_filter in Hno.
  unfold install_with_uv, bind, _validate_path.
  destruct (exists_ s exe); cbn [andb negb]; [|reflexivity].
  destruct (filter is_uv modules); [reflexivity | discriminate].
Qed.

Lemma X9_install_with_uv_needs_uv_witness :
  install_with_uv posix_world venv_python [mkInstallSpec "tox" "" ""] ready_state
  = Raise (Exn IndexError) ready_state.
Proof.
  apply (X9_install_with_uv_needs_uv posix_world venv_python
           [mkInstallSpec "tox" "" ""] ready_state).
  reflexivity.
Defined.

(** X10.  [install_with_pip] has no guard of its own against the empty
    list: whenever the interpreter exists it starts exactly one process,
    the [pip] command over the list it was given, which for the empty list
    is [python -m pip --require-virtualenv install -U] with no package;
    the message changes only the line printed before.  When the
    interpreter does not exist it raises [FileNotFoundError] and nothing
    has happened. *)
Theorem X10_install_with_pip_one_process :
  forall (w : World) (exe : Path) (modules : list InstallSpec)
         (message : string) (s : State),
    spawned s (install_with_pip w exe modules message s)
    = (if exists_ s exe
       then [PIP_BASE exe ++ [Str "install"; Str "-U"]
                      ++ map (fun m => Str (spec_arg m)) modules]
       else [])
    /\ (exists_ s exe = false ->
        install_with_pip w exe modules message s
        = Raise (Exn FileNotFoundError) s)
    /\ spawned s (install_with_pip w exe modules message s)
       = spawned s (install_with_pip w exe modules "" s).
Proof.
  intros w exe modules message s.
  assert (H : forall msg,
             spawned s (install_with_pip w exe modules msg s)
             = if exists_ s exe then [pip_install exe modules] else []).
  { intros msg. destruct (exists_ s exe) eqn:He.
    - rewrite (install_with_pip_runs w exe modules msg s He).
      destruct (run_command_checked_trace w _ (log (pip_notice msg) s)
                  (pip_install_valid exe modules)) as (extra & Ht & Hc & _).
      unfold spawned. erewrite emitted_of_trace.
      2:{ rewrite Ht. trace_norm. reflexivity. }
      cbn [commands pip_notice]. now rewrite Hc.
    - rewrite (install_with_pip_missing w exe modules msg s He).
      unfold spawned. now rewrite emitted_same. }
  repeat split.
  - apply H.
  - apply install_with_pip_missing.
  - now rewrite !H.
Qed.

Lemma X10_install_with_pip_one_process_witness :
  install_with_pip posix_world venv_python [] "" (fresh_state [])
  = Raise (Exn FileNotFoundError) (fresh_state []).
Proof.
  apply (X10_install_with_pip_one_process posix_world venv_python [] ""
           (fresh_state [])).
  reflexivity.
Defined.

(** The processes of [install_tools], in every case. *)
Lemma install_tools_spawned_cases (w : World) (exe : Path)
    (modules : list InstallSpec) (s : State) :
  spawned s (install_tools w exe modules s) = []
  \/ spawned s (install_tools w exe modules s) = [pip_install exe modules]
  \/ exists uv,
       spawned s (install_tools w exe modules s) = [pip_install exe [uv]]
       \/ spawned s (install_tools w exe modules s)
          = [pip_install exe [uv]; uv_pip_install exe (filter not_uv modules)].
Proof.
  destruct (exists_ s exe) eqn:He.
  - destruct modules as [|m r] eqn:Hm.
    + left. rewrite (install_tools_nil w exe s He). unfold spawned.
      now rewrite emitted_same.
    + rewrite <- Hm. assert (Hne : modules <> []) by (subst; discriminate).
      destruct (filter is_uv modules) as [|uv rest] eqn:Hf.
      * right. left. now apply install_tools_pip_spawned.
      * right. right. exists uv.
        destruct (install_tools_uv_spawned w exe modules uv rest s He Hf)
          as [[H | H] _]; [now left|].
        destruct (filter not_uv modules); [now left | now right].
  - left. rewrite (install_tools_missing w exe modules s He). unfold spawned.
    now rewrite emitted_same.
Qed.

(** X11.  Whatever the list and the outcome, [install_tools] starts at
    most two processes, and each of them is the environment's own
    interpreter running a module ([python -m ...]): no installer is looked
    up elsewhere. *)
Theorem X11_install_tools_runs_the_interpreter :
  forall (w : World) (exe : Path) (modules : list InstallSpec) (s : State),
    length (spawned s (install_tools w exe modules s)) <= 2
    /\ Forall (fun command => exists tail,
                   command = PathArg exe :: Str "-m" :: tail)
              (spawned s (install_tools w exe modules s)).
Proof.
  intros w exe modules s.
  assert (Hpip : forall specs, exists tail,
               pip_install exe specs = PathArg exe :: Str "-m" :: tail)
    by (intros; eexists; reflexivity).
  assert (Huv : forall specs, exists tail,
              uv_pip_install exe specs = PathArg exe :: Str "-m" :: tail)
    by (intros; eexists; reflexivity).
  destruct (install_tools_spawned_cases w exe modules s)
    as [-> | [-> | (uv & [-> | ->])]]; cbn [length]; split;
    auto using Forall_nil, Forall_cons.
Qed.

(** ** The whole script: which programs are started *)

Lemma arg_eqb_eq (a b : arg) : arg_eqb a b = true -> a = b.
Proof.
  destruct a as [x|p], b as [y|q]; cbn; try discriminate; intros H.
  - apply String.eqb_eq in H. now subst.
  - apply path_eqb_eq in H. now subst.
Qed.

Lemma command_eqb_eq (c d : Command) : command_eqb c d = true -> c = d.
Proof.
  revert d. induction c as [|a c IH]; intros [|b d]; cbn; try discriminate;
    [reflexivity|].
  intros H. apply andb_true_iff in H. destruct H as [Ha Hc].
  apply arg_eqb_eq in Ha. apply IH in Hc. now subst.
Qed.

Lemma named_only_refl (s : State) : named_only s GoesOn s.
Proof. exists []. now rewrite app_nil_r. Qed.

Lemma named_only_trans (a b c : State) (e : ending) :
  named_only a GoesOn b -> named_only b e c -> named_only a e c.
Proof.
  intros (x1 & Ht1 & H1) (x2 & Ht2 & H2). exists (x1 ++ x2). split.
  - now rewrite Ht2, Ht1, app_assoc.
  - now rewrite commands_app, forallb_app, H1, H2.
Qed.

Lemma named_only_exit (code : Z) (s : State) : named_only s (Exits code) s.
Proof. exists []. now rewrite app_nil_r. Qed.

Lemma named_print (line : list frag) : within named_only (print line).
Proof. intros s. now exists [Print line]. Qed.

Lemma named_input_from (prompt : string) (pending : list InputEvent) :
  within named_only (input_from prompt pending).
Proof.
  intros s. unfold input_from.
  destruct pending as [|[l|] rest]; now exists [Input prompt].
Qed.

Lemma named_create_venv (w : World) (venv_dir : Path) :
  within named_only (create_venv w venv_dir).
Proof. intros s. now exists [CreateVenv venv_dir]. Qed.

Lemma named_store {A} (store : A -> State -> State) :
  (forall a s, trace (store a s) = trace s) ->
  forall a s, named_only s GoesOn (store a s).
Proof.
  intros H a s. exists []. now rewrite H, app_nil_r.
Qed.

Lemma named_subprocess_run (w : World) (command : Command) (check : bool) :
  by_path_or_git command = true ->
  within named_only (subprocess_run w command check).
Proof.
  intros Hc s. unfold subprocess_run.
  assert (H : named_only s GoesOn (log (Spawn command) s)).
  { exists [Spawn command]. split; [reflexivity|]. cbn. now rewrite Hc. }
  destruct (proc w (trace s) command) as [|rc|]; [exact H| |exact H].
  destruct (check && negb (rc =? 0)%Z); exact H.
Qed.

Create HintDb named.
#[local] Hint Resolve named_only_exit named_print named_input_from
  named_create_venv named_subprocess_run : named.
#[local] Hint Extern 0 (by_path_or_git _ = true) => reflexivity : named.

Ltac named_walk :=
  within_walk named_only_refl named_only_trans ltac:(auto with named nocore).

Lemma named_run_command (w : World) (command : Command) (check : bool) :
  by_path_or_git command = true ->
  within named_only (run_command w command check).
Proof. intros Hc. unfold run_command, debug_print. named_walk. Qed.

#[local] Hint Resolve named_run_command : named.

Lemma named_get_git_root (w : World) : within named_only (get_git_root w).
Proof.
  unfold get_git_root.
  apply within_lru_cache;
    [exact named_only_refl | exact named_only_trans | | now apply named_store].
  unfold get_git_root_uncached. named_walk.
Qed.

Lemma named_pip_module_is_available (w : World) (python_exe : Path) :
  within named_only (pip_module_is_available w python_exe).
Proof.
  unfold pip_module_is_available.
  apply within_lru_cache_by_key;
    [exact named_only_refl | exact named_only_trans | | now apply named_store].
  unfold pip_module_is_available_uncached, debug_print. named_walk.
Qed.

Lemma named_ask (pending : list InputEvent) :
  forall choice, within named_only (ask choice pending).
Proof.
  induction pending as [|ev rest IH]; intros choice; cbn [ask]; named_walk.
Qed.

Lemma named_ask_until_decided (choice : string) :
  within named_only (ask_until_decided choice).
Proof. intros s. apply named_ask. Qed.

#[local] Hint Resolve named_get_git_root named_pip_module_is_available
  named_ask_until_decided : named.

Lemma named_create_virtual_environment (w : World) (venv_dir python_exe : Path) :
  within named_only (create_virtual_environment w venv_dir python_exe).
Proof. unfold create_virtual_environment. named_walk. Qed.

Lemma named_install_tools (w : World) (python_exe : Path)
    (modules : list InstallSpec) :
  within named_only (install_tools w python_exe modules).
Proof.
  unfold install_tools, install_with_uv, install_with_pip.
  rewrite !build_pip, build_uv. named_walk.
Qed.

Lemma named_print_instructions (w : World) (template : string) :
  within named_only (print_instructions w template).
Proof. unfold print_instructions. named_walk. Qed.

#[local] Hint Resolve named_create_virtual_environment named_install_tools
  named_print_instructions : named.

Lemma named_script (w : World) : within named_only (script w).
Proof.
  unfold script. destruct (version_too_old w).
  - destruct (version_info w). named_walk.
  - unfold main, confirmation_prompt, path_to_venv_python. named_walk.
Qed.

(** X12.  In every run of the script, each child process is either the
    [git] query or a command whose program is given by a path: [git] is
    the only program the script asks the system to find by name. *)
Theorem X12_only_git_is_found_by_name :
  forall (w : World) (s : State),
    Forall (fun command =>
              command = GIT_QUERY
              \/ exists p rest, command = PathArg p :: rest)
           (spawned s (script w s)).
Proof.
  intros w s. destruct (named_script w s) as (extra & Ht & H).
  unfold spawned. rewrite (emitted_of_trace s _ extra Ht).
  apply Forall_forall. intros command Hin.
  rewrite forallb_forall in H. specialize (H command Hin).
  destruct command as [|[x|p] rest]; cbn in H.
  - discriminate.
  - left. symmetry. now apply command_eqb_eq.
  - right. now exists p, rest.
Qed.

(** ** The whole script: nothing happens before the user agrees *)

Lemma only_git_refl (s : State) : only_git s s.
Proof. repeat split. exists []. now rewrite app_nil_r. Qed.

Lemma only_git_trans (a b c : State) : only_git a b -> only_git b c -> only_git a c.
Proof.
  intros (Hd1 & Hf1 & Hp1 & x1 & Ht1 & Hc1 & Hg1)
         (Hd2 & Hf2 & Hp2 & x2 & Ht2 & Hc2 & Hg2).
  repeat split; try congruence.
  exists (x1 ++ x2). repeat split.
  - now rewrite Ht2, Ht1, app_assoc.
  - now rewrite creations_app, Hc1, Hc2.
  - now rewrite commands_app, forallb_app, Hg1, Hg2.
Qed.

Lemma only_git_event (e : Event) (s : State) :
  creations [e] = [] ->
  forallb (command_eqb GIT_QUERY) (commands [e]) = true ->
  only_git s (log e s).
Proof. intros Hc Hg. repeat split. now exists [e]. Qed.

Lemma git_only_refl (s : State) : git_only s GoesOn s.
Proof. apply only_git_refl. Qed.

Lemma git_only_trans (a b c : State) (e : ending) :
  git_only a GoesOn b -> git_only b e c -> git_only a e c.
Proof. apply only_git_trans. Qed.

Lemma git_only_exit (code : Z) (s : State) : git_only s (Exits code) s.
Proof. apply only_git_refl. Qed.

Lemma git_only_print (line : list frag) : within git_only (print line).
Proof. intros s. now apply (only_git_event (Print line)). Qed.

Lemma git_only_input_from (prompt : string) (pending : list InputEvent) :
  within git_only (input_from prompt pending).
Proof.
  intros s. unfold input_from.
  assert (H : only_git s (log (Input prompt) (set_stdin (tl pending) s)))
    by (repeat split; now exists [Input prompt]).
  destruct pending as [|[l|] rest]; exact H.
Qed.

Lemma git_only_query (w : World) (check : bool) :
  within git_only (subprocess_run w GIT_QUERY check).
Proof.
  intros s. unfold subprocess_run.
  assert (H : only_git s (log (Spawn GIT_QUERY) s))
    by now apply (only_git_event (Spawn GIT_QUERY)).
  destruct (proc w (trace s) GIT_QUERY) as [|rc|]; [exact H| |exact H].
  destruct (check && negb (rc =? 0)%Z); exact H.
Qed.

Create HintDb gitonly.
#[local] Hint Resolve git_only_exit git_only_print git_only_input_from
  git_only_query : gitonly.

Ltac git_only_walk :=
  within_walk git_only_refl git_only_trans ltac:(auto with gitonly nocore).

Lemma git_only_get_git_root (w : World) : within git_only (get_git_root w).
Proof.
  unfold get_git_root.
  apply within_lru_cache; [exact git_only_refl | exact git_only_trans | |].
  - unfold get_git_root_uncached. git_only_walk.
  - intros a s. repeat split. exists []. cbn. now rewrite app_nil_r.
Qed.

Lemma git_only_ask (pending : list InputEvent) :
  forall choice, within git_only (ask choice pending).
Proof.
  induction pending as [|ev rest IH]; intros choice; cbn [ask]; git_only_walk.
Qed.

Lemma git_only_ask_until_decided (choice : string) :
  within git_only (ask_until_decided choice).
Proof. intros s. apply git_only_ask. Qed.

#[local] Hint Resolve git_only_get_git_root git_only_ask_until_decided : gitonly.

(** The prompt creates nothing and starts no process but the query. *)
Lemma git_only_confirmation_prompt (w : World) :
  within git_only (confirmation_prompt w).
Proof. unfold confirmation_prompt. git_only_walk. Qed.

Lemma main_without_consent (w : World) (s : State) :
  (forall s1, confirmation_prompt w s <> Ret true s1) ->
  only_git s (final_state (main w s)).
Proof.
  intros Hno.
  pose proof (git_only_confirmation_prompt w s) as Hc.
  unfold git_only in Hc.
  destruct (confirmation_prompt w s) as [[|] s1|code s1|e s1] eqn:E.
  - exfalso. now apply (Hno s1).
  - rewrite (main_aborts w s s1 E). cbn [final_state] in *.
    apply (only_git_trans _ _ _ Hc).
    now apply (only_git_event aborted_notice).
  - unfold main. rewrite (bind_exit _ _ s s1 code E). exact Hc.
  - unfold main, bind. rewrite E. exact Hc.
Qed.

(** X13.  Unless [confirmation_prompt] returns [True], the run changes
    nothing: whether the user declines, interrupts, the input ends or the
    root is not found, [main] leaves the file system as it was, calls
    [venv.create] never, and starts no process other than the [git]
    query. *)
Theorem X13_nothing_happens_without_consent :
  forall (w : World) (s : State),
    (forall s1, confirmation_prompt w s <> Ret true s1) ->
    dirs (final_state (main w s)) = dirs s
    /\ files (final_state (main w s)) = files s
    /\ creations (emitted s (main w s)) = []
    /\ Forall (eq GIT_QUERY) (spawned s (main w s)).
Proof.
  intros w s Hno.
  destruct (main_without_consent w s Hno) as (Hd & Hf & _ & extra & Ht & Hc & Hg).
  unfold spawned. rewrite (emitted_of_trace s _ extra Ht).
  repeat split; try assumption.
  apply Forall_forall. intros command Hin.
  rewrite forallb_forall in Hg.
  apply command_eqb_eq. now apply Hg.
Qed.

Lemma X13_nothing_happens_without_consent_witness :
  let s := fresh_state [Line "no"] in
  dirs (final_state (main posix_world s)) = dirs s
  /\ files (final_state (main posix_world s)) = files s
  /\ creations (emitted s (main posix_world s)) = []
  /\ Forall (eq GIT_QUERY) (spawned s (main posix_world s)).
Proof.
  intros s.
  apply (X13_nothing_happens_without_consent posix_world s).
  intros s1. vm_compute. discriminate.
Defined.

(** ** The whole script: after the user has agreed *)


Lemma print_instructions_prints (w : World) (s : State) :
  print_instructions w POST_INSTALL_MESSAGE s
  = Ret tt (log (instructions_notice w) s).
Proof.
  unfold print_instructions.
  erewrite bind_ret_step; [reflexivity|].
  now rewrite format_post_install_message.
Qed.

(** X14.  The end of the input is not an abort.  With the repository root
    found, when the input ends before a decided answer was given,
    [EOFError] leaves [confirmation_prompt] and [main] uncaught: the run
    ends right after the banner, one prompt for each undecided answer and
    one more, with no abort line printed, and the script ends with
    status 1, not 0. *)
Theorem X14_end_of_input_is_not_an_abort :
  forall (w : World) (s s1 : State) (root : Path) (junk : list string),
    get_git_root w s = Ret root s1 ->
    Forall (fun a => undecided a = true) junk ->
    stdin s1 = map Line junk ->
    main w s
    = Raise (Exn EOFError) (after_prompts (S (length junk)) [] (banner w root s1))
    /\ (version_too_old w = false -> exit_status (script w s) = 1%Z).
Proof.
  intros w s s1 root junk Hroot Hjunk Hin.
  assert (E : main w s
              = Raise (Exn EOFError)
                  (after_prompts (S (length junk)) [] (banner w root s1))).
  { unfold main, bind at 1.
    now rewrite (confirmation_prompt_eof w s s1 root junk Hroot Hjunk Hin). }
  split; [exact E|].
  intros Hv. rewrite (script_runs_main w Hv), E. reflexivity.
Qed.

Lemma X14_end_of_input_is_not_an_abort_witness :
  let s := fresh_state [Line "maybe"; Line ""] in
  let s1 := final_state (get_git_root posix_world s) in
  main posix_world s
  = Raise (Exn EOFError) (after_prompts 3 [] (banner posix_world project s1))
  /\ exit_status (script posix_world s) = 1%Z.
Proof.
  intros s s1.
  destruct (X14_end_of_input_is_not_an_abort posix_world s s1 project
              ["maybe"; ""] eq_refl) as (E & Hs).
  - repeat constructor.
  - reflexivity.
  - split; [exact E | apply Hs; reflexivity].
Defined.

Lemma exists_same (s s' : State) (p : Path) :
  dirs s' = dirs s -> files s' = files s -> exists_ s' p = exists_ s p.
Proof. intros Hd Hf. unfold exists_. now rewrite Hd, Hf. Qed.

(** X15.  An environment directory without an interpreter is not
    repaired.  When the user has agreed and [git_root / ".venv"] exists
    but the interpreter path inside it does not, [main] prints that
    creation is skipped and then [FileNotFoundError] leaves
    [install_tools] uncaught: nothing is created, no installer is
    started, and the script ends with status 1 through the traceback. *)
Theorem X15_environment_without_interpreter :
  forall (w : World) (s s1 s2 : State) (root : Path),
    get_git_root w s = Ret root s1 ->
    confirmation_prompt w s = Ret true s2 ->
    exists_ s (root // ".venv") = true ->
    exists_ s (venv_python_path w (root // ".venv")) = false ->
    main w s
    = Raise (Exn FileNotFoundError)
        (log_all [bootstrapping_notice root; skip_notice (root // ".venv")] s2)
    /\ exit_status (main w s) = 1%Z.
Proof.
  intros w s s1 s2 root Hroot Hyes Hdir Hexe.
  destruct (git_only_confirmation_prompt w s) as (Hd & Hf & _).
  rewrite Hyes in Hd, Hf. cbn [final_state] in Hd, Hf.
  assert (E : main w s
              = Raise (Exn FileNotFoundError)
                  (log_all [bootstrapping_notice root;
                            skip_notice (root // ".venv")] s2)).
  { rewrite (main_proceeds w s s2 root Hyes
               (confirmation_prompt_keeps_root w s s1 s2 root true Hroot Hyes)).
    cbv zeta.
    erewrite bind_ret_step.
    2:{ apply create_virtual_environment_present.
        rewrite exists_log, (exists_same s s2 _ Hd Hf). exact Hdir. }
    unfold bind at 1. rewrite install_tools_missing; [reflexivity|].
    rewrite !exists_log, (exists_same s s2 _ Hd Hf). exact Hexe. }
  split; [exact E | now rewrite E].
Qed.

Lemma X15_environment_without_interpreter_witness :
  let s := broken_state [Line "y"] in
  exit_status (main posix_world s) = 1%Z.
Proof.
  intros s.
  apply (X15_environment_without_interpreter posix_world s
           (final_state (get_git_root posix_world s))
           (final_state (confirmation_prompt posix_world s)) project);
    vm_compute; reflexivity.
Defined.

Lemma quiet_install_tools (w : World) (python_exe : Path)
    (modules : list InstallSpec) :
  within quietly (install_tools w python_exe modules).
Proof.
  unfold install_tools, install_with_uv, install_with_pip.
  rewrite !build_pip, build_uv. quiet_walk.
Qed.

Lemma quiet_print_instructions (w : World) (template : string) :
  within quietly (print_instructions w template).
Proof. unfold print_instructions. quiet_walk. Qed.

(** What follows the Environment Builder in [main] creates nothing. *)
Lemma quiet_after_creation (w : World) (python_exe : Path) :
  within quietly
    (bind (install_tools w python_exe BOOTSTRAP_MODULES)
       (fun _ => bind (print_instructions w POST_INSTALL_MESSAGE)
                   (fun _ => ret 0%Z))).
Proof.
  apply within_bind; [exact quietly_trans | apply quiet_install_tools |].
  intros ?. apply within_bind;
    [exact quietly_trans | apply quiet_print_instructions |].
  intros ?. apply within_ret. exact quietly_refl.
Qed.

(** X16.  In one run [main] calls [venv.create] at most once, and only
    for the directory [.venv] under the root that [get_git_root] returned,
    and only when nothing existed at that path when the run began. *)
Theorem X16_one_environment_under_the_root :
  forall (w : World) (s : State),
    creations (emitted s (main w s)) = []
    \/ exists root s1,
         get_git_root w s = Ret root s1
         /\ exists_ s (root // ".venv") = false
         /\ creations (emitted s (main w s)) = [root // ".venv"].
Proof.
  intros w s.
  destruct (confirmation_prompt w s) as [[|] s2|code s2|e s2] eqn:E.
  2-4: left;
       assert (Hno : forall s1, confirmation_prompt w s <> Ret true s1)
         by (intros s1; rewrite E; discriminate);
       destruct (main_without_consent w s Hno) as (_ & _ & _ & extra & Ht & Hc & _);
       now rewrite (emitted_of_trace s _ extra Ht).
  destruct (confirmation_prompt_finds_root w s s2 E) as (root & s1 & Hroot).
  pose proof (confirmation_prompt_keeps_root w s s1 s2 root true Hroot E) as Hcache.
  destruct (git_only_confirmation_prompt w s) as (Hd & Hf & _ & x1 & Ht1 & Hc1 & _).
  rewrite E in Hd, Hf, Ht1. cbn [final_state] in Hd, Hf, Ht1.
  set (venv_dir := root // ".venv").
  set (python_exe := venv_python_path w venv_dir).
  set (s3 := log (bootstrapping_notice root) s2).
  assert (Hex : exists_ s3 venv_dir = exists_ s venv_dir)
    by (unfold s3; rewrite exists_log; apply (exists_same s s2 _ Hd Hf)).
  destruct (create_virtual_environment_trace w venv_dir python_exe s3)
    as (evs & Ht2 & Hc2).
  rewrite Hex in Hc2.
  assert (Hall : exists x3,
            trace (final_state (main w s))
            = trace s ++ x1 ++ [bootstrapping_notice root] ++ evs ++ x3
            /\ creations x3 = []).
  { rewrite (main_proceeds w s s2 root E Hcache). cbv zeta.
    fold venv_dir python_exe s3. unfold bind at 1.
    destruct (create_virtual_environment w venv_dir python_exe s3)
      as [[] s4|code s4|e s4]; cbn [final_state] in Ht2.
    - destruct (quiet_after_creation w python_exe s4) as (_ & _ & x3 & Ht3 & Hc3).
      exists x3. split; [|exact Hc3].
      rewrite Ht3, Ht2. unfold s3. cbn [trace log].
      rewrite Ht1, <- !app_assoc. reflexivity.
    - exists []. split; [|reflexivity]. cbn [final_state].
      rewrite Ht2. unfold s3. cbn [trace log].
      rewrite Ht1, <- !app_assoc, app_nil_r. reflexivity.
    - exists []. split; [|reflexivity]. cbn [final_state].
      rewrite Ht2. unfold s3. cbn [trace log].
      rewrite Ht1, <- !app_assoc, app_nil_r. reflexivity. }
  destruct Hall as (x3 & Ht & Hc3).
  rewrite (emitted_of_trace s _ _ Ht), !creations_app, Hc1, Hc2, Hc3.
  cbn [creations bootstrapping_notice app].
  destruct (exists_ s venv_dir) eqn:Hv.
  - left. reflexivity.
  - right. exists root, s1. now rewrite app_nil_r.
Qed.

(** The Tool Installer on [BOOTSTRAP_MODULES] when both installers
    succeed: [uv] through [pip], then [tox] and [tox-uv] through [uv]. *)
Lemma install_bootstrap_modules (w : World) (python_exe : Path) (s : State) :
  exists_ s python_exe = true ->
  (forall h, proc w h (BOOTSTRAP_UV python_exe) = Completed 0) ->
  (forall h, proc w h (BOOTSTRAP_TOOLS python_exe) = Completed 0) ->
  install_tools w python_exe BOOTSTRAP_MODULES s
  = Ret tt (log_all [tools_notice;
                     bootstrap_notice (mkInstallSpec "uv" ">=0.9.18" "");
                     Spawn (BOOTSTRAP_UV python_exe);
                     uv_notice;
                     Spawn (BOOTSTRAP_TOOLS python_exe)] s).
Proof.
  intros Hexe Huv Htools.
  rewrite (install_tools_uv w python_exe BOOTSTRAP_MODULES
             (mkInstallSpec "uv" ">=0.9.18" "") [] s Hexe eq_refl).
  change (pip_install python_exe [mkInstallSpec "uv" ">=0.9.18" ""])
    with (BOOTSTRAP_UV python_exe).
  rewrite (run_command_completed w (BOOTSTRAP_UV python_exe) _ eq_refl true 0%Z
             (Huv _) eq_refl).
  change (filter not_uv BOOTSTRAP_MODULES)
    with [mkInstallSpec "tox" ">=4.32.0" ""; mkInstallSpec "tox-uv" ">=1.29.0" ""].
  cbv beta iota.
  change (uv_pip_install python_exe
            [mkInstallSpec "tox" ">=4.32.0" ""; mkInstallSpec "tox-uv" ">=1.29.0" ""])
    with (BOOTSTRAP_TOOLS python_exe).
  rewrite (run_command_completed w (BOOTSTRAP_TOOLS python_exe) _ eq_refl true 0%Z
             (Htools _) eq_refl).
  reflexivity.
Qed.

(** X17.  A second run only updates the tools.  When the user has agreed
    and both [git_root / ".venv"] and the interpreter in it exist, and the
    two installer processes succeed, [main] returns 0 having printed that
    creation is skipped, run [pip install -U uv>=0.9.18] and then
    [uv pip install -U tox>=4.32.0 tox-uv>=1.29.0] with the interpreter of
    the environment, and printed the instructions: no [venv.create], no
    [ensurepip], no [pip] probe or upgrade. *)
Theorem X17_second_run_updates_the_tools :
  forall (w : World) (s s1 s2 : State) (root : Path),
    get_git_root w s = Ret root s1 ->
    confirmation_prompt w s = Ret true s2 ->
    let venv_dir := root // ".venv" in
    let python_exe := venv_python_path w venv_dir in
    exists_ s venv_dir = true ->
    exists_ s python_exe = true ->
    (forall h, proc w h (BOOTSTRAP_UV python_exe) = Completed 0) ->
    (forall h, proc w h (BOOTSTRAP_TOOLS python_exe) = Completed 0) ->
    main w s
    = Ret 0%Z
        (log_all [bootstrapping_notice root;
                  skip_notice venv_dir;
                  tools_notice;
                  bootstrap_notice (mkInstallSpec "uv" ">=0.9.18" "");
                  Spawn (BOOTSTRAP_UV python_exe);
                  uv_notice;
                  Spawn (BOOTSTRAP_TOOLS python_exe);
                  instructions_notice w] s2).
Proof.
  intros w s s1 s2 root Hroot Hyes venv_dir python_exe Hdir Hexe Huv Htools.
  destruct (git_only_confirmation_prompt w s) as (Hd & Hf & _).
  rewrite Hyes in Hd, Hf. cbn [final_state] in Hd, Hf.
  rewrite (main_proceeds w s s2 root Hyes
             (confirmation_prompt_keeps_root w s s1 s2 root true Hroot Hyes)).
  cbv zeta. fold venv_dir python_exe.
  erewrite bind_ret_step.
  2:{ apply create_virtual_environment_present.
      rewrite exists_log, (exists_same s s2 _ Hd Hf). exact Hdir. }
  erewrite bind_ret_step.
  2:{ apply install_bootstrap_modules; [|exact Huv|exact Htools].
      rewrite !exists_log, (exists_same s s2 _ Hd Hf). exact Hexe. }
  erewrite bind_ret_step by apply print_instructions_prints.
  reflexivity.
Qed.

Lemma X17_second_run_updates_the_tools_witness :
  let s := ready_state_with [Line "y"] in
  let s2 := final_state (confirmation_prompt posix_world s) in
  main posix_world s
  = Ret 0%Z
      (log_all [bootstrapping_notice project;
                skip_notice (project // ".venv");
                tools_notice;
                bootstrap_notice (mkInstallSpec "uv" ">=0.9.18" "");
                Spawn (BOOTSTRAP_UV venv_python);
                uv_notice;
                Spawn (BOOTSTRAP_TOOLS venv_python);
                instructions_notice posix_world] s2).
Proof.
  intros s s2.
  apply (X17_second_run_updates_the_tools posix_world s
           (final_state (get_git_root posix_world s)) s2 project);
    try (intros h); vm_compute; reflexivity.
Defined.

(** X18.  A first run, end to end.  When the user has agreed, nothing
    exists at [git_root / ".venv"], [venv.create] puts the interpreter in
    place, no answer about [pip] is cached and the five child processes
    succeed, [main] returns 0 after exactly these steps in this order:
    [venv.create], [ensurepip], the [pip] probe, the upgrade of [pip] by
    module, [uv] installed through [pip], [tox] and [tox-uv] installed
    through [uv], and the instructions. *)
Theorem X18_first_run_end_to_end :
  forall (w : World) (s s1 s2 : State) (root : Path),
    get_git_root w s = Ret root s1 ->
    confirmation_prompt w s = Ret true s2 ->
    let venv_dir := root // ".venv" in
    let python_exe := venv_python_path w venv_dir in
    exists_ s venv_dir = false ->
    exists_ (add_venv venv_dir (venv_layout w venv_dir) s) python_exe = true ->
    cache_lookup python_exe (pip_cache s) = None ->
    (forall h command,
        In command [ENSUREPIP python_exe; PIP_VERSION python_exe;
                    PIP_UPGRADE python_exe; BOOTSTRAP_UV python_exe;
                    BOOTSTRAP_TOOLS python_exe] ->
        proc w h command = Completed 0) ->
    exists s',
      main w s = Ret 0%Z s'
      /\ emitted s2 (main w s)
         = [bootstrapping_notice root;
            creating_notice venv_dir;
            CreateVenv venv_dir;
            ensuring_notice;
            Spawn (ENSUREPIP python_exe);
            upgrading_notice;
            Spawn (PIP_VERSION python_exe);
            Spawn (PIP_UPGRADE python_exe);
            tools_notice;
            bootstrap_notice (mkInstallSpec "uv" ">=0.9.18" "");
            Spawn (BOOTSTRAP_UV python_exe);
            uv_notice;
            Spawn (BOOTSTRAP_TOOLS python_exe);
            instructions_notice w]
      /\ dirs s' = venv_dir :: dirs s
      /\ files s' = venv_layout w venv_dir ++ files s.
Proof.
  intros w s s1 s2 root Hroot Hyes venv_dir python_exe Hdir Hexe Hcache Hproc.
  destruct (git_only_confirmation_prompt w s) as (Hd & Hf & Hp & _).
  rewrite Hyes in Hd, Hf, Hp. cbn [final_state] in Hd, Hf, Hp.
  set (s3 := log (bootstrapping_notice root) s2).
  assert (Hdir3 : exists_ s3 venv_dir = false)
    by (unfold s3; rewrite exists_log, (exists_same s s2 _ Hd Hf); exact Hdir).
  assert (Hexe3 : exists_ (add_venv venv_dir (venv_layout w venv_dir) s3)
                          python_exe = true).
  { unfold exists_ in *. cbn [dirs files add_venv log s3] in *.
    now rewrite Hd, Hf. }
  assert (Hcache3 : cache_lookup python_exe (pip_cache s3) = None)
    by (unfold s3; cbn [pip_cache log]; now rewrite Hp).
  assert (Hstart : forall h, proc w h (PIP_VERSION python_exe) <> NotStarted)
    by (intros h; rewrite (Hproc h _ (or_intror (or_introl eq_refl)));
        discriminate).
  destruct (create_virtual_environment_upgrade w venv_dir python_exe s3 Hdir3
              (fun h => Hproc h _ (or_introl eq_refl)) Hstart Hcache3 Hexe3)
    as (s_e & Ht & (Hde & Hfe) & E).
  cbv zeta in E.
  rewrite (Hproc (trace s_e) (PIP_VERSION python_exe)) in E
    by (right; left; reflexivity).
  cbn [succeeded Z.eqb] in E.
  rewrite (run_command_completed w (PIP_UPGRADE python_exe) _ eq_refl true 0%Z)
    in E by (try reflexivity; apply Hproc; right; right; left; reflexivity).
  rewrite (main_proceeds w s s2 root Hyes
             (confirmation_prompt_keeps_root w s s1 s2 root true Hroot Hyes)).
  cbv zeta. fold venv_dir python_exe s3.
  rewrite (bind_ret_step _ _ _ _ _ E).
  erewrite bind_ret_step.
  2:{ apply install_bootstrap_modules.
      - rewrite exists_log.
        change (exists_ (add_pip_cache python_exe true
                           (log (Spawn (PIP_VERSION python_exe)) s_e)) python_exe)
          with (exists_ s_e python_exe).
        rewrite (exists_same _ s_e _ Hde Hfe). exact Hexe3.
      - intros h. apply Hproc. do 3 right. left. reflexivity.
      - intros h. apply Hproc. do 4 right. left. reflexivity. }
  erewrite bind_ret_step by apply print_instructions_prints.
  unfold ret. eexists. split; [reflexivity|].
  split; [|split].
  - apply emitted_of_trace.
    cbn [final_state log_all fold_left trace log add_pip_cache set_pip_cache].
    rewrite Ht. unfold s3. cbn [trace log]. rewrite <- !app_assoc. reflexivity.
  - cbn [log_all fold_left dirs log add_pip_cache set_pip_cache]. rewrite Hde. unfold s3.
    cbn [dirs add_venv log]. now rewrite Hd.
  - cbn [log_all fold_left files log add_pip_cache set_pip_cache]. rewrite Hfe. unfold s3.
    cbn [files add_venv log]. now rewrite Hf.
Qed.

Lemma X18_first_run_end_to_end_witness :
  let s := fresh_state [Line "y"] in
  exists s',
    main posix_world s = Ret 0%Z s'
    /\ spawned (final_state (confirmation_prompt posix_world s))
               (main posix_world s)
       = [ENSUREPIP venv_python; PIP_VERSION venv_python;
          PIP_UPGRADE venv_python; BOOTSTRAP_UV venv_python;
          BOOTSTRAP_TOOLS venv_python]
    /\ dirs s' = [project // ".venv"; project].
Proof.
  intros s.
  destruct (X18_first_run_end_to_end posix_world s
              (final_state (get_git_root posix_world s))
              (final_state (confirmation_prompt posix_world s)) project
              eq_refl eq_refl eq_refl eq_refl eq_refl (fun _ _ _ => eq_refl))
    as (s' & E & Hev & Hdirs & _).
  exists s'. split; [exact E|]. split; [|exact Hdirs].
  unfold spawned. rewrite Hev. reflexivity.
Defined.

(** ** The prompt, for any input *)

(** For an answer the loop lets through, membership in [('', 'y', 'yes')]
    is membership in [('y', 'yes')]. *)
Lemma decided_answer_means (a : string) :
  undecided a = false ->
  Str.mem (Str.strip (Str.lower a)) [""; "y"; "yes"]
  = Str.mem (Str.strip (Str.lower a)) ["y"; "yes"].
Proof.
  intros H. pose proof (decided_is_not_empty a H) as Hne.
  unfold Str.mem. cbn [existsb].
  destruct (String.eqb_spec (Str.strip (Str.lower a)) "") as [E|_];
    [contradiction | reflexivity].
Qed.

(** X19.  The first decided answer rules.  With the repository root
    found, after any number of undecided answers the prompt has been shown
    once for each of them and once more; the first answer that is [y],
    [yes], [n] or [no] up to case and surrounding white space ends the
    loop; the result is [true] exactly when that answer is [y] or [yes];
    the input after it is left unread. *)
Theorem X19_first_decided_answer_rules :
  forall (w : World) (s s1 : State) (root : Path) (junk : list string)
         (a : string) (rest : list InputEvent),
    get_git_root w s = Ret root s1 ->
    Forall (fun b => undecided b = true) junk ->
    undecided a = false ->
    stdin s1 = map Line junk ++ Line a :: rest ->
    confirmation_prompt w s
    = Ret (Str.mem (Str.strip (Str.lower a)) ["y"; "yes"])
          (after_prompts (S (length junk)) rest (banner w root s1)).
Proof.
  intros w s s1 root junk a rest Hroot Hjunk Ha Hin.
  rewrite <- (decided_answer_means a Ha).
  exact (confirmation_prompt_answered w s s1 root Hroot junk Hjunk a rest Hin Ha).
Qed.

Lemma X19_first_decided_answer_rules_witness :
  let s := fresh_state [Line "maybe"; Line ""; Line "  YeS "; Line "n"] in
  let s1 := final_state (get_git_root posix_world s) in
  confirmation_prompt posix_world s
  = Ret true (after_prompts 3 [Line "n"] (banner posix_world project s1)).
Proof.
  intros s s1.
  apply (X19_first_decided_answer_rules posix_world s s1 project
           ["maybe"; ""] "  YeS " [Line "n"]).
  - reflexivity.
  - repeat constructor.
  - reflexivity.
  - reflexivity.
Defined.
